(** * Wyrmline console UI: a shallow embedding of [src/ConsoleUI.cpp]

    The development follows the C++ class [ConsoleUI]: its data members are
    the fields of a record, every member function that changes the object is
    a function from objects to objects, and what the program obtains from
    the curses library (the key returned by [wgetch], the size of [stdscr],
    the outcome of [newwin]) is an explicit environment.

    Conventions.
    - [int] values are integers of [Z]; all quantities are bounded by the
      terminal size and by the scrollback capacity, and signed overflow is
      undefined in C++, so no wrap-around is written out.
    - [size_t] sizes are [nat].
    - An out-of-range [operator[]] on a vector (undefined behaviour) and an
      out-of-range [std::string::erase]/[insert] (which throws) are [None].
    - Calls that only paint the terminal ([clear], [refresh], [wbkgd], [box],
      [beep], [doupdate], ...) do not change the object and are left out;
      the lines handed to [mvwaddnstr] by [drawOutputWindow] are kept. *)

From Stdlib Require Import ZArith List String Ascii Bool Lia DecimalString.
Import ListNotations.

Open Scope Z_scope.

(** ** Error monad for undefined behaviour and thrown exceptions *)

Definition bind {A B : Type} (m : option A) (f : A -> option B) : option B :=
  match m with
  | Some a => f a
  | None => None
  end.

Notation "x <- m ;; k" := (bind m (fun x => k))
  (at level 61, m at next level, right associativity).

(** ** Library types *)

(** [std::expected<void, E>]. *)
Inductive expected_void (E : Type) : Type :=
| has_value_ : expected_void E
| unexpected (e : E) : expected_void E.
Arguments has_value_ {E}.
Arguments unexpected {E} e.

Definition has_value {E : Type} (x : expected_void E) : bool :=
  match x with
  | has_value_ => true
  | unexpected _ => false
  end.

Inductive ResizeError : Type := TERMINAL_TOO_SMALL.

(** A curses window: the library's opaque [WINDOW].  Only its size (what
    [getmaxyx] reports) and its origin are visible to the program. *)
Record WINDOW : Type := mkWINDOW {
  _maxy : nat;
  _maxx : nat;
  _begy : Z;
  _begx : Z
}.

Definition getmaxyx (w : WINDOW) : Z * Z := (Z.of_nat (_maxy w), Z.of_nat (_maxx w)).

(** The key codes of [curses.h].  The header is not part of the sources, so
    the codes are parameters of the model. *)
Record KeyCodes : Type := mkKeyCodes {
  ERR : Z;
  KEY_RESIZE : Z;
  KEY_BACKSPACE : Z;
  KEY_DC : Z;
  KEY_LEFT : Z;
  KEY_RIGHT : Z;
  KEY_HOME : Z;
  KEY_END : Z;
  KEY_UP : Z;
  KEY_DOWN : Z;
  KEY_ENTER : Z;
  KEY_PPAGE : Z;
  KEY_NPAGE : Z
}.

(** What one call of [handleInput] obtains from curses. *)
Record Env : Type := mkEnv {
  wgetch : Z;                                     (* the polled key, or ERR *)
  stdscr_maxyx : Z * Z;                           (* getmaxyx(stdscr, h, w) *)
  newwin : Z -> Z -> Z -> Z -> option WINDOW      (* NULL is None *)
}.

(** ** [std::string] and [std::vector] operations *)

Definition string_length (s : string) : Z := Z.of_nat (String.length s).

Definition string_empty (s : string) : bool :=
  match s with
  | EmptyString => true
  | String _ _ => false
  end.

(** [s.erase(pos, n)]: throws [std::out_of_range] when [pos > s.size()]
    (a negative [int] converts to a huge [size_t]). *)
Definition string_erase (s : string) (pos : Z) (n : nat) : option string :=
  if (0 <=? pos) && (pos <=? string_length s) then
    let p := Z.to_nat pos in
    Some (String.append (substring 0 p s)
                        (substring (p + n) (String.length s - (p + n)) s))
  else None.

(** [s.insert(pos, 1, c)]: throws when [pos > s.size()]. *)
Definition string_insert (s : string) (pos : Z) (c : ascii) : option string :=
  if (0 <=? pos) && (pos <=? string_length s) then
    let p := Z.to_nat pos in
    Some (String.append (substring 0 p s)
                        (String c (substring p (String.length s - p) s)))
  else None.

(** [v[i]] for an [int] index: undefined outside [0, v.size()). *)
Definition vector_at (v : list string) (i : Z) : option string :=
  if i <? 0 then None else nth_error v (Z.to_nat i).

(** [v.back()], used only behind a [!v.empty()] test. *)
Definition vector_back (v : list string) : string := last v EmptyString.

Definition vector_empty (v : list string) : bool :=
  match v with
  | [] => true
  | _ :: _ => false
  end.

Definition vector_size (v : list string) : Z := Z.of_nat (List.length v).

(** [std::format] with the two format strings of the program. *)
Definition format_echo (s : string) : string := String.append "> " s.

Definition format_unknown (s : string) : string :=
  String.append "Unknown: '" (String.append s "'").

(** ** The object *)

Record ConsoleUI : Type := mkConsoleUI {
  m_outputWin : option WINDOW;
  m_outputBorderWin : option WINDOW;
  m_inputWin : option WINDOW;
  m_inputBorderWin : option WINDOW;
  m_termHeight : Z;
  m_termWidth : Z;
  m_outputHeight : Z;
  m_inputHeight : Z;
  m_outputBuffer : list string;
  m_scrollOffset : Z;
  m_inputBuffer : string;
  m_cursorPos : Z;
  m_commandHistory : list string;
  m_historyIndex : Z;
  m_isRunning : bool;
  m_resizeStatus : expected_void ResizeError
}.

(** [const int m_minHeight = 10; const int m_minWidth = 40;] *)
Definition m_minHeight : Z := 10.
Definition m_minWidth : Z := 40.

(** [const size_t MAX_BUFFER_SIZE = 1000;] of [addOutputMessage]. *)
Definition MAX_BUFFER_SIZE : nat := 1000.

(** Assignments to single members. *)
Definition set_windows (ob o ib i : option WINDOW) (ui : ConsoleUI) : ConsoleUI :=
  mkConsoleUI o ob i ib
    (m_termHeight ui) (m_termWidth ui) (m_outputHeight ui) (m_inputHeight ui)
    (m_outputBuffer ui) (m_scrollOffset ui) (m_inputBuffer ui) (m_cursorPos ui)
    (m_commandHistory ui) (m_historyIndex ui) (m_isRunning ui) (m_resizeStatus ui).

Definition set_term (h w : Z) (ui : ConsoleUI) : ConsoleUI :=
  mkConsoleUI (m_outputWin ui) (m_outputBorderWin ui) (m_inputWin ui) (m_inputBorderWin ui)
    h w (m_outputHeight ui) (m_inputHeight ui)
    (m_outputBuffer ui) (m_scrollOffset ui) (m_inputBuffer ui) (m_cursorPos ui)
    (m_commandHistory ui) (m_historyIndex ui) (m_isRunning ui) (m_resizeStatus ui).

Definition set_outputHeight (oh : Z) (ui : ConsoleUI) : ConsoleUI :=
  mkConsoleUI (m_outputWin ui) (m_outputBorderWin ui) (m_inputWin ui) (m_inputBorderWin ui)
    (m_termHeight ui) (m_termWidth ui) oh (m_inputHeight ui)
    (m_outputBuffer ui) (m_scrollOffset ui) (m_inputBuffer ui) (m_cursorPos ui)
    (m_commandHistory ui) (m_historyIndex ui) (m_isRunning ui) (m_resizeStatus ui).

Definition set_outputBuffer (b : list string) (ui : ConsoleUI) : ConsoleUI :=
  mkConsoleUI (m_outputWin ui) (m_outputBorderWin ui) (m_inputWin ui) (m_inputBorderWin ui)
    (m_termHeight ui) (m_termWidth ui) (m_outputHeight ui) (m_inputHeight ui)
    b (m_scrollOffset ui) (m_inputBuffer ui) (m_cursorPos ui)
    (m_commandHistory ui) (m_historyIndex ui) (m_isRunning ui) (m_resizeStatus ui).

Definition set_scrollOffset (s : Z) (ui : ConsoleUI) : ConsoleUI :=
  mkConsoleUI (m_outputWin ui) (m_outputBorderWin ui) (m_inputWin ui) (m_inputBorderWin ui)
    (m_termHeight ui) (m_termWidth ui) (m_outputHeight ui) (m_inputHeight ui)
    (m_outputBuffer ui) s (m_inputBuffer ui) (m_cursorPos ui)
    (m_commandHistory ui) (m_historyIndex ui) (m_isRunning ui) (m_resizeStatus ui).

Definition set_inputBuffer (t : string) (ui : ConsoleUI) : ConsoleUI :=
  mkConsoleUI (m_outputWin ui) (m_outputBorderWin ui) (m_inputWin ui) (m_inputBorderWin ui)
    (m_termHeight ui) (m_termWidth ui) (m_outputHeight ui) (m_inputHeight ui)
    (m_outputBuffer ui) (m_scrollOffset ui) t (m_cursorPos ui)
    (m_commandHistory ui) (m_historyIndex ui) (m_isRunning ui) (m_resizeStatus ui).

Definition set_cursorPos (c : Z) (ui : ConsoleUI) : ConsoleUI :=
  mkConsoleUI (m_outputWin ui) (m_outputBorderWin ui) (m_inputWin ui) (m_inputBorderWin ui)
    (m_termHeight ui) (m_termWidth ui) (m_outputHeight ui) (m_inputHeight ui)
    (m_outputBuffer ui) (m_scrollOffset ui) (m_inputBuffer ui) c
    (m_commandHistory ui) (m_historyIndex ui) (m_isRunning ui) (m_resizeStatus ui).

Definition set_commandHistory (h : list string) (ui : ConsoleUI) : ConsoleUI :=
  mkConsoleUI (m_outputWin ui) (m_outputBorderWin ui) (m_inputWin ui) (m_inputBorderWin ui)
    (m_termHeight ui) (m_termWidth ui) (m_outputHeight ui) (m_inputHeight ui)
    (m_outputBuffer ui) (m_scrollOffset ui) (m_inputBuffer ui) (m_cursorPos ui)
    h (m_historyIndex ui) (m_isRunning ui) (m_resizeStatus ui).

Definition set_historyIndex (i : Z) (ui : ConsoleUI) : ConsoleUI :=
  mkConsoleUI (m_outputWin ui) (m_outputBorderWin ui) (m_inputWin ui) (m_inputBorderWin ui)
    (m_termHeight ui) (m_termWidth ui) (m_outputHeight ui) (m_inputHeight ui)
    (m_outputBuffer ui) (m_scrollOffset ui) (m_inputBuffer ui) (m_cursorPos ui)
    (m_commandHistory ui) i (m_isRunning ui) (m_resizeStatus ui).

Definition set_isRunning (r : bool) (ui : ConsoleUI) : ConsoleUI :=
  mkConsoleUI (m_outputWin ui) (m_outputBorderWin ui) (m_inputWin ui) (m_inputBorderWin ui)
    (m_termHeight ui) (m_termWidth ui) (m_outputHeight ui) (m_inputHeight ui)
    (m_outputBuffer ui) (m_scrollOffset ui) (m_inputBuffer ui) (m_cursorPos ui)
    (m_commandHistory ui) (m_historyIndex ui) r (m_resizeStatus ui).

Definition set_resizeStatus (r : expected_void ResizeError) (ui : ConsoleUI) : ConsoleUI :=
  mkConsoleUI (m_outputWin ui) (m_outputBorderWin ui) (m_inputWin ui) (m_inputBorderWin ui)
    (m_termHeight ui) (m_termWidth ui) (m_outputHeight ui) (m_inputHeight ui)
    (m_outputBuffer ui) (m_scrollOffset ui) (m_inputBuffer ui) (m_cursorPos ui)
    (m_commandHistory ui) (m_historyIndex ui) (m_isRunning ui) r.

(** ** Output scrollback *)

(** [ConsoleUI::addOutputMessage]: [push_back], then erase the first
    [size - MAX_BUFFER_SIZE] elements when the size exceeds the bound. *)
Definition push_bounded (buffer : list string) (message : string) : list string :=
  let b := buffer ++ [message] in
  if (MAX_BUFFER_SIZE <? List.length b)%nat
  then skipn (List.length b - MAX_BUFFER_SIZE) b
  else b.

Definition addOutputMessage (message : string) (ui : ConsoleUI) : ConsoleUI :=
  set_outputBuffer (push_bounded (m_outputBuffer ui) message) ui.

(** A sequence of appends, oldest first. *)
Definition addOutputMessages (messages : list string) (ui : ConsoleUI) : ConsoleUI :=
  fold_left (fun u m => addOutputMessage m u) messages ui.

(** One call [mvwaddnstr(win, y, x, str, n)]; the string is [None] when the
    program would read the buffer outside its bounds. *)
Record mvwaddnstr_call : Type := mk_mvwaddnstr {
  call_y : Z;
  call_x : Z;
  call_str : option string;
  call_n : Z
}.

(** The [for] loop of [ConsoleUI::drawOutputWindow], [count] iterations from
    index [i]: the row and the buffer line of each call it makes, in order,
    until the [break]. *)
Fixpoint drawOutputWindow_loop (buffer : list string) (winHeight firstLineIdx : Z)
    (count : nat) (i : Z) : list (Z * option string) :=
  match count with
  | O => []
  | S count' =>
      let screenY := i - firstLineIdx in
      if screenY >=? winHeight then []
      else (screenY, vector_at buffer i)
             :: drawOutputWindow_loop buffer winHeight firstLineIdx count' (i + 1)
  end.

(** Lines 231-239 of [drawOutputWindow]: the index range and the loop over
    it, [for (i = firstLineIdx; i < lastLineIdx; ++i)]. *)
Definition drawOutputWindow_lines (buffer : list string) (winHeight scrollOffset : Z)
    : list (Z * option string) :=
  let bufferSize := vector_size buffer in
  let firstLineIdx := Z.max 0 (bufferSize - winHeight - scrollOffset) in
  let lastLineIdx := Z.max 0 (bufferSize - scrollOffset) in
  drawOutputWindow_loop buffer winHeight firstLineIdx
    (Z.to_nat (lastLineIdx - firstLineIdx)) firstLineIdx.

(** [ConsoleUI::drawOutputWindow]: the text calls it issues. *)
Definition drawOutputWindow (ui : ConsoleUI) : list mvwaddnstr_call :=
  match m_outputWin ui with
  | None => []
  | Some win =>
      let '(winHeight, winWidth) := getmaxyx win in
      if (winHeight <=? 0) || (winWidth <=? 0) then []
      else map (fun r => mk_mvwaddnstr (fst r) 0 (snd r) winWidth)
               (drawOutputWindow_lines (m_outputBuffer ui) winHeight (m_scrollOffset ui))
  end.

(** ** Commands *)

(** [ConsoleUI::stop]. *)
Definition stop (ui : ConsoleUI) : ConsoleUI := set_isRunning false ui.

(** [ConsoleUI::processCommand]. *)
Definition processCommand (command : string) (ui : ConsoleUI) : ConsoleUI :=
  if String.eqb command "exit" then stop ui
  else if String.eqb command "clear" then set_scrollOffset 0 (set_outputBuffer [] ui)
  else if String.eqb command "help" then
    addOutputMessage "Commands: exit, clear, help. Scroll: PgUp/PgDn" ui
  else addOutputMessage (format_unknown command) ui.

(** ** Layout *)

Definition reset_windows (ui : ConsoleUI) : ConsoleUI :=
  set_windows None None None None ui.

(** [ConsoleUI::setupWindows]: the object afterwards and the returned
    [std::expected<void, ResizeError>]. *)
Definition setupWindows (newwin : Z -> Z -> Z -> Z -> option WINDOW)
    (height width : Z) (ui : ConsoleUI) : ConsoleUI * expected_void ResizeError :=
  let ui := set_term height width ui in
  if (m_termHeight ui <? m_minHeight) || (m_termWidth ui <? m_minWidth) then
    (reset_windows ui, unexpected TERMINAL_TOO_SMALL)
  else
    let ui := set_outputHeight (m_termHeight ui - m_inputHeight ui) ui in
    let ui := reset_windows ui in
    let outputBorderWin := newwin (m_outputHeight ui) (m_termWidth ui) 0 0 in
    let inputBorderWin :=
      newwin (m_inputHeight ui) (m_termWidth ui) (m_outputHeight ui) 0 in
    let ui := set_windows outputBorderWin None inputBorderWin None ui in
    match outputBorderWin, inputBorderWin with
    | Some _, Some _ =>
        let outputInnerH := if m_outputHeight ui >? 2 then m_outputHeight ui - 2 else 0 in
        let outputInnerW := if m_termWidth ui >? 2 then m_termWidth ui - 2 else 0 in
        let inputInnerH := if m_inputHeight ui >? 2 then m_inputHeight ui - 2 else 0 in
        let inputInnerW := if m_termWidth ui >? 2 then m_termWidth ui - 2 else 0 in
        let outputWin := newwin outputInnerH outputInnerW 1 1 in
        let inputWin := newwin inputInnerH inputInnerW (m_outputHeight ui + 1) 1 in
        let ui := set_windows outputBorderWin outputWin inputBorderWin inputWin ui in
        match outputWin, inputWin with
        | Some _, Some _ => (ui, has_value_)
        | _, _ => (ui, unexpected TERMINAL_TOO_SMALL)
        end
    | _, _ => (ui, unexpected TERMINAL_TOO_SMALL)
    end.

(** [ConsoleUI::handleResize]. *)
Definition handleResize (env : Env) (ui : ConsoleUI) : ConsoleUI :=
  let '(h, w) := stdscr_maxyx env in
  let wasTooSmall := negb (has_value (m_resizeStatus ui)) in
  let '(ui, status) := setupWindows (newwin env) h w ui in
  let ui := set_resizeStatus status ui in
  if wasTooSmall && has_value (m_resizeStatus ui) then
    addOutputMessage "Terminal resized to usable dimensions." ui
  else ui.

(** Modelled from the spec: the constructor [ConsoleUI(termHeight, termWidth)]
    with the default member initialisers.  The header under [include/]
    gives 20 and 3 for the heights, 0 for the scroll offset, [false] for
    [m_isRunning] and a default (valued) [m_resizeStatus]; the declarations
    of [m_inputBuffer], [m_cursorPos], [m_commandHistory] and
    [m_historyIndex] are missing from it: the line starts empty with the
    cursor at 0, History starts empty and historyIndex is -1 (not
    browsing), the values the move constructor also leaves behind. *)
Definition ConsoleUI_ctor (termHeight termWidth : Z) : ConsoleUI :=
  mkConsoleUI None None None None
    termHeight termWidth 20 3
    [] 0 EmptyString 0
    [] (-1) false has_value_.

(** The end of [ConsoleUI::create], once curses is initialised:
    [ConsoleUI ui(height, width); ui.m_resizeStatus = ui.setupWindows(height, width);]. *)
Definition create (env : Env) : ConsoleUI :=
  let '(height, width) := stdscr_maxyx env in
  let '(ui, status) := setupWindows (newwin env) height width (ConsoleUI_ctor height width) in
  set_resizeStatus status ui.

(** ** Input handling *)

(** The [case] groups of the [switch] of [handleInput]. *)
Inductive SwitchCase : Type :=
| case_RESIZE
| case_BACKSPACE
| case_DC
| case_LEFT
| case_RIGHT
| case_HOME
| case_END
| case_UP
| case_DOWN
| case_ENTER
| case_PPAGE
| case_NPAGE
| case_default.

(** The bodies of the [case] groups of the [switch] of [handleInput]; [ch]
    is [wgetch env]. *)
Definition handleInput_switch (c : SwitchCase) (env : Env) (ui : ConsoleUI)
    : option ConsoleUI :=
  let ch := wgetch env in
  match c with
  | case_RESIZE => Some (handleResize env ui)
  | case_BACKSPACE =>
      if m_cursorPos ui >? 0 then
        b <- string_erase (m_inputBuffer ui) (m_cursorPos ui - 1) 1 ;;
        Some (set_cursorPos (m_cursorPos ui - 1) (set_inputBuffer b ui))
      else Some ui
  | case_DC =>
      if m_cursorPos ui <? string_length (m_inputBuffer ui) then
        b <- string_erase (m_inputBuffer ui) (m_cursorPos ui) 1 ;;
        Some (set_inputBuffer b ui)
      else Some ui
  | case_LEFT =>
      if m_cursorPos ui >? 0 then Some (set_cursorPos (m_cursorPos ui - 1) ui)
      else Some ui
  | case_RIGHT =>
      if m_cursorPos ui <? string_length (m_inputBuffer ui)
      then Some (set_cursorPos (m_cursorPos ui + 1) ui)
      else Some ui
  | case_HOME => Some (set_cursorPos 0 ui)
  | case_END => Some (set_cursorPos (string_length (m_inputBuffer ui)) ui)
  | case_UP =>
      if negb (vector_empty (m_commandHistory ui)) then
        let ui :=
          if m_historyIndex ui =? -1
          then set_historyIndex (vector_size (m_commandHistory ui) - 1) ui
          else if m_historyIndex ui >? 0
               then set_historyIndex (m_historyIndex ui - 1) ui
               else ui in
        b <- vector_at (m_commandHistory ui) (m_historyIndex ui) ;;
        let ui := set_inputBuffer b ui in
        Some (set_cursorPos (string_length (m_inputBuffer ui)) ui)
      else Some ui
  | case_DOWN =>
      if negb (m_historyIndex ui =? -1) then
        if m_historyIndex ui <? vector_size (m_commandHistory ui) - 1 then
          let ui := set_historyIndex (m_historyIndex ui + 1) ui in
          b <- vector_at (m_commandHistory ui) (m_historyIndex ui) ;;
          let ui := set_inputBuffer b ui in
          Some (set_cursorPos (string_length (m_inputBuffer ui)) ui)
        else
          Some (set_cursorPos 0 (set_inputBuffer EmptyString (set_historyIndex (-1) ui)))
      else Some ui
  | case_ENTER =>
      if has_value (m_resizeStatus ui) && negb (string_empty (m_inputBuffer ui)) then
        let ui := addOutputMessage (format_echo (m_inputBuffer ui)) ui in
        let ui := processCommand (m_inputBuffer ui) ui in
        let ui :=
          if negb (String.eqb (m_inputBuffer ui) "exit")
             && (vector_empty (m_commandHistory ui)
                 || negb (String.eqb (vector_back (m_commandHistory ui)) (m_inputBuffer ui)))
          then set_commandHistory (m_commandHistory ui ++ [m_inputBuffer ui]) ui
          else ui in
        Some (set_scrollOffset 0
               (set_historyIndex (-1)
                 (set_cursorPos 0
                   (set_inputBuffer EmptyString ui))))
      else Some ui
  | case_PPAGE =>
      match m_outputWin ui with
      | Some win =>
          if has_value (m_resizeStatus ui) then
            let '(wh, ww) := getmaxyx win in
            let bs := vector_size (m_outputBuffer ui) in
            let ms := Z.max 0 (bs - wh) in
            Some (set_scrollOffset (Z.min ms (m_scrollOffset ui + wh)) ui)
          else Some ui
      | None => Some ui
      end
  | case_NPAGE =>
      match m_outputWin ui with
      | Some win =>
          if has_value (m_resizeStatus ui) then
            let '(wh, ww) := getmaxyx win in
            let ui := set_scrollOffset (m_scrollOffset ui - wh) ui in
            Some (if m_scrollOffset ui <? 0 then set_scrollOffset 0 ui else ui)
          else Some ui
      | None => Some ui
      end
  | case_default =>
      if has_value (m_resizeStatus ui) && (ch >=? 32) && (ch <=? 126) then
        b <- string_insert (m_inputBuffer ui) (m_cursorPos ui)
               (ascii_of_nat (Z.to_nat ch)) ;;
        Some (set_cursorPos (m_cursorPos ui + 1) (set_inputBuffer b ui))
      else Some ui
  end.

Section WithKeyCodes.

Variable K : KeyCodes.

(** The [case] labels in source order, each with its group. *)
Definition switch_labels : list (Z * SwitchCase) :=
  [ (KEY_RESIZE K, case_RESIZE);
    (KEY_BACKSPACE K, case_BACKSPACE); (127, case_BACKSPACE); (8, case_BACKSPACE);
    (KEY_DC K, case_DC);
    (KEY_LEFT K, case_LEFT);
    (KEY_RIGHT K, case_RIGHT);
    (KEY_HOME K, case_HOME);
    (KEY_END K, case_END);
    (KEY_UP K, case_UP);
    (KEY_DOWN K, case_DOWN);
    (KEY_ENTER K, case_ENTER); (10, case_ENTER); (13, case_ENTER);
    (KEY_PPAGE K, case_PPAGE);
    (KEY_NPAGE K, case_NPAGE) ].

(** [switch (ch)]: the group of the label equal to [ch], else [default]. *)
Definition switch (ch : Z) : SwitchCase :=
  match find (fun lc => fst lc =? ch) switch_labels with
  | Some lc => snd lc
  | None => case_default
  end.

(** [ConsoleUI::handleInput] for the key [wgetch env]: the two tests ahead
    of the [switch], then the [switch]. *)
Definition handleInput (env : Env) (ui : ConsoleUI) : option ConsoleUI :=
  let ch := wgetch env in
  if negb (has_value (m_resizeStatus ui)) && negb (ch =? KEY_RESIZE K) && negb (ch =? ERR K)
  then Some ui
  else if ch =? ERR K then Some ui
  else handleInput_switch (switch ch) env ui.

(** The polling part of [ConsoleUI::run]: one [handleInput] per element of
    [envs] while [m_isRunning] holds (drawing does not change the object). *)
Fixpoint run_loop (envs : list Env) (ui : ConsoleUI) : option ConsoleUI :=
  match envs with
  | [] => Some ui
  | env :: envs' =>
      if m_isRunning ui then
        ui' <- handleInput env ui ;;
        run_loop envs' ui'
      else Some ui
  end.


End WithKeyCodes.

(** The labels of a [switch] are pairwise distinct (the program would not
    compile otherwise), and [ERR] is not the code of a key. *)
Definition keycodes_ok (K : KeyCodes) : Prop :=
  NoDup (map fst (switch_labels K)) /\ ~ In (ERR K) (map fst (switch_labels K)).

(** The codes of the PDCurses header the program includes. *)
Definition pdcurses : KeyCodes :=
  mkKeyCodes (-1) 0x222 0x107 0x14a 0x104 0x105 0x106 0x166 0x103 0x102 0x157 0x153 0x152.

(** ** Vocabulary of the statements *)

(** The elements of [buffer] with indices in [[first, last)], in order. *)
Definition slice (buffer : list string) (first last : nat) : list string :=
  firstn (last - first) (skipn first buffer).

(** The invariants of a [ConsoleUI]: the cursor is inside the line, the
    history index is -1 or an index of History, the scroll offset is not
    negative, the input region has 3 rows, the scrollback respects its
    capacity, and "exit" is not in History. *)
Definition wf (ui : ConsoleUI) : Prop :=
  0 <= m_cursorPos ui <= string_length (m_inputBuffer ui) /\
  (m_historyIndex ui = -1 \/
   0 <= m_historyIndex ui < vector_size (m_commandHistory ui)) /\
  0 <= m_scrollOffset ui /\
  m_inputHeight ui = 3 /\
  (List.length (m_outputBuffer ui) <= MAX_BUFFER_SIZE)%nat /\
  ~ In "exit"%string (m_commandHistory ui).

(** A sequence of polls, each handled by [handleInput]. *)
Fixpoint handleInputs (K : KeyCodes) (envs : list Env) (ui : ConsoleUI)
    : option ConsoleUI :=
  match envs with
  | [] => Some ui
  | env :: envs' =>
      ui' <- handleInput K env ui ;;
      handleInputs K envs' ui'
  end.

(** An allocator that never fails and returns a window of the requested
    size at the requested origin. *)
Definition newwin_ok (nlines ncols begy begx : Z) : option WINDOW :=
  Some (mkWINDOW (Z.to_nat nlines) (Z.to_nat ncols) begy begx).

(** An allocator that runs out of memory after the first window: only the
    request at the top left corner of the screen succeeds. *)
Definition newwin_first_only (nlines ncols begy begx : Z) : option WINDOW :=
  if (begy =? 0) && (begx =? 0)
  then Some (mkWINDOW (Z.to_nat nlines) (Z.to_nat ncols) begy begx)
  else None.

(** The four surfaces are all valid or all absent. *)
Definition all_or_none (ui : ConsoleUI) : Prop :=
  (m_outputBorderWin ui <> None /\ m_outputWin ui <> None /\
   m_inputBorderWin ui <> None /\ m_inputWin ui <> None) \/
  (m_outputBorderWin ui = None /\ m_outputWin ui = None /\
   m_inputBorderWin ui = None /\ m_inputWin ui = None).

(** The messages [processCommand] appends for a command other than "clear". *)
Definition command_messages (command : string) : list string :=
  if String.eqb command "exit" then []
  else if String.eqb command "help"
       then ["Commands: exit, clear, help. Scroll: PgUp/PgDn"%string]
       else [format_unknown command].

(** Sample data: the line "l<n>", a Ready 24 x 80 terminal, and polls of
    single keys on it under the PDCurses codes. *)
Definition line_name (n : nat) : string :=
  String.append "l" (NilEmpty.string_of_uint (Nat.to_uint n)).

Definition sample_lines (n : nat) : list string := map line_name (seq 0 n).

Definition sample_key (ch : Z) : Env := mkEnv ch (24, 80) newwin_ok.

Definition sample_ui : ConsoleUI := create (sample_key (-1)).

(** [sample_ui] with ten lines in the scrollback, seen through an output
    window of four rows. *)
Definition sample_scrollback : ConsoleUI :=
  addOutputMessages (sample_lines 10)
    (set_windows (m_outputBorderWin sample_ui) (Some (mkWINDOW 4 78 1 1))
                 (m_inputBorderWin sample_ui) (m_inputWin sample_ui) sample_ui).

(** ** Vocabulary of the further properties *)

(** The key codes [wgetch] returns for the characters of a string. *)
Definition key_codes (s : string) : list Z :=
  map (fun a => Z.of_nat (nat_of_ascii a)) (list_ascii_of_string s).

(** The codes the [default] case of [handleInput] inserts. *)
Definition printable (ch : Z) : Prop := 32 <= ch <= 126.

(** One poll per key code, on a terminal of size [scr] with allocator [nw]. *)
Definition polls (scr : Z * Z) (nw : Z -> Z -> Z -> Z -> option WINDOW)
    (codes : list Z) : list Env :=
  map (fun ch => mkEnv ch scr nw) codes.

(** No label of the [switch] and not [ERR] either is a printable character:
    the function keys of curses lie above the character range. *)
Definition keycodes_unprintable (K : KeyCodes) : Prop :=
  (forall l c, In (l, c) (switch_labels K) -> ~ printable l) /\ ~ printable (ERR K).

(** The keys of the [KEY_ENTER] and of the [KEY_BACKSPACE] case. *)
Definition is_enter (K : KeyCodes) (ch : Z) : Prop :=
  ch = KEY_ENTER K \/ ch = 10 \/ ch = 13.

Definition is_backspace (K : KeyCodes) (ch : Z) : Prop :=
  ch = KEY_BACKSPACE K \/ ch = 127 \/ ch = 8.

(** No two neighbours of the list are equal. *)
Fixpoint no_adjacent_dup (l : list string) : Prop :=
  match l with
  | [] => True
  | x :: t =>
      match t with
      | [] => True
      | y :: _ => x <> y /\ no_adjacent_dup t
      end
  end.


(** A poll [handleInput] ignores: no key was pending, or the layout is
    TooSmall and the key is not a resize, or the key is neither a label of
    the [switch] nor a printable character. *)
Definition ignored_poll (K : KeyCodes) (ui : ConsoleUI) (env : Env) : Prop :=
  wgetch env = ERR K \/
  (has_value (m_resizeStatus ui) = false /\ wgetch env <> KEY_RESIZE K) \/
  ((forall c, ~ In (wgetch env, c) (switch_labels K)) /\ ~ printable (wgetch env)).

(** The signal numbers of [<csignal>] that [handleSignal] reacts to are
    parameters; [g_consoleUIInstance] is the registered object, if any. *)
Definition handleSignal (SIGINT SIGTERM : Z) (signum : Z) (g_consoleUIInstance : option ConsoleUI)
    : option ConsoleUI :=
  match g_consoleUIInstance with
  | Some instance =>
      if (signum =? SIGINT) || (signum =? SIGTERM) then Some (stop instance)
      else Some instance
  | None => None
  end.

(** ** Drawing the input line and placing the cursor *)

(** [ConsoleUI::drawInputWindow]: the text call it issues. *)
Definition drawInputWindow (ui : ConsoleUI) : list mvwaddnstr_call :=
  match m_inputWin ui with
  | None => []
  | Some win =>
      let '(winHeight, winWidth) := getmaxyx win in
      if (winHeight <=? 0) || (winWidth <=? 0) then []
      else [mk_mvwaddnstr 0 0 (Some (m_inputBuffer ui)) winWidth]
  end.

(** The cursor placement of one iteration of [run]: the arguments of
    [wmove], or [None] when the cursor is not placed. *)
Definition run_wmove (ui : ConsoleUI) : option (Z * Z) :=
  match m_inputWin ui with
  | Some win =>
      if has_value (m_resizeStatus ui) then
        let '(wh, ww) := getmaxyx win in
        let adjPos := Z.min (m_cursorPos ui) (Z.max 0 (ww - 1)) in
        Some (0, adjPos)
      else None
  | None => None
  end.

(** ** Start-up and tear-down *)

(** [enum class InitError]. *)
Module InitError.
Inductive t : Type :=
| NCURSES_INIT_FAILED
| COLOR_SUPPORT_MISSING
| CANNOT_CHANGE_COLOR
| WINDOW_SETUP_FAILED
| TERMINAL_TOO_SMALL.
End InitError.

(** What curses answers during [create]. *)
Record CursesInit : Type := mkCursesInit {
  setlocale_ok : bool;
  initscr_ok : bool;
  has_colors : bool;
  start_color_ok : bool;
  can_change_color : bool;
  COLORS : Z;
  COLOR_PAIRS : Z
}.

Inductive Color : Type := COLOR_BLACK | COLOR_WHITE | COLOR_CYAN | COLOR_YELLOW.

(** The library calls of [create] and [cleanupNcurses], by name. *)
Inductive CursesCall : Type :=
| call_setlocale
| call_initscr
| call_nodelay (flag : bool)
| call_raw
| call_noraw
| call_noecho
| call_echo
| call_keypad (flag : bool)
| call_curs_set (visibility : Z)
| call_has_colors
| call_start_color
| call_can_change_color
| call_init_pair (pair : Z) (fg bg : Color)
| call_getmaxyx
| call_isendwin
| call_endwin
| call_signal_SIGINT
| call_signal_SIGTERM.

(** [ConsoleUI::initializeNcurses]. *)
Definition initializeNcurses (ui : ConsoleUI) : bool := true.

(** [ConsoleUI::create]: the library calls it makes itself, in order, and
    its result.  [env] gives the terminal size and the allocator for
    [setupWindows]; the object returned is the one [create] above computes.
    The address kept in [g_consoleUIInstance] is part of [lifecycle]
    below. *)
Definition ConsoleUI_create (init : CursesInit) (env : Env)
    : list CursesCall * (ConsoleUI + InitError.t) :=
  let calls := [call_setlocale; call_initscr] in
  if negb (initscr_ok init) then (calls, inr InitError.NCURSES_INIT_FAILED)
  else
    let calls := calls ++ [call_nodelay true; call_raw; call_noecho; call_keypad true;
                           call_curs_set 1; call_has_colors] in
    if negb (has_colors init) then
      (calls ++ [call_endwin], inr InitError.COLOR_SUPPORT_MISSING)
    else
      let calls := calls ++ [call_start_color] in
      if negb (start_color_ok init) then
        (calls ++ [call_endwin], inr InitError.CANNOT_CHANGE_COLOR)
      else
        let calls := calls ++ [call_can_change_color] in
        let calls :=
          if can_change_color init && (COLORS init >=? 8) && (COLOR_PAIRS init >=? 4)
          then calls ++ [call_init_pair 1 COLOR_WHITE COLOR_BLACK;
                         call_init_pair 2 COLOR_CYAN COLOR_BLACK;
                         call_init_pair 3 COLOR_YELLOW COLOR_BLACK]
          else calls in
        let calls := calls ++ [call_getmaxyx] in
        let '(height, width) := stdscr_maxyx env in
        if negb (initializeNcurses (ConsoleUI_ctor height width)) then
          (calls, inr InitError.NCURSES_INIT_FAILED)
        else
          (calls ++ [call_signal_SIGINT; call_signal_SIGTERM], inl (create env)).

(** [ConsoleUI::cleanupNcurses], given what [isendwin()] answers: the calls
    it makes, and what [isendwin()] answers afterwards (true once [endwin]
    was called). *)
Definition cleanupNcurses (isendwin : bool) : list CursesCall * bool :=
  if isendwin then ([call_isendwin], isendwin)
  else ([call_isendwin; call_curs_set 1; call_noraw; call_echo;
         call_keypad false; call_nodelay false; call_endwin], true).

(** [std::atomic<T*>::compare_exchange_strong] on [g_consoleUIInstance];
    objects are named by their addresses, [nullptr] is [None]. *)
Definition compare_exchange_strong (g expected desired : option nat)
    : option nat * bool :=
  match g, expected with
  | Some a, Some b => if Nat.eqb a b then (desired, true) else (g, false)
  | None, None => (desired, true)
  | _, _ => (g, false)
  end.

(** What the special member functions do to [g_consoleUIInstance] and to the
    terminal. *)
Inductive Lifecycle : Type :=
| MoveConstruct (this other : nat)    (* ConsoleUI(ConsoleUI&& other) *)
| MoveAssign (this other : nat)       (* operator=(ConsoleUI&& other) *)
| Destroy (this : nat).               (* ~ConsoleUI() *)

Definition lifecycle_step (e : Lifecycle) (st : option nat * bool)
    : list CursesCall * (option nat * bool) :=
  let '(g, isendwin) := st in
  match e with
  | MoveConstruct this other =>
      ([], (fst (compare_exchange_strong g (Some other) (Some this)), isendwin))
  | MoveAssign this other =>
      if Nat.eqb this other then ([], st)
      else
        let '(g1, updated) := compare_exchange_strong g (Some other) (Some this) in
        if updated then ([], (g1, isendwin))
        else ([], (fst (compare_exchange_strong g1 (Some this) None), isendwin))
  | Destroy this =>
      let '(g1, registered) := compare_exchange_strong g (Some this) None in
      if registered then
        let '(calls, isendwin1) := cleanupNcurses isendwin in (calls, (g1, isendwin1))
      else ([], (g1, isendwin))
  end.

Fixpoint lifecycle (es : list Lifecycle) (st : option nat * bool)
    : list CursesCall * (option nat * bool) :=
  match es with
  | [] => ([], st)
  | e :: es' =>
      let '(calls, st1) := lifecycle_step e st in
      let '(calls', st2) := lifecycle es' st1 in
      (calls ++ calls', st2)
  end.

Definition is_endwin (c : CursesCall) : bool :=
  match c with
  | call_endwin => true
  | _ => false
  end.

(** * Properties *)

(** ** Lists and strings *)

Lemma string_length_append (s t : string) :
  String.length (String.append s t) = (String.length s + String.length t)%nat.
Proof.
  induction s as [|c s IH]; simpl; [reflexivity | now rewrite IH].
Qed.

Lemma string_length_substring (s : string) :
  forall n m, (n + m <= String.length s)%nat -> String.length (substring n m s) = m.
Proof.
  induction s as [|c s IH]; intros n m H; simpl in H.
  - assert (n = 0%nat) by lia. assert (m = 0%nat) by lia. subst. reflexivity.
  - destruct n as [|n]; destruct m as [|m]; simpl.
    + reflexivity.
    + f_equal. apply IH. lia.
    + apply IH. lia.
    + apply IH. lia.
Qed.

Lemma string_empty_length (s : string) :
  string_empty s = true <-> String.length s = 0%nat.
Proof.
  destruct s; simpl; split; intro H; try reflexivity; discriminate.
Qed.

Lemma skipn_nth_error_cons {A : Type} (l : list A) :
  forall n x, nth_error l n = Some x -> skipn n l = x :: skipn (S n) l.
Proof.
  induction l as [|a l IH]; intros [|n] x H; simpl in *; try discriminate.
  - now inversion H.
  - now apply IH.
Qed.

Lemma vector_at_nat (v : list string) (i : Z) :
  0 <= i -> vector_at v i = nth_error v (Z.to_nat i).
Proof.
  intros H. unfold vector_at. destruct (Z.ltb_spec i 0); [lia | reflexivity].
Qed.

Lemma vector_at_in_range (v : list string) (i : Z) :
  0 <= i < vector_size v -> exists x, vector_at v i = Some x.
Proof.
  unfold vector_size. intros H. rewrite vector_at_nat by lia.
  destruct (nth_error v (Z.to_nat i)) as [x|] eqn:E; [now exists x |].
  apply nth_error_None in E. lia.
Qed.

(** ** The bounded scrollback *)

Lemma push_bounded_skipn (buffer : list string) (message : string) :
  push_bounded buffer message =
  skipn (List.length (buffer ++ [message]) - MAX_BUFFER_SIZE) (buffer ++ [message]).
Proof.
  unfold push_bounded.
  destruct (Nat.ltb_spec MAX_BUFFER_SIZE (List.length (buffer ++ [message]))) as [H|H].
  - reflexivity.
  - replace (List.length (buffer ++ [message]) - MAX_BUFFER_SIZE)%nat with 0%nat by lia.
    reflexivity.
Qed.

Lemma push_bounded_length (buffer : list string) (message : string) :
  (List.length (push_bounded buffer message) <= MAX_BUFFER_SIZE)%nat.
Proof.
  rewrite push_bounded_skipn, length_skipn. lia.
Qed.

(** Appending to the retained suffix of [all] retains a suffix of
    [all ++ [message]]. *)
Lemma push_bounded_suffix (all : list string) (message : string) :
  push_bounded (skipn (List.length all - MAX_BUFFER_SIZE) all) message =
  skipn (List.length (all ++ [message]) - MAX_BUFFER_SIZE) (all ++ [message]).
Proof.
  rewrite push_bounded_skipn.
  set (d := (List.length all - MAX_BUFFER_SIZE)%nat).
  assert (Hd : (d <= List.length all)%nat) by (unfold d; lia).
  assert (E : skipn d all ++ [message] = skipn d (all ++ [message])).
  { rewrite skipn_app. replace (d - List.length all)%nat with 0%nat by lia. reflexivity. }
  rewrite E, skipn_skipn. f_equal.
  rewrite length_skipn, !length_app. simpl. unfold d. lia.
Qed.

Lemma fold_push_bounded (messages : list string) :
  forall all : list string,
    fold_left push_bounded messages (skipn (List.length all - MAX_BUFFER_SIZE) all) =
    skipn (List.length (all ++ messages) - MAX_BUFFER_SIZE) (all ++ messages).
Proof.
  induction messages as [|m ms IH]; intros all; simpl.
  - now rewrite app_nil_r.
  - rewrite push_bounded_suffix, IH, <- app_assoc. reflexivity.
Qed.

Lemma addOutputMessages_buffer (messages : list string) :
  forall ui : ConsoleUI,
    m_outputBuffer (addOutputMessages messages ui) =
    fold_left push_bounded messages (m_outputBuffer ui).
Proof.
  unfold addOutputMessages.
  induction messages as [|m ms IH]; intros ui; simpl; [reflexivity |].
  now rewrite IH.
Qed.

(** C1. For every sequence [appended] of appends to an empty scrollback
    (N lines, numbered from 0 in the order they are appended), the buffer
    holds at most 1000 lines; it is the last [min N 1000] appended lines in
    their order, and once N exceeds 1000 the oldest retained line is
    appended line number N - 1000: eviction is oldest first.  The theorem
    holds for every sequence, hence after each append of a longer one. *)
Theorem scrollback_bounded_fifo (ui : ConsoleUI) (appended : list string) :
  m_outputBuffer ui = [] ->
  let N := List.length appended in
  let buffer := m_outputBuffer (addOutputMessages appended ui) in
  (List.length buffer <= 1000)%nat /\
  List.length buffer = Nat.min N 1000 /\
  buffer = skipn (N - 1000) appended /\
  ((1000 < N)%nat -> hd_error buffer = nth_error appended (N - 1000)).
Proof.
  intros Hempty N buffer.
  assert (E : buffer = skipn (N - MAX_BUFFER_SIZE) appended).
  { unfold buffer. rewrite addOutputMessages_buffer, Hempty.
    exact (fold_push_bounded appended []). }
  change 1000%nat with MAX_BUFFER_SIZE.
  rewrite E, length_skipn. fold N.
  repeat split; try lia.
  intros _. apply hd_error_skipn.
Qed.

(** ** The visible slice *)

Lemma slice_length (buffer : list string) (first last : nat) :
  (last <= List.length buffer)%nat ->
  List.length (slice buffer first last) = (last - first)%nat.
Proof.
  intros H. unfold slice. rewrite length_firstn, length_skipn. lia.
Qed.

Lemma slice_nth_error (buffer : list string) (first last k : nat) :
  (k < last - first)%nat ->
  nth_error (slice buffer first last) k = nth_error buffer (first + k).
Proof.
  intros H. unfold slice. rewrite nth_error_firstn.
  destruct (Nat.ltb_spec k (last - first)); [| lia].
  apply nth_error_skipn.
Qed.

(** A loop that stays inside the window and inside the buffer never breaks
    and reads [count] consecutive lines. *)
Lemma drawOutputWindow_loop_run (buffer : list string) (winHeight firstLineIdx : Z) :
  forall (count : nat) (i : Z),
    0 <= i ->
    (count = 0%nat \/
     (i - firstLineIdx + Z.of_nat count <= winHeight /\
      (Z.to_nat i + count <= List.length buffer)%nat)) ->
    drawOutputWindow_loop buffer winHeight firstLineIdx count i =
    map (fun k => (i - firstLineIdx + Z.of_nat k, nth_error buffer (Z.to_nat i + k)))
        (seq 0 count).
Proof.
  induction count as [|count IH]; intros i Hi Hrun; [reflexivity |].
  destruct Hrun as [Hrun | [Hwin Hbuf]]; [discriminate |].
  cbn [drawOutputWindow_loop seq map].
  destruct (Z.geb_spec (i - firstLineIdx) winHeight) as [Hge | Hlt]; [lia |].
  rewrite vector_at_nat by assumption.
  rewrite Z.add_0_r, Nat.add_0_r. f_equal.
  rewrite IH; [| lia | right; lia].
  rewrite <- seq_shift, map_map.
  apply map_ext. intros k. f_equal; [lia |].
  f_equal. lia.
Qed.

Lemma map_nth_error_firstn (buffer : list string) :
  forall (n first : nat),
    (first + n <= List.length buffer)%nat ->
    map (fun k => nth_error buffer (first + k)) (seq 0 n) =
    map Some (firstn n (skipn first buffer)).
Proof.
  induction n as [|n IH]; intros first Hn; [reflexivity |].
  destruct (nth_error buffer first) as [x|] eqn:Ex.
  2:{ apply nth_error_None in Ex. lia. }
  rewrite (skipn_nth_error_cons _ _ _ Ex).
  cbn [seq map firstn]. rewrite Nat.add_0_r, Ex. f_equal.
  rewrite <- seq_shift, map_map, <- (IH (S first)) by lia.
  apply map_ext. intros k. f_equal. lia.
Qed.

Lemma map_nth_error_slice (buffer : list string) (first last : nat) :
  (last <= List.length buffer)%nat ->
  map (fun k => nth_error buffer (first + k)) (seq 0 (last - first)) =
  map Some (slice buffer first last).
Proof.
  intros Hlast. unfold slice.
  destruct (Nat.eq_dec (last - first) 0) as [E | E].
  - rewrite E. reflexivity.
  - apply map_nth_error_firstn. lia.
Qed.

(** What [drawOutputWindow_lines] computes, for a scroll offset that is not
    negative: rows 0, 1, ... and the slice of the buffer. *)
Lemma drawOutputWindow_lines_slice (buffer : list string) (winHeight scrollOffset : Z) :
  0 <= scrollOffset ->
  let first := Z.to_nat (Z.max 0 (vector_size buffer - winHeight - scrollOffset)) in
  let last := Z.to_nat (Z.max 0 (vector_size buffer - scrollOffset)) in
  (last <= List.length buffer)%nat /\
  Z.of_nat (last - first) <= Z.max 0 winHeight /\
  drawOutputWindow_lines buffer winHeight scrollOffset =
  combine (map Z.of_nat (seq 0 (last - first))) (map Some (slice buffer first last)).
Proof.
  intros Hs first last.
  assert (Hlast : (last <= List.length buffer)%nat)
    by (unfold last, vector_size; lia).
  assert (Hcount : Z.of_nat (last - first) <= Z.max 0 winHeight)
    by (unfold first, last, vector_size; lia).
  split; [exact Hlast |]. split; [exact Hcount |].
  unfold drawOutputWindow_lines. cbv zeta.
  assert (Ef : Z.max 0 (vector_size buffer - winHeight - scrollOffset) = Z.of_nat first)
    by (unfold first; lia).
  assert (El : Z.max 0 (vector_size buffer - scrollOffset) = Z.of_nat last)
    by (unfold last; lia).
  rewrite Ef, El.
  replace (Z.to_nat (Z.of_nat last - Z.of_nat first)) with (last - first)%nat by lia.
  clearbody first last.
  rewrite drawOutputWindow_loop_run.
  - rewrite Nat2Z.id, <- map_nth_error_slice by exact Hlast.
    generalize (seq 0 (last - first)). intros ks.
    induction ks as [|k ks IH]; [reflexivity |].
    cbn [map combine]. rewrite <- IH. f_equal. f_equal. lia.
  - lia.
  - destruct (Nat.eq_dec (last - first) 0) as [E0 | E0]; [now left | right].
    rewrite Nat2Z.id. lia.
Qed.

(** C2. The lines drawn by [drawOutputWindow] (the spec's visibleSlice) are a
    function of the buffer, the viewport height and the scroll offset only.
    For a scroll offset that is not negative they are exactly the buffer
    elements with indices in
    [[max 0 (size - height - offset), max 0 (size - offset))], in buffer
    order, on rows 0, 1, ...; every index read is inside the buffer and at
    most [height] lines are drawn.  For the buffer l0..l9 and height 4 they
    are l6..l9 at offset 0 and l3..l6 at offset 3. *)
Theorem visibleSlice_exact :
  (forall (buffer : list string) (viewportHeight scrollOffset : Z),
     0 <= scrollOffset ->
     let bufferSize := vector_size buffer in
     let first := Z.to_nat (Z.max 0 (bufferSize - viewportHeight - scrollOffset)) in
     let last := Z.to_nat (Z.max 0 (bufferSize - scrollOffset)) in
     let lines := drawOutputWindow_lines buffer viewportHeight scrollOffset in
     map snd lines = map Some (slice buffer first last) /\
     map fst lines = map Z.of_nat (seq 0 (last - first)) /\
     (forall k, (k < last - first)%nat ->
        nth_error (slice buffer first last) k = nth_error buffer (first + k) /\
        (first + k < List.length buffer)%nat) /\
     (last <= List.length buffer)%nat /\
     Z.of_nat (List.length lines) <= Z.max 0 viewportHeight) /\
  (forall l0 l1 l2 l3 l4 l5 l6 l7 l8 l9 : string,
     let buffer := [l0; l1; l2; l3; l4; l5; l6; l7; l8; l9] in
     map snd (drawOutputWindow_lines buffer 4 0) = [Some l6; Some l7; Some l8; Some l9] /\
     map snd (drawOutputWindow_lines buffer 4 3) = [Some l3; Some l4; Some l5; Some l6]).
Proof.
  split.
  - intros buffer V s Hs bufferSize first last lines.
    destruct (drawOutputWindow_lines_slice buffer V s Hs) as (Hlast & Hcount & E).
    fold bufferSize first last lines in Hlast, Hcount, E.
    assert (Hlen : List.length (map Z.of_nat (seq 0 (last - first))) =
                   List.length (map Some (slice buffer first last))).
    { rewrite !length_map, length_seq, slice_length by exact Hlast. reflexivity. }
    repeat split.
    + rewrite E. clear E.
      revert Hlen. generalize (map Some (slice buffer first last)).
      generalize (map Z.of_nat (seq 0 (last - first))).
      induction l as [|a l IH]; intros [|b l'] H; simpl in *; try discriminate; try reflexivity.
      f_equal. apply IH. lia.
    + rewrite E. clear E.
      revert Hlen. generalize (map Some (slice buffer first last)).
      generalize (map Z.of_nat (seq 0 (last - first))).
      induction l as [|a l IH]; intros [|b l'] H; simpl in *; try discriminate; try reflexivity.
      f_equal. apply IH. lia.
    + now apply slice_nth_error.
    + lia.
    + exact Hlast.
    + rewrite E, length_combine, !length_map, length_seq, slice_length by exact Hlast.
      lia.
  - intros. split; reflexivity.
Qed.

Lemma drawOutputWindow_calls (ui : ConsoleUI) (win : WINDOW) :
  m_outputWin ui = Some win ->
  (0 < _maxy win)%nat -> (0 < _maxx win)%nat ->
  drawOutputWindow ui =
  map (fun r => mk_mvwaddnstr (fst r) 0 (snd r) (Z.of_nat (_maxx win)))
      (drawOutputWindow_lines (m_outputBuffer ui) (Z.of_nat (_maxy win)) (m_scrollOffset ui)).
Proof.
  intros Hwin Hy Hx. unfold drawOutputWindow, getmaxyx. rewrite Hwin.
  destruct (Z.leb_spec (Z.of_nat (_maxy win)) 0); [lia |].
  destruct (Z.leb_spec (Z.of_nat (_maxx win)) 0); [lia |].
  reflexivity.
Qed.

(** ** The [switch] *)

Lemma find_label (labels : list (Z * SwitchCase)) :
  forall (ch : Z) (c : SwitchCase),
    NoDup (map fst labels) -> In (ch, c) labels ->
    find (fun lc => fst lc =? ch) labels = Some (ch, c).
Proof.
  induction labels as [|[k c'] labels IH]; intros ch c Hnd Hin; [contradiction |].
  simpl in *. inversion Hnd as [|? ? Hnotin Hnd']; subst.
  destruct Hin as [Heq | Hin].
  - inversion Heq; subst. now rewrite Z.eqb_refl.
  - destruct (Z.eqb_spec k ch) as [-> | Hne].
    + exfalso. apply Hnotin. apply (in_map fst) in Hin. exact Hin.
    + now apply IH.
Qed.

Section Switch.

Variable K : KeyCodes.
Hypothesis K_ok : keycodes_ok K.

Lemma switch_label (ch : Z) (c : SwitchCase) :
  In (ch, c) (switch_labels K) -> switch K ch = c.
Proof.
  intros Hin. unfold switch.
  now rewrite (find_label _ ch c (proj1 K_ok) Hin).
Qed.

Lemma label_not_ERR (ch : Z) (c : SwitchCase) :
  In (ch, c) (switch_labels K) -> ch <> ERR K.
Proof.
  intros Hin ->. apply (proj2 K_ok). apply (in_map fst) in Hin. exact Hin.
Qed.

(** A key that is a label of the [switch], pressed while the layout is
    Ready, reaches its [case]. *)
Lemma handleInput_case (env : Env) (ui : ConsoleUI) (c : SwitchCase) :
  In (wgetch env, c) (switch_labels K) ->
  (has_value (m_resizeStatus ui) = true \/ c = case_RESIZE) ->
  (wgetch env =? ERR K) = false /\
  switch K (wgetch env) = c /\
  (negb (has_value (m_resizeStatus ui)) && negb (wgetch env =? KEY_RESIZE K)
     && negb (wgetch env =? ERR K)) = false.
Proof.
  intros Hin Hready.
  assert (Hne : wgetch env <> ERR K) by (eapply label_not_ERR; eassumption).
  assert (Hsw : switch K (wgetch env) = c) by now apply switch_label.
  split; [now apply Z.eqb_neq |]. split; [exact Hsw |].
  destruct Hready as [Hr | ->].
  - now rewrite Hr.
  - destruct (Z.eqb_spec (wgetch env) (KEY_RESIZE K)) as [E | E].
    + now rewrite andb_false_r.
    + exfalso. apply E.
      assert (Hres : switch K (KEY_RESIZE K) = case_RESIZE)
        by (apply switch_label; simpl; auto).
      simpl in Hin.
      repeat (destruct Hin as [Hin | Hin];
              [inversion Hin; try discriminate; try congruence |]).
      contradiction.
Qed.

Lemma handleInput_dispatch (env : Env) (ui : ConsoleUI) (c : SwitchCase) :
  In (wgetch env, c) (switch_labels K) ->
  (has_value (m_resizeStatus ui) = true \/ c = case_RESIZE) ->
  handleInput K env ui = handleInput_switch c env ui.
Proof.
  intros Hin Hready.
  destruct (handleInput_case env ui c Hin Hready) as (E1 & E2 & E3).
  unfold handleInput. cbv zeta. now rewrite E3, E1, E2.
Qed.

Lemma handleInputs_step (env : Env) (envs : list Env) (ui ui' : ConsoleUI) (c : SwitchCase) :
  In (wgetch env, c) (switch_labels K) ->
  (has_value (m_resizeStatus ui) = true \/ c = case_RESIZE) ->
  handleInput_switch c env ui = Some ui' ->
  handleInputs K (env :: envs) ui = handleInputs K envs ui'.
Proof.
  intros Hin Hready Hstep. cbn [handleInputs].
  now rewrite (handleInput_dispatch env ui c Hin Hready), Hstep.
Qed.

End Switch.

Lemma pdcurses_ok : keycodes_ok pdcurses.
Proof.
  split.
  - simpl. repeat (constructor; [simpl; intuition discriminate |]). constructor.
  - simpl. intuition discriminate.
Qed.

(** ** Invariants of the object *)

Lemma string_erase_one (s : string) (pos : Z) :
  0 <= pos < string_length s ->
  exists b, string_erase s pos 1 = Some b /\ string_length b = string_length s - 1.
Proof.
  unfold string_erase, string_length. intros H.
  destruct (Z.leb_spec 0 pos); [| lia].
  destruct (Z.leb_spec pos (Z.of_nat (String.length s))); [| lia].
  simpl. eexists. split; [reflexivity |].
  rewrite string_length_append, !string_length_substring by lia. lia.
Qed.

Lemma string_insert_one (s : string) (pos : Z) (c : ascii) :
  0 <= pos <= string_length s ->
  exists b, string_insert s pos c = Some b /\ string_length b = string_length s + 1.
Proof.
  unfold string_insert, string_length. intros H.
  destruct (Z.leb_spec 0 pos); [| lia].
  destruct (Z.leb_spec pos (Z.of_nat (String.length s))); [| lia].
  simpl. eexists. split; [reflexivity |].
  rewrite string_length_append. simpl.
  rewrite !string_length_substring by lia. lia.
Qed.

(** [setupWindows] assigns the windows, the terminal size and the output
    height, nothing else. *)
Lemma setupWindows_frame (nw : Z -> Z -> Z -> Z -> option WINDOW) (h w : Z) (ui : ConsoleUI) :
  let ui' := fst (setupWindows nw h w ui) in
  m_inputHeight ui' = m_inputHeight ui /\
  m_outputBuffer ui' = m_outputBuffer ui /\
  m_scrollOffset ui' = m_scrollOffset ui /\
  m_inputBuffer ui' = m_inputBuffer ui /\
  m_cursorPos ui' = m_cursorPos ui /\
  m_commandHistory ui' = m_commandHistory ui /\
  m_historyIndex ui' = m_historyIndex ui /\
  m_isRunning ui' = m_isRunning ui /\
  m_resizeStatus ui' = m_resizeStatus ui /\
  m_termHeight ui' = h /\ m_termWidth ui' = w.
Proof.
  unfold setupWindows. cbv zeta. cbn [set_term m_termHeight m_termWidth].
  destruct ((h <? m_minHeight) || (w <? m_minWidth)).
  - cbn. repeat split.
  - cbn -[Z.sub Z.add Z.gtb].
    destruct (nw _ _ 0 0); destruct (nw _ _ _ 0); cbn -[Z.sub Z.add Z.gtb];
      try (repeat split; fail).
    destruct (nw _ _ 1 1); destruct (nw _ _ _ 1); cbn; repeat split.
Qed.

Lemma wf_frame (ui ui' : ConsoleUI) :
  m_inputHeight ui' = m_inputHeight ui ->
  m_outputBuffer ui' = m_outputBuffer ui ->
  m_scrollOffset ui' = m_scrollOffset ui ->
  m_inputBuffer ui' = m_inputBuffer ui ->
  m_cursorPos ui' = m_cursorPos ui ->
  m_commandHistory ui' = m_commandHistory ui ->
  m_historyIndex ui' = m_historyIndex ui ->
  wf ui -> wf ui'.
Proof.
  unfold wf. intros -> -> -> -> -> -> ->. exact (fun H => H).
Qed.

Lemma addOutputMessage_wf (message : string) (ui : ConsoleUI) :
  wf ui -> wf (addOutputMessage message ui).
Proof.
  unfold wf, addOutputMessage. cbn.
  intros (Hc & Hh & Hs & Hi & _ & He).
  repeat split; try tauto; try lia. apply push_bounded_length.
Qed.

Lemma processCommand_wf (command : string) (ui : ConsoleUI) :
  wf ui -> wf (processCommand command ui).
Proof.
  intros H. unfold processCommand.
  destruct (String.eqb command "exit").
  - revert H. apply wf_frame; reflexivity.
  - destruct (String.eqb command "clear").
    + unfold wf in *. cbn. destruct H as (Hc & Hh & Hs & Hi & Hb & He).
      repeat split; try tauto; try lia.
    + destruct (String.eqb command "help"); now apply addOutputMessage_wf.
Qed.

Lemma handleResize_wf (env : Env) (ui : ConsoleUI) :
  wf ui -> wf (handleResize env ui).
Proof.
  intros H. unfold handleResize.
  destruct (stdscr_maxyx env) as [h w].
  pose proof (setupWindows_frame (newwin env) h w ui) as F. cbv zeta in F.
  destruct (setupWindows (newwin env) h w ui) as [ui' status]. cbn [fst] in F.
  destruct F as (F1 & F2 & F3 & F4 & F5 & F6 & F7 & _).
  assert (Hwf : wf (set_resizeStatus status ui'))
    by (revert H; apply wf_frame; assumption).
  destruct (negb (has_value (m_resizeStatus ui)) &&
            has_value (m_resizeStatus (set_resizeStatus status ui')));
    [now apply addOutputMessage_wf | exact Hwf].
Qed.



Lemma processCommand_frame (command : string) (ui : ConsoleUI) :
  let ui' := processCommand command ui in
  m_inputBuffer ui' = m_inputBuffer ui /\
  m_cursorPos ui' = m_cursorPos ui /\
  m_commandHistory ui' = m_commandHistory ui /\
  m_historyIndex ui' = m_historyIndex ui /\
  m_inputHeight ui' = m_inputHeight ui /\
  m_resizeStatus ui' = m_resizeStatus ui /\
  m_outputWin ui' = m_outputWin ui /\
  m_outputBorderWin ui' = m_outputBorderWin ui /\
  m_inputWin ui' = m_inputWin ui /\
  m_inputBorderWin ui' = m_inputBorderWin ui.
Proof.
  unfold processCommand.
  destruct (String.eqb command "exit"); [cbn; repeat split |].
  destruct (String.eqb command "clear"); [cbn; repeat split |].
  destruct (String.eqb command "help"); cbn; repeat split.
Qed.

Lemma not_in_app_one (h : list string) (x y : string) :
  ~ In y h -> x <> y -> ~ In y (h ++ [x]).
Proof.
  intros Hh Hx Hin. apply in_app_or in Hin. destruct Hin as [Hin | [Hin | []]]; auto.
Qed.

(** Reduce member reads of assigned objects, and nothing else. *)
Ltac members :=
  cbn [m_outputWin m_outputBorderWin m_inputWin m_inputBorderWin
       m_termHeight m_termWidth m_outputHeight m_inputHeight
       m_outputBuffer m_scrollOffset m_inputBuffer m_cursorPos
       m_commandHistory m_historyIndex m_isRunning m_resizeStatus
       set_windows set_term set_outputHeight set_outputBuffer set_scrollOffset
       set_inputBuffer set_cursorPos set_commandHistory set_historyIndex
       set_isRunning set_resizeStatus addOutputMessage stop reset_windows] in *.

Ltac wf_split :=
  unfold wf; members; repeat split; try tauto; try lia; try (unfold string_length; lia).

(** [handleInput] neither reads outside a container nor throws, and keeps
    the invariants, whatever the key and whatever curses answers. *)
Lemma handleInput_wf (K : KeyCodes) (env : Env) (ui : ConsoleUI) :
  wf ui -> exists ui', handleInput K env ui = Some ui' /\ wf ui'.
Proof.
  intros Hwf. unfold handleInput, handleInput_switch. cbv zeta.
  destruct (negb (has_value (m_resizeStatus ui)) && negb (wgetch env =? KEY_RESIZE K)
            && negb (wgetch env =? ERR K)); [now exists ui |].
  destruct (wgetch env =? ERR K); [now exists ui |].
  pose proof Hwf as (Hc & Hh & Hs & Hi & Hb & He).
  destruct (switch K (wgetch env)).
  - (* KEY_RESIZE *)
    eexists. split; [reflexivity |]. now apply handleResize_wf.
  - (* KEY_BACKSPACE *)
    destruct (Z.gtb_spec (m_cursorPos ui) 0) as [Hpos | Hpos]; [| now exists ui].
    destruct (string_erase_one (m_inputBuffer ui) (m_cursorPos ui - 1)) as (b & Eb & Lb);
      [lia |].
    rewrite Eb. cbn [bind]. eexists. split; [reflexivity |]. wf_split.
  - (* KEY_DC *)
    destruct (Z.ltb_spec (m_cursorPos ui) (string_length (m_inputBuffer ui))) as [Hpos | Hpos];
      [| now exists ui].
    destruct (string_erase_one (m_inputBuffer ui) (m_cursorPos ui)) as (b & Eb & Lb);
      [lia |].
    rewrite Eb. cbn [bind]. eexists. split; [reflexivity |]. wf_split.
  - (* KEY_LEFT *)
    destruct (Z.gtb_spec (m_cursorPos ui) 0); eexists; (split; [reflexivity |]);
      [wf_split | exact Hwf].
  - (* KEY_RIGHT *)
    destruct (Z.ltb_spec (m_cursorPos ui) (string_length (m_inputBuffer ui)));
      eexists; (split; [reflexivity |]); [wf_split | exact Hwf].
  - (* KEY_HOME *)
    eexists. split; [reflexivity |]. wf_split.
  - (* KEY_END *)
    eexists. split; [reflexivity |]. wf_split.
  - (* KEY_UP *)
    destruct (m_commandHistory ui) as [|h0 hs] eqn:Ehist; [now exists ui |].
    cbn [vector_empty negb].
    assert (Hsize : 0 < vector_size (h0 :: hs)) by (unfold vector_size; simpl; lia).
    set (ui1 := if m_historyIndex ui =? -1
                then set_historyIndex (vector_size (h0 :: hs) - 1) ui
                else if m_historyIndex ui >? 0
                     then set_historyIndex (m_historyIndex ui - 1) ui
                     else ui).
    assert (Hframe : m_commandHistory ui1 = h0 :: hs /\
                     m_inputHeight ui1 = 3 /\
                     m_scrollOffset ui1 = m_scrollOffset ui /\
                     m_outputBuffer ui1 = m_outputBuffer ui /\
                     0 <= m_historyIndex ui1 < vector_size (h0 :: hs)).
    { unfold ui1.
      destruct (Z.eqb_spec (m_historyIndex ui) (-1)); [members; repeat split; auto; lia |].
      destruct (Z.gtb_spec (m_historyIndex ui) 0); members; repeat split; auto; lia. }
    clearbody ui1. destruct Hframe as (F1 & F2 & F3 & F4 & F5).
    rewrite F1.
    destruct (vector_at_in_range (h0 :: hs) (m_historyIndex ui1) F5) as (b & Eb).
    rewrite Eb. cbn [bind]. eexists. split; [reflexivity |].
    unfold wf. members. rewrite F1, F2, F3, F4.
    repeat split; try tauto; try lia; unfold string_length; lia.
  - (* KEY_DOWN *)
    destruct (Z.eqb_spec (m_historyIndex ui) (-1)) as [Hidx | Hidx]; [now exists ui |].
    cbn [negb].
    destruct (Z.ltb_spec (m_historyIndex ui) (vector_size (m_commandHistory ui) - 1)).
    + cbn [set_historyIndex m_commandHistory m_historyIndex].
      destruct (vector_at_in_range (m_commandHistory ui) (m_historyIndex ui + 1)) as (b & Eb);
        [lia |].
      rewrite Eb. cbn [bind]. eexists. split; [reflexivity |].
      wf_split.
    + eexists. split; [reflexivity |]. wf_split.
  - (* KEY_ENTER *)
    destruct (has_value (m_resizeStatus ui) && negb (string_empty (m_inputBuffer ui)));
      [| now exists ui].
    eexists. split; [reflexivity |].
    set (ui1 := addOutputMessage (format_echo (m_inputBuffer ui)) ui).
    assert (Hwf1 : wf ui1) by now apply addOutputMessage_wf.
    pose proof (processCommand_wf (m_inputBuffer ui1) ui1 Hwf1) as Hwf2.
    pose proof (processCommand_frame (m_inputBuffer ui1) ui1) as F. cbv zeta in F.
    set (ui2 := processCommand (m_inputBuffer ui1) ui1) in *.
    destruct F as (F1 & F2 & F3 & F4 & F5 & _).
    destruct Hwf2 as (_ & _ & _ & Hi2 & Hb2 & He2).
    destruct (String.eqb_spec (m_inputBuffer ui2) "exit") as [Eexit | Eexit]; cbn [negb andb].
    + wf_split.
    + destruct (vector_empty (m_commandHistory ui2)
                || negb (String.eqb (vector_back (m_commandHistory ui2)) (m_inputBuffer ui2))).
      * wf_split. now apply not_in_app_one.
      * wf_split.
  - (* KEY_PPAGE *)
    destruct (m_outputWin ui) as [win|]; [| now exists ui].
    destruct (has_value (m_resizeStatus ui)); [| now exists ui].
    eexists. split; [reflexivity |]. wf_split.
  - (* KEY_NPAGE *)
    destruct (m_outputWin ui) as [win|]; [| now exists ui].
    destruct (has_value (m_resizeStatus ui)); [| now exists ui].
    eexists. split; [reflexivity |]. unfold getmaxyx. members.
    destruct (Z.ltb_spec (m_scrollOffset ui - Z.of_nat (_maxy win)) 0); wf_split.
  - (* default *)
    destruct (has_value (m_resizeStatus ui) && (wgetch env >=? 32) && (wgetch env <=? 126));
      [| now exists ui].
    destruct (string_insert_one (m_inputBuffer ui) (m_cursorPos ui)
                (ascii_of_nat (Z.to_nat (wgetch env)))) as (b & Eb & Lb); [lia |].
    rewrite Eb. cbn [bind]. eexists. split; [reflexivity |]. wf_split.
Qed.

(** ** Layout *)

(** C3. [setupWindows] (the spec's computeLayout) returns TooSmall and
    releases all four surfaces whenever the height is below 10 or the width
    below 40.  Otherwise the input region has 3 rows and the output region
    [height - 3] rows, so that the two heights add up to the terminal
    height; the result is Ready when the four allocations succeed, and
    TooSmall as soon as one of them fails. *)
Theorem computeLayout_outcome (nw : Z -> Z -> Z -> Z -> option WINDOW)
    (height width : Z) (ui : ConsoleUI) :
  m_inputHeight ui = 3 ->
  let ui' := fst (setupWindows nw height width ui) in
  let outcome := snd (setupWindows nw height width ui) in
  (height < 10 \/ width < 40 ->
     outcome = unexpected TERMINAL_TOO_SMALL /\
     m_outputBorderWin ui' = None /\ m_outputWin ui' = None /\
     m_inputBorderWin ui' = None /\ m_inputWin ui' = None) /\
  (10 <= height -> 40 <= width ->
     m_inputHeight ui' = 3 /\
     m_outputHeight ui' = height - 3 /\
     m_outputHeight ui' + m_inputHeight ui' = height /\
     (forall ob ib o i,
        nw (height - 3) width 0 0 = Some ob ->
        nw 3 width (height - 3) 0 = Some ib ->
        nw (height - 5) (width - 2) 1 1 = Some o ->
        nw 1 (width - 2) (height - 2) 1 = Some i ->
        outcome = has_value_ /\
        m_outputBorderWin ui' = Some ob /\ m_outputWin ui' = Some o /\
        m_inputBorderWin ui' = Some ib /\ m_inputWin ui' = Some i) /\
     (nw (height - 3) width 0 0 = None \/
      nw 3 width (height - 3) 0 = None \/
      nw (height - 5) (width - 2) 1 1 = None \/
      nw 1 (width - 2) (height - 2) 1 = None ->
      outcome = unexpected TERMINAL_TOO_SMALL)).
Proof.
  intros Hin ui' outcome. subst ui' outcome.
  unfold setupWindows, m_minHeight, m_minWidth. cbv zeta. members. rewrite Hin.
  split.
  - intros Hsmall.
    assert (E : (height <? 10) || (width <? 40) = true).
    { apply orb_true_iff. destruct Hsmall; [left | right]; now apply Z.ltb_lt. }
    rewrite E. cbn. repeat split.
  - intros Hh Hw.
    assert (E : (height <? 10) || (width <? 40) = false).
    { apply orb_false_iff. split; now apply Z.ltb_ge. }
    rewrite E.
    assert (E1 : (height - 3 >? 2) = true) by (apply Z.gtb_lt; lia).
    assert (E2 : (width >? 2) = true) by (apply Z.gtb_lt; lia).
    rewrite E1, E2. change (3 >? 2) with true. cbv iota.
    replace (height - 3 - 2) with (height - 5) by lia.
    replace (3 - 2) with 1 by lia.
    replace (height - 3 + 1) with (height - 2) by lia.
    destruct (nw (height - 3) width 0 0) as [ob|] eqn:Eob;
      destruct (nw 3 width (height - 3) 0) as [ib|] eqn:Eib;
      destruct (nw (height - 5) (width - 2) 1 1) as [o|] eqn:Eo;
      destruct (nw 1 (width - 2) (height - 2) 1) as [i|] eqn:Ei;
      members; cbn [fst snd]; members;
      (split; [exact Hin |]); (split; [reflexivity |]); (split; [lia |]);
      (split; [intros ? ? ? ? H1 H2 H3 H4; inversion H1; inversion H2;
               inversion H3; inversion H4; subst; repeat split |
               intros [H | [H | [H | H]]]; try discriminate H; reflexivity]).
Qed.

(** When no allocation fails, [setupWindows] leaves the four surfaces all
    valid (Ready) or all absent (terminal too small). *)
Lemma setupWindows_all_or_none (nw : Z -> Z -> Z -> Z -> option WINDOW)
    (height width : Z) (ui : ConsoleUI) :
  (forall nlines ncols begy begx, nw nlines ncols begy begx <> None) ->
  all_or_none (fst (setupWindows nw height width ui)).
Proof.
  intros Hnw. unfold setupWindows, all_or_none. cbv zeta. members.
  destruct ((height <? m_minHeight) || (width <? m_minWidth)).
  - right. cbn. repeat split.
  - left.
    repeat match goal with
           | |- context [match nw ?a ?b ?c ?d with _ => _ end] =>
               let E := fresh "E" in
               destruct (nw a b c d) eqn:E; [| now apply Hnw in E]
           end.
    cbn [fst]. members. repeat split; congruence.
Qed.

(** C6. The code at the failing input: a layout for a 24 x 80 terminal in
    which the allocation of the output border succeeds and the next one
    fails.  [setupWindows] returns TooSmall through the early return after
    the border allocations and keeps the output border: one surface is
    valid and three are absent, so the surfaces are neither all valid nor
    all absent. *)
Theorem setupWindows_partial_after_failed_allocation :
  let ui := ConsoleUI_ctor 24 80 in
  let ui' := fst (setupWindows newwin_first_only 24 80 ui) in
  snd (setupWindows newwin_first_only 24 80 ui) = unexpected TERMINAL_TOO_SMALL /\
  m_outputBorderWin ui' = Some (mkWINDOW 21 80 0 0) /\
  m_outputWin ui' = None /\ m_inputBorderWin ui' = None /\ m_inputWin ui' = None /\
  ~ all_or_none ui'.
Proof.
  cbv zeta. repeat split.
  unfold all_or_none. cbn.
  intros [(_ & H & _) | (H & _)]; [now apply H | discriminate H].
Qed.

(** ** Resize *)

Lemma handleInput_resize (K : KeyCodes) (HK : keycodes_ok K) (env : Env) (ui : ConsoleUI) :
  wgetch env = KEY_RESIZE K ->
  handleInput K env ui = Some (handleResize env ui).
Proof.
  intros Hch.
  rewrite (handleInput_dispatch K HK env ui case_RESIZE); [reflexivity | | now right].
  rewrite Hch. simpl. auto.
Qed.

Lemma handleResize_status (env : Env) (ui : ConsoleUI) :
  m_resizeStatus (handleResize env ui) =
  snd (setupWindows (newwin env) (fst (stdscr_maxyx env)) (snd (stdscr_maxyx env)) ui).
Proof.
  unfold handleResize. destruct (stdscr_maxyx env) as [h w]. cbn [fst snd].
  destruct (setupWindows (newwin env) h w ui) as [ui' status]. cbn [snd]. members.
  destruct (negb (has_value (m_resizeStatus ui)) && has_value status); reflexivity.
Qed.

Lemma handleResize_buffer (env : Env) (ui : ConsoleUI) :
  m_outputBuffer (handleResize env ui) =
  if negb (has_value (m_resizeStatus ui)) && has_value (m_resizeStatus (handleResize env ui))
  then push_bounded (m_outputBuffer ui) "Terminal resized to usable dimensions."
  else m_outputBuffer ui.
Proof.
  rewrite handleResize_status.
  unfold handleResize. destruct (stdscr_maxyx env) as [h w]. cbn [fst snd].
  pose proof (setupWindows_frame (newwin env) h w ui) as F. cbv zeta in F.
  destruct (setupWindows (newwin env) h w ui) as [ui' status]. cbn [fst snd] in *.
  destruct F as (_ & F & _). members.
  destruct (negb (has_value (m_resizeStatus ui)) && has_value status); members;
    now rewrite F.
Qed.

(** C9. A resize event is handled by one layout computation for the new
    terminal size.  When it takes the layout from TooSmall to Ready, exactly
    one line, the "resized" notice, is appended to the scrollback; when the
    layout was already Ready, or stays TooSmall, the scrollback is
    unchanged.  Starting with geometry (5, 20) the layout is TooSmall; a
    resize to (24, 80) then gives Ready with output height 21, input height
    3 and a scrollback holding the notice once; a second layout computation
    with the same dimensions changes nothing. *)
Theorem resize_notice_once (K : KeyCodes) (HK : keycodes_ok K) :
  (forall (env : Env) (ui : ConsoleUI),
     wgetch env = KEY_RESIZE K ->
     exists ui',
       handleInput K env ui = Some ui' /\
       m_resizeStatus ui' =
         snd (setupWindows (newwin env) (fst (stdscr_maxyx env)) (snd (stdscr_maxyx env)) ui) /\
       (has_value (m_resizeStatus ui) = false ->
        has_value (m_resizeStatus ui') = true ->
        m_outputBuffer ui' =
          push_bounded (m_outputBuffer ui) "Terminal resized to usable dimensions.") /\
       (has_value (m_resizeStatus ui) = true -> m_outputBuffer ui' = m_outputBuffer ui) /\
       (has_value (m_resizeStatus ui') = false -> m_outputBuffer ui' = m_outputBuffer ui)) /\
  (forall (ch : Z) (nw : Z -> Z -> Z -> Z -> option WINDOW),
     let ui0 := create (mkEnv ch (5, 20) nw) in
     let resize := mkEnv (KEY_RESIZE K) (24, 80) newwin_ok in
     m_resizeStatus ui0 = unexpected TERMINAL_TOO_SMALL /\
     m_outputBuffer ui0 = [] /\
     exists ui1,
       handleInput K resize ui0 = Some ui1 /\
       m_resizeStatus ui1 = has_value_ /\
       m_outputHeight ui1 = 21 /\ m_inputHeight ui1 = 3 /\
       m_outputBuffer ui1 = ["Terminal resized to usable dimensions."%string] /\
       handleInput K resize ui1 = Some ui1).
Proof.
  split.
  - intros env ui Hch. exists (handleResize env ui).
    split; [now apply handleInput_resize |].
    split; [apply handleResize_status |].
    pose proof (handleResize_buffer env ui) as Hb.
    repeat split.
    + intros H1 H2. now rewrite Hb, H1, H2.
    + intros H1. now rewrite Hb, H1.
    + intros H2. rewrite Hb, H2. now rewrite andb_false_r.
  - intros ch nw ui0 resize.
    split; [reflexivity |]. split; [reflexivity |].
    exists (handleResize resize ui0).
    split; [now apply handleInput_resize |].
    repeat split.
    rewrite (handleInput_resize K HK resize _ eq_refl). reflexivity.
Qed.

(** ** Submitting a line *)

Lemma string_empty_false (s : string) : s <> EmptyString -> string_empty s = false.
Proof.
  destruct s; [intros H; now contradiction H | reflexivity].
Qed.

Lemma vector_back_last (history : list string) (line : string) :
  history <> [] ->
  (vector_back history = line <-> exists h0, history = h0 ++ [line]).
Proof.
  intros Hne. unfold vector_back. split.
  - intros <-. exists (removelast history). now apply app_removelast_last.
  - intros [h0 ->]. apply last_last.
Qed.

(** The history test of the [KEY_ENTER] case, in words. *)
Lemma history_push_test (history : list string) (line : string) :
  (negb (String.eqb line "exit")
   && (vector_empty history || negb (String.eqb (vector_back history) line))) = true <->
  (line <> "exit"%string /\ forall h0, history <> h0 ++ [line]).
Proof.
  rewrite andb_true_iff, negb_true_iff, String.eqb_neq, orb_true_iff.
  split; intros [Hexit Hdup]; (split; [exact Hexit |]).
  - intros h0 E. destruct Hdup as [Hemp | Hback].
    + subst history. destruct h0; discriminate Hemp.
    + apply negb_true_iff, String.eqb_neq in Hback. apply Hback.
      apply vector_back_last; [| now exists h0].
      subst history. destruct h0; discriminate.
  - destruct history as [|h hs]; [now left | right].
    apply negb_true_iff, String.eqb_neq. intros Hback.
    apply vector_back_last in Hback; [| discriminate].
    destruct Hback as [h0 E]. now apply (Hdup h0).
Qed.

Section Enter.

Variable K : KeyCodes.
Hypothesis HK : keycodes_ok K.
Variable env : Env.
Hypothesis Henter : wgetch env = KEY_ENTER K \/ wgetch env = 10 \/ wgetch env = 13.

Lemma enter_label : In (wgetch env, case_ENTER) (switch_labels K).
Proof.
  destruct Henter as [-> | [-> | ->]]; simpl; auto 20.
Qed.

(** The object after enter on a non-empty line while Ready. *)
Lemma handleInput_enter (ui : ConsoleUI) :
  has_value (m_resizeStatus ui) = true ->
  m_inputBuffer ui <> EmptyString ->
  let line := m_inputBuffer ui in
  let ui2 := processCommand line (addOutputMessage (format_echo line) ui) in
  let history :=
    if negb (String.eqb line "exit")
       && (vector_empty (m_commandHistory ui)
           || negb (String.eqb (vector_back (m_commandHistory ui)) line))
    then m_commandHistory ui ++ [line]
    else m_commandHistory ui in
  handleInput K env ui =
  Some (set_scrollOffset 0 (set_historyIndex (-1) (set_cursorPos 0
         (set_inputBuffer EmptyString (set_commandHistory history ui2))))).
Proof.
  intros Hready Hline line ui2 history.
  rewrite (handleInput_dispatch K HK env ui case_ENTER enter_label (or_introl Hready)).
  unfold handleInput_switch. cbv zeta.
  rewrite Hready, (string_empty_false _ Hline). cbn [andb negb].
  pose proof (processCommand_frame line (addOutputMessage (format_echo line) ui)) as F.
  cbv zeta in F. members. fold line. fold ui2. fold ui2 in F.
  destruct F as (F1 & _ & F3 & _).
  rewrite F1, F3. fold line. fold history.
  destruct (negb (String.eqb line "exit")
            && (vector_empty (m_commandHistory ui)
                || negb (String.eqb (vector_back (m_commandHistory ui)) line))) eqn:E;
    subst history; [reflexivity |].
  clear F1. destruct ui2. cbn in F3 |- *. rewrite <- F3. reflexivity.
Qed.

End Enter.

(** C4. Enter on a non-empty line while the layout is Ready submits the line
    (echo, then [processCommand]); the line is pushed onto History unless it
    is "exit" or equals the last History entry; afterwards the text is
    empty, the cursor is 0, historyIndex is -1 and ScrollOffset is 0.
    Submitting "look" twice in a row from an empty History leaves
    History = ["look"], and submitting "exit" leaves History as it was, so
    that "exit" never enters History. *)
Theorem enter_submits_and_records (K : KeyCodes) (HK : keycodes_ok K) (env : Env) :
  wgetch env = KEY_ENTER K \/ wgetch env = 10 \/ wgetch env = 13 ->
  (forall ui : ConsoleUI,
     has_value (m_resizeStatus ui) = true ->
     m_inputBuffer ui <> EmptyString ->
     let line := m_inputBuffer ui in
     let history := m_commandHistory ui in
     let submitted := processCommand line (addOutputMessage (format_echo line) ui) in
     exists ui',
       handleInput K env ui = Some ui' /\
       m_outputBuffer ui' = m_outputBuffer submitted /\
       m_isRunning ui' = m_isRunning submitted /\
       (line = "exit"%string \/ (exists h0, history = h0 ++ [line]) ->
        m_commandHistory ui' = history) /\
       (line <> "exit"%string -> (forall h0, history <> h0 ++ [line]) ->
        m_commandHistory ui' = history ++ [line]) /\
       m_inputBuffer ui' = EmptyString /\
       m_cursorPos ui' = 0 /\
       m_historyIndex ui' = -1 /\
       m_scrollOffset ui' = 0 /\
       m_resizeStatus ui' = m_resizeStatus ui /\
       (~ In "exit"%string history -> ~ In "exit"%string (m_commandHistory ui'))) /\
  (forall ui0 : ConsoleUI,
     has_value (m_resizeStatus ui0) = true ->
     m_commandHistory ui0 = [] ->
     exists ui1 ui2,
       handleInput K env (set_inputBuffer "look" ui0) = Some ui1 /\
       m_commandHistory ui1 = ["look"%string] /\
       handleInput K env (set_inputBuffer "look" ui1) = Some ui2 /\
       m_commandHistory ui2 = ["look"%string]) /\
  (forall ui0 : ConsoleUI,
     has_value (m_resizeStatus ui0) = true ->
     exists ui1,
       handleInput K env (set_inputBuffer "exit" ui0) = Some ui1 /\
       m_commandHistory ui1 = m_commandHistory ui0).
Proof.
  intros Henter.
  assert (General : forall ui : ConsoleUI,
     has_value (m_resizeStatus ui) = true ->
     m_inputBuffer ui <> EmptyString ->
     let line := m_inputBuffer ui in
     let history := m_commandHistory ui in
     let submitted := processCommand line (addOutputMessage (format_echo line) ui) in
     exists ui',
       handleInput K env ui = Some ui' /\
       m_outputBuffer ui' = m_outputBuffer submitted /\
       m_isRunning ui' = m_isRunning submitted /\
       (line = "exit"%string \/ (exists h0, history = h0 ++ [line]) ->
        m_commandHistory ui' = history) /\
       (line <> "exit"%string -> (forall h0, history <> h0 ++ [line]) ->
        m_commandHistory ui' = history ++ [line]) /\
       m_inputBuffer ui' = EmptyString /\
       m_cursorPos ui' = 0 /\
       m_historyIndex ui' = -1 /\
       m_scrollOffset ui' = 0 /\
       m_resizeStatus ui' = m_resizeStatus ui /\
       (~ In "exit"%string history -> ~ In "exit"%string (m_commandHistory ui'))).
  { intros ui Hready Hline line history submitted.
    eexists. split; [exact (handleInput_enter K HK env Henter ui Hready Hline) |].
    fold line. fold submitted. members.
    pose proof (history_push_test history line) as Htest. fold history.
    pose proof (processCommand_frame line (addOutputMessage (format_echo line) ui)) as F.
    cbv zeta in F. fold submitted in F. destruct F as (_ & _ & _ & _ & _ & F6 & _).
    destruct (negb (String.eqb line "exit")
              && (vector_empty history || negb (String.eqb (vector_back history) line))).
    - destruct (proj1 Htest eq_refl) as [Hexit Hdup].
      repeat split; auto.
      + intros [E | [h0 E]]; [contradiction | now apply Hdup in E].
      + intros Hnot. now apply not_in_app_one.
    - repeat split; auto.
      intros Hexit Hdup. assert (false = true) by (apply Htest; auto). discriminate. }
  split; [exact General |]. split.
  - intros ui0 Hready Hhist.
    destruct (General (set_inputBuffer "look" ui0) Hready) as (ui1 & E1 & _ & _ & _ & P1 & _ & _ & _ & _ & R1 & _);
      [discriminate |].
    cbv zeta in P1. members. rewrite Hhist in P1.
    assert (H1 : m_commandHistory ui1 = ["look"%string]).
    { apply P1; [discriminate |]. intros [|? ?]; discriminate. }
    assert (Hready1 : has_value (m_resizeStatus ui1) = true) by now rewrite R1.
    destruct (General (set_inputBuffer "look" ui1) Hready1) as (ui2 & E2 & _ & _ & P2 & _);
      [discriminate |].
    cbv zeta in P2. members.
    exists ui1, ui2. repeat split; auto.
    rewrite P2; [exact H1 |]. right. exists []. exact H1.
  - intros ui0 Hready.
    destruct (General (set_inputBuffer "exit" ui0) Hready) as (ui1 & E1 & _ & _ & P1 & _);
      [discriminate |].
    exists ui1. split; [exact E1 |]. cbv zeta in P1. members. apply P1. now left.
Qed.

(** ** Echo and commands *)

Lemma push_bounded_last (buffer : list string) (message : string) :
  exists kept, push_bounded buffer message = kept ++ [message].
Proof.
  rewrite push_bounded_skipn, length_app. cbn [List.length].
  exists (skipn (List.length buffer + 1 - MAX_BUFFER_SIZE) buffer).
  rewrite skipn_app.
  replace (List.length buffer + 1 - MAX_BUFFER_SIZE - List.length buffer)%nat with 0%nat
    by (unfold MAX_BUFFER_SIZE; lia).
  reflexivity.
Qed.

Lemma push_bounded_last_two (kept : list string) (echo message : string) :
  exists kept', push_bounded (kept ++ [echo]) message = kept' ++ [echo; message].
Proof.
  rewrite push_bounded_skipn, !length_app. cbn [List.length].
  exists (skipn (List.length kept + 1 + 1 - MAX_BUFFER_SIZE) kept).
  rewrite <- app_assoc. cbn [app]. rewrite skipn_app.
  replace (List.length kept + 1 + 1 - MAX_BUFFER_SIZE - List.length kept)%nat with 0%nat
    by (unfold MAX_BUFFER_SIZE; lia).
  reflexivity.
Qed.

(** C10. Enter on a non-empty line [s] while the layout is Ready first
    appends the echo line "> s" to the scrollback (it becomes the newest
    line) and only then processes the command.  Unless the command is
    "clear", which empties the scrollback, the scrollback afterwards ends
    with the echo line followed by the messages of the command. *)
Theorem echo_precedes_command_output (K : KeyCodes) (HK : keycodes_ok K)
    (env : Env) (ui : ConsoleUI) :
  wgetch env = KEY_ENTER K \/ wgetch env = 10 \/ wgetch env = 13 ->
  has_value (m_resizeStatus ui) = true ->
  m_inputBuffer ui <> EmptyString ->
  let s := m_inputBuffer ui in
  let echoed := addOutputMessage (String.append "> " s) ui in
  exists ui',
    handleInput K env ui = Some ui' /\
    (exists kept, m_outputBuffer echoed = kept ++ [String.append "> " s]) /\
    m_outputBuffer ui' = m_outputBuffer (processCommand s echoed) /\
    (s <> "clear"%string ->
     exists kept,
       m_outputBuffer ui' = kept ++ String.append "> " s :: command_messages s) /\
    (s = "clear"%string -> m_outputBuffer ui' = []).
Proof.
  intros Henter Hready Hline s echoed.
  eexists. split; [exact (handleInput_enter K HK env Henter ui Hready Hline) |].
  fold s. change (format_echo s) with (String.append "> " s). fold echoed. members.
  destruct (push_bounded_last (m_outputBuffer ui) (String.append "> " s)) as [kept Ekept].
  assert (Eechoed : m_outputBuffer echoed = kept ++ [String.append "> " s]) by exact Ekept.
  split; [now exists kept |]. split; [reflexivity |].
  unfold processCommand, command_messages.
  destruct (String.eqb_spec s "exit") as [Eexit | Eexit].
  - split; [| intros E; rewrite E in Eexit; discriminate Eexit].
    intros _. exists kept. exact Eechoed.
  - destruct (String.eqb_spec s "clear") as [Eclear | Eclear].
    + split; [intros H; now contradiction H | reflexivity].
    + split; [| intros H; now contradiction H]. intros _.
      destruct (String.eqb s "help"); members; rewrite Eechoed;
        apply push_bounded_last_two.
Qed.

(** C7 as stated fails: the message displayed for a command that is not a
    built-in does not come from a command processor.  With a processor that
    answers "ok", the command "look" still displays "Unknown: 'look'". *)
Lemma processCommand_ignores_command_processor :
  ~ (forall (execute : string -> string) (command : string) (ui : ConsoleUI),
       command <> "exit"%string -> command <> "clear"%string -> command <> "help"%string ->
       m_outputBuffer (processCommand command ui) =
       push_bounded (m_outputBuffer ui) (execute command)).
Proof.
  intros H.
  specialize (H (fun _ => "ok"%string) "look"%string (ConsoleUI_ctor 24 80)).
  cbv in H. assert (E : ["Unknown: 'look'"%string] = ["ok"%string]).
  { apply H; discriminate. }
  discriminate E.
Qed.

(** C7, amended.  Every submitted line is handed to [processCommand] once,
    after its echo.  "exit" stops the loop, "clear" empties the scrollback
    and resets the scroll offset, "help" appends the usage text, and every
    other command is handled locally as well: the message
    "Unknown: '<command>'" is appended and the loop keeps running; the
    program has no command processor to delegate to. *)
Theorem commands_handled_locally (K : KeyCodes) (HK : keycodes_ok K)
    (env : Env) (ui : ConsoleUI) :
  wgetch env = KEY_ENTER K \/ wgetch env = 10 \/ wgetch env = 13 ->
  has_value (m_resizeStatus ui) = true ->
  m_inputBuffer ui <> EmptyString ->
  let command := m_inputBuffer ui in
  let echoed := addOutputMessage (format_echo command) ui in
  exists ui',
    handleInput K env ui = Some ui' /\
    m_outputBuffer ui' = m_outputBuffer (processCommand command echoed) /\
    m_isRunning ui' = m_isRunning (processCommand command echoed) /\
    (command = "exit"%string ->
     m_isRunning ui' = false /\ m_outputBuffer ui' = m_outputBuffer echoed) /\
    (command = "clear"%string ->
     m_outputBuffer ui' = [] /\ m_scrollOffset ui' = 0 /\ m_isRunning ui' = m_isRunning ui) /\
    (command = "help"%string ->
     m_outputBuffer ui' =
       push_bounded (m_outputBuffer echoed) "Commands: exit, clear, help. Scroll: PgUp/PgDn" /\
     m_isRunning ui' = m_isRunning ui) /\
    (command <> "exit"%string -> command <> "clear"%string -> command <> "help"%string ->
     m_outputBuffer ui' =
       push_bounded (m_outputBuffer echoed)
         (String.append "Unknown: '" (String.append command "'")) /\
     m_isRunning ui' = m_isRunning ui).
Proof.
  intros Henter Hready Hline command echoed.
  eexists. split; [exact (handleInput_enter K HK env Henter ui Hready Hline) |].
  fold command. fold echoed. members.
  split; [reflexivity |]. split; [reflexivity |].
  unfold processCommand, format_unknown.
  destruct (String.eqb_spec command "exit") as [Eexit | Eexit].
  { rewrite Eexit. repeat split; intros; try discriminate; try reflexivity;
      exfalso; auto. }
  destruct (String.eqb_spec command "clear") as [Eclear | Eclear].
  { rewrite Eclear. repeat split; intros; try discriminate; try reflexivity;
      exfalso; auto. }
  destruct (String.eqb_spec command "help") as [Ehelp | Ehelp].
  { rewrite Ehelp. repeat split; intros; try discriminate; try reflexivity;
      exfalso; auto. }
  repeat split; intros; try reflexivity; exfalso; auto.
Qed.

(** ** History navigation *)

Section History.

Variable K : KeyCodes.
Hypothesis HK : keycodes_ok K.

(** One key of a sequence whose [case] body evaluates to [ui']. *)
Ltac press group :=
  etransitivity;
  [ eapply (handleInputs_step K HK) with (c := group);
    [ simpl; auto 20
    | first [left; reflexivity | right; reflexivity]
    | cbv; reflexivity ]
  | ].

Lemma handleInput_up (env : Env) (ui : ConsoleUI) :
  wgetch env = KEY_UP K ->
  has_value (m_resizeStatus ui) = true ->
  m_commandHistory ui <> [] ->
  m_historyIndex ui = -1 \/ 0 <= m_historyIndex ui < vector_size (m_commandHistory ui) ->
  exists ui',
    handleInput K env ui = Some ui' /\
    (m_historyIndex ui = -1 -> m_historyIndex ui' = vector_size (m_commandHistory ui) - 1) /\
    (0 < m_historyIndex ui -> m_historyIndex ui' = m_historyIndex ui - 1) /\
    (m_historyIndex ui = 0 -> m_historyIndex ui' = 0) /\
    vector_at (m_commandHistory ui) (m_historyIndex ui') = Some (m_inputBuffer ui') /\
    m_cursorPos ui' = string_length (m_inputBuffer ui') /\
    m_commandHistory ui' = m_commandHistory ui /\
    m_resizeStatus ui' = m_resizeStatus ui.
Proof.
  intros Hch Hready Hne Hidx.
  rewrite (handleInput_dispatch K HK env ui case_UP); [| rewrite Hch; simpl; auto 20 | now left].
  unfold handleInput_switch. cbv zeta.
  destruct (m_commandHistory ui) as [|h0 hs] eqn:Ehist; [now contradiction Hne |].
  cbn [vector_empty negb].
  assert (Hsize : 0 < vector_size (h0 :: hs)) by (unfold vector_size; simpl; lia).
  set (ui1 := if m_historyIndex ui =? -1
              then set_historyIndex (vector_size (h0 :: hs) - 1) ui
              else if m_historyIndex ui >? 0
                   then set_historyIndex (m_historyIndex ui - 1) ui
                   else ui).
  assert (Hframe : m_commandHistory ui1 = h0 :: hs /\
                   m_resizeStatus ui1 = m_resizeStatus ui /\
                   0 <= m_historyIndex ui1 < vector_size (h0 :: hs) /\
                   (m_historyIndex ui = -1 -> m_historyIndex ui1 = vector_size (h0 :: hs) - 1) /\
                   (0 < m_historyIndex ui -> m_historyIndex ui1 = m_historyIndex ui - 1) /\
                   (m_historyIndex ui = 0 -> m_historyIndex ui1 = 0)).
  { unfold ui1.
    destruct (Z.eqb_spec (m_historyIndex ui) (-1));
      [members; repeat split; auto; lia |].
    destruct (Z.gtb_spec (m_historyIndex ui) 0); members; repeat split; auto; lia. }
  clearbody ui1. destruct Hframe as (F1 & F2 & F3 & F4 & F5 & F6).
  rewrite F1.
  destruct (vector_at_in_range (h0 :: hs) (m_historyIndex ui1) F3) as (b & Eb).
  rewrite Eb. cbn [bind]. eexists. split; [reflexivity |]. members.
  repeat split; auto.
Qed.

Lemma handleInput_down (env : Env) (ui : ConsoleUI) :
  wgetch env = KEY_DOWN K ->
  has_value (m_resizeStatus ui) = true ->
  m_historyIndex ui = -1 \/ 0 <= m_historyIndex ui < vector_size (m_commandHistory ui) ->
  exists ui',
    handleInput K env ui = Some ui' /\
    (m_historyIndex ui = -1 -> ui' = ui) /\
    (0 <= m_historyIndex ui < vector_size (m_commandHistory ui) - 1 ->
     m_historyIndex ui' = m_historyIndex ui + 1 /\
     vector_at (m_commandHistory ui) (m_historyIndex ui') = Some (m_inputBuffer ui') /\
     m_cursorPos ui' = string_length (m_inputBuffer ui')) /\
    (0 <= m_historyIndex ui -> m_historyIndex ui = vector_size (m_commandHistory ui) - 1 ->
     m_historyIndex ui' = -1 /\ m_inputBuffer ui' = EmptyString /\ m_cursorPos ui' = 0) /\
    m_commandHistory ui' = m_commandHistory ui /\
    m_resizeStatus ui' = m_resizeStatus ui.
Proof.
  intros Hch Hready Hidx.
  rewrite (handleInput_dispatch K HK env ui case_DOWN); [| rewrite Hch; simpl; auto 20 | now left].
  unfold handleInput_switch. cbv zeta.
  destruct (Z.eqb_spec (m_historyIndex ui) (-1)) as [Hbrowse | Hbrowse]; cbn [negb].
  - exists ui. repeat split; auto; lia.
  - destruct (Z.ltb_spec (m_historyIndex ui) (vector_size (m_commandHistory ui) - 1)).
    + members.
      destruct (vector_at_in_range (m_commandHistory ui) (m_historyIndex ui + 1)) as (b & Eb);
        [lia |].
      rewrite Eb. cbn [bind]. eexists. split; [reflexivity |]. members.
      repeat split; auto; lia.
    + eexists. split; [reflexivity |]. members.
      repeat split; auto; lia.
Qed.

Lemma history_example (ui0 : ConsoleUI) (scr : Z * Z) (nw : Z -> Z -> Z -> Z -> option WINDOW) :
  let ui := set_commandHistory ["a"; "b"; "c"]%string
              (set_historyIndex (-1) (set_resizeStatus has_value_ ui0)) in
  let up := mkEnv (KEY_UP K) scr nw in
  let down := mkEnv (KEY_DOWN K) scr nw in
  exists u1 u2,
    handleInputs K [up; up; up; down] ui = Some u1 /\
    m_inputBuffer u1 = "b"%string /\ m_historyIndex u1 = 1 /\ m_cursorPos u1 = 1 /\
    handleInputs K [up; up; up; up; up] ui = Some u2 /\
    m_inputBuffer u2 = "a"%string /\ m_historyIndex u2 = 0.
Proof.
  intros ui up down. eexists. eexists.
  split; [| split; [| split; [| split; [| split]]]].
  - press case_UP. press case_UP. press case_UP. press case_DOWN. reflexivity.
  - reflexivity.
  - reflexivity.
  - reflexivity.
  - press case_UP. press case_UP. press case_UP. press case_UP. press case_UP. reflexivity.
  - split; reflexivity.
Qed.

End History.

(** C5. History navigation while the layout is Ready.  Up, when not browsing
    (historyIndex -1), jumps to the newest entry; otherwise it moves to the
    next older entry if there is one and stays on the oldest entry if not;
    in each case the entry becomes the text and the cursor is put at its
    end.  Down, while browsing, moves to the next newer entry and loads it,
    or, on the newest entry, leaves browsing mode and clears the line; when
    not browsing it does nothing.  With History = ["a"; "b"; "c"], up three
    times then down once gives the text "b", and up five times gives the
    text "a" with historyIndex 0. *)
Theorem history_navigation (K : KeyCodes) (HK : keycodes_ok K) :
  (forall (env : Env) (ui : ConsoleUI),
     wgetch env = KEY_UP K ->
     has_value (m_resizeStatus ui) = true ->
     m_commandHistory ui <> [] ->
     m_historyIndex ui = -1 \/ 0 <= m_historyIndex ui < vector_size (m_commandHistory ui) ->
     exists ui',
       handleInput K env ui = Some ui' /\
       (m_historyIndex ui = -1 -> m_historyIndex ui' = vector_size (m_commandHistory ui) - 1) /\
       (0 < m_historyIndex ui -> m_historyIndex ui' = m_historyIndex ui - 1) /\
       (m_historyIndex ui = 0 -> m_historyIndex ui' = 0) /\
       vector_at (m_commandHistory ui) (m_historyIndex ui') = Some (m_inputBuffer ui') /\
       m_cursorPos ui' = string_length (m_inputBuffer ui') /\
       m_commandHistory ui' = m_commandHistory ui /\
       m_resizeStatus ui' = m_resizeStatus ui) /\
  (forall (env : Env) (ui : ConsoleUI),
     wgetch env = KEY_DOWN K ->
     has_value (m_resizeStatus ui) = true ->
     m_historyIndex ui = -1 \/ 0 <= m_historyIndex ui < vector_size (m_commandHistory ui) ->
     exists ui',
       handleInput K env ui = Some ui' /\
       (m_historyIndex ui = -1 -> ui' = ui) /\
       (0 <= m_historyIndex ui < vector_size (m_commandHistory ui) - 1 ->
        m_historyIndex ui' = m_historyIndex ui + 1 /\
        vector_at (m_commandHistory ui) (m_historyIndex ui') = Some (m_inputBuffer ui') /\
        m_cursorPos ui' = string_length (m_inputBuffer ui')) /\
       (0 <= m_historyIndex ui -> m_historyIndex ui = vector_size (m_commandHistory ui) - 1 ->
        m_historyIndex ui' = -1 /\ m_inputBuffer ui' = EmptyString /\ m_cursorPos ui' = 0) /\
       m_commandHistory ui' = m_commandHistory ui /\
       m_resizeStatus ui' = m_resizeStatus ui) /\
  (forall (ui0 : ConsoleUI) (scr : Z * Z) (nw : Z -> Z -> Z -> Z -> option WINDOW),
     let ui := set_commandHistory ["a"; "b"; "c"]%string
                 (set_historyIndex (-1) (set_resizeStatus has_value_ ui0)) in
     let up := mkEnv (KEY_UP K) scr nw in
     let down := mkEnv (KEY_DOWN K) scr nw in
     exists u1 u2,
       handleInputs K [up; up; up; down] ui = Some u1 /\
       m_inputBuffer u1 = "b"%string /\ m_historyIndex u1 = 1 /\ m_cursorPos u1 = 1 /\
       handleInputs K [up; up; up; up; up] ui = Some u2 /\
       m_inputBuffer u2 = "a"%string /\ m_historyIndex u2 = 0).
Proof.
  split; [| split].
  - intros env ui. apply (handleInput_up K HK).
  - intros env ui. apply (handleInput_down K HK).
  - intros ui0 scr nw. apply (history_example K HK).
Qed.

(** ** Scrolling *)

Section Scroll.

Variable K : KeyCodes.
Hypothesis HK : keycodes_ok K.

Lemma handleInput_ppage (env : Env) (ui : ConsoleUI) (win : WINDOW) :
  wgetch env = KEY_PPAGE K ->
  m_outputWin ui = Some win ->
  has_value (m_resizeStatus ui) = true ->
  let B := vector_size (m_outputBuffer ui) in
  let V := Z.of_nat (_maxy win) in
  handleInput K env ui =
  Some (set_scrollOffset (Z.min (Z.max 0 (B - V)) (m_scrollOffset ui + V)) ui).
Proof.
  intros Hch Hwin Hready B V.
  rewrite (handleInput_dispatch K HK env ui case_PPAGE); [| rewrite Hch; simpl; auto 20 | now left].
  unfold handleInput_switch. cbv zeta. rewrite Hwin, Hready. reflexivity.
Qed.

Lemma handleInput_npage (env : Env) (ui : ConsoleUI) (win : WINDOW) :
  wgetch env = KEY_NPAGE K ->
  m_outputWin ui = Some win ->
  has_value (m_resizeStatus ui) = true ->
  let V := Z.of_nat (_maxy win) in
  handleInput K env ui = Some (set_scrollOffset (Z.max (m_scrollOffset ui - V) 0) ui).
Proof.
  intros Hch Hwin Hready V.
  rewrite (handleInput_dispatch K HK env ui case_NPAGE); [| rewrite Hch; simpl; auto 20 | now left].
  unfold handleInput_switch. cbv zeta. rewrite Hwin, Hready.
  unfold getmaxyx. members. fold V.
  destruct (Z.ltb_spec (m_scrollOffset ui - V) 0).
  - replace (Z.max (m_scrollOffset ui - V) 0) with 0 by lia. reflexivity.
  - replace (Z.max (m_scrollOffset ui - V) 0) with (m_scrollOffset ui - V) by lia.
    reflexivity.
Qed.

(** [S n] page-up keys scroll back by [S n] viewport heights, clamped. *)
Lemma page_up_repeat (env : Env) (win : WINDOW) (n : nat) :
  wgetch env = KEY_PPAGE K ->
  forall ui : ConsoleUI,
    m_outputWin ui = Some win ->
    has_value (m_resizeStatus ui) = true ->
    0 <= m_scrollOffset ui ->
    let B := vector_size (m_outputBuffer ui) in
    let V := Z.of_nat (_maxy win) in
    handleInputs K (repeat env (S n)) ui =
    Some (set_scrollOffset
            (if 0 <? B - V then Z.min (m_scrollOffset ui + Z.of_nat (S n) * V) (B - V) else 0)
            ui).
Proof.
  intros Hch. induction n as [|n IH]; intros ui Hwin Hready Hs B V.
  - cbn [repeat handleInputs]. rewrite (handleInput_ppage env ui win Hch Hwin Hready).
    cbn [bind]. fold B V. f_equal. f_equal.
    destruct (Z.ltb_spec 0 (B - V)); unfold V in *; lia.
  - change (repeat env (S (S n))) with (env :: repeat env (S n)).
    cbn [handleInputs]. rewrite (handleInput_ppage env ui win Hch Hwin Hready).
    cbn [bind]. fold B V.
    set (s1 := Z.min (Z.max 0 (B - V)) (m_scrollOffset ui + V)).
    assert (Hs1 : 0 <= s1) by (unfold s1, V; lia).
    rewrite (IH (set_scrollOffset s1 ui) Hwin Hready Hs1). members. fold B V.
    replace (set_scrollOffset
               (if 0 <? B - V then Z.min (s1 + Z.of_nat (S n) * V) (B - V) else 0)
               (set_scrollOffset s1 ui))
      with (set_scrollOffset
              (if 0 <? B - V then Z.min (s1 + Z.of_nat (S n) * V) (B - V) else 0) ui)
      by reflexivity.
    f_equal. f_equal.
    destruct (Z.ltb_spec 0 (B - V)); [| reflexivity].
    rewrite (Nat2Z.inj_succ (S n)).
    assert (HP : 0 <= Z.of_nat (S n) * V) by (unfold V; lia).
    unfold s1. lia.
Qed.


End Scroll.

Lemma map_snd_combine {A B : Type} (l : list A) :
  forall l' : list B, List.length l = List.length l' -> map snd (combine l l') = l'.
Proof.
  induction l as [|a l IH]; intros [|b l'] H; simpl in *; try discriminate; [reflexivity |].
  f_equal. apply IH. lia.
Qed.



(** ** Runs *)

(** Every sequence of polls, whatever the keys and whatever curses answers,
    runs without reading outside a container and keeps the invariants. *)
Lemma handleInputs_wf (K : KeyCodes) (envs : list Env) :
  forall ui : ConsoleUI,
    wf ui -> exists ui', handleInputs K envs ui = Some ui' /\ wf ui'.
Proof.
  induction envs as [|env envs IH]; intros ui Hwf; [now exists ui |].
  cbn [handleInputs].
  destruct (handleInput_wf K env ui Hwf) as (ui1 & E1 & Hwf1).
  rewrite E1. cbn [bind]. now apply IH.
Qed.



(** * Instances *)

Lemma scrollback_bounded_fifo_witness :
  m_outputBuffer sample_ui = [] /\
  (let buffer := m_outputBuffer (addOutputMessages (sample_lines 1002) sample_ui) in
   List.length buffer = 1000%nat /\
   hd_error buffer = Some "l2"%string).
Proof.
  split; [reflexivity |].
  destruct (scrollback_bounded_fifo sample_ui (sample_lines 1002) eq_refl)
    as (_ & Hlen & _ & Hhd).
  cbv zeta. split.
  - rewrite Hlen. vm_compute. reflexivity.
  - rewrite Hhd.
    + vm_compute. reflexivity.
    + apply Nat.ltb_lt. vm_compute. reflexivity.
Defined.

Lemma visibleSlice_exact_witness :
  0 <= 3 /\
  map snd (drawOutputWindow_lines (sample_lines 10) 4 3) =
  [Some "l3"; Some "l4"; Some "l5"; Some "l6"]%string.
Proof.
  split; [lia |].
  destruct (proj1 visibleSlice_exact (sample_lines 10) 4 3) as (E & _); [lia |].
  rewrite E. vm_compute. reflexivity.
Defined.

Lemma computeLayout_outcome_witness :
  m_inputHeight (ConsoleUI_ctor 24 80) = 3 /\
  snd (setupWindows newwin_ok 24 80 (ConsoleUI_ctor 24 80)) = has_value_ /\
  m_outputHeight (fst (setupWindows newwin_ok 24 80 (ConsoleUI_ctor 24 80))) = 21.
Proof.
  split; [reflexivity |].
  destruct (computeLayout_outcome newwin_ok 24 80 (ConsoleUI_ctor 24 80) eq_refl)
    as (_ & H).
  destruct H as (_ & Hout & _ & Hready & _); [lia | lia |].
  split; [| exact Hout].
  destruct (Hready (mkWINDOW 21 80 0 0) (mkWINDOW 3 80 21 0)
                   (mkWINDOW 19 78 1 1) (mkWINDOW 1 78 22 1)) as (E & _);
    [reflexivity | reflexivity | reflexivity | reflexivity | exact E].
Defined.

Lemma enter_submits_and_records_witness :
  keycodes_ok pdcurses /\
  (wgetch (sample_key 10) = KEY_ENTER pdcurses \/
   wgetch (sample_key 10) = 10 \/ wgetch (sample_key 10) = 13) /\
  exists ui1 ui2,
    handleInput pdcurses (sample_key 10) (set_inputBuffer "look" sample_ui) = Some ui1 /\
    m_commandHistory ui1 = ["look"%string] /\
    handleInput pdcurses (sample_key 10) (set_inputBuffer "look" ui1) = Some ui2 /\
    m_commandHistory ui2 = ["look"%string].
Proof.
  split; [exact pdcurses_ok |].
  split; [right; left; reflexivity |].
  apply (proj1 (proj2 (enter_submits_and_records pdcurses pdcurses_ok (sample_key 10)
                         (or_intror (or_introl eq_refl))))); reflexivity.
Defined.

Lemma history_navigation_witness :
  keycodes_ok pdcurses /\
  exists u1 u2,
    handleInputs pdcurses
      [sample_key 0x103; sample_key 0x103; sample_key 0x103; sample_key 0x102]
      (set_commandHistory ["a"; "b"; "c"]%string
         (set_historyIndex (-1) (set_resizeStatus has_value_ sample_ui))) = Some u1 /\
    m_inputBuffer u1 = "b"%string /\ m_historyIndex u1 = 1 /\ m_cursorPos u1 = 1 /\
    handleInputs pdcurses
      [sample_key 0x103; sample_key 0x103; sample_key 0x103; sample_key 0x103;
       sample_key 0x103]
      (set_commandHistory ["a"; "b"; "c"]%string
         (set_historyIndex (-1) (set_resizeStatus has_value_ sample_ui))) = Some u2 /\
    m_inputBuffer u2 = "a"%string /\ m_historyIndex u2 = 0.
Proof.
  split; [exact pdcurses_ok |].
  exact (proj2 (proj2 (history_navigation pdcurses pdcurses_ok)) sample_ui (24, 80) newwin_ok).
Defined.

Lemma commands_handled_locally_witness :
  keycodes_ok pdcurses /\
  (wgetch (sample_key 13) = KEY_ENTER pdcurses \/
   wgetch (sample_key 13) = 10 \/ wgetch (sample_key 13) = 13) /\
  has_value (m_resizeStatus (set_inputBuffer "look" sample_ui)) = true /\
  m_inputBuffer (set_inputBuffer "look" sample_ui) <> EmptyString /\
  exists ui',
    handleInput pdcurses (sample_key 13) (set_inputBuffer "look" sample_ui) = Some ui' /\
    m_outputBuffer ui' = ["> look"; "Unknown: 'look'"]%string.
Proof.
  split; [exact pdcurses_ok |].
  split; [right; right; reflexivity |].
  split; [reflexivity |].
  split; [discriminate |].
  destruct (commands_handled_locally pdcurses pdcurses_ok (sample_key 13)
              (set_inputBuffer "look" sample_ui))
    as (ui' & E & Hb & _); [right; right; reflexivity | reflexivity | discriminate |].
  exists ui'. split; [exact E |]. rewrite Hb. reflexivity.
Defined.

Lemma echo_precedes_command_output_witness :
  keycodes_ok pdcurses /\
  (wgetch (sample_key 0x157) = KEY_ENTER pdcurses \/
   wgetch (sample_key 0x157) = 10 \/ wgetch (sample_key 0x157) = 13) /\
  has_value (m_resizeStatus (set_inputBuffer "help" sample_ui)) = true /\
  m_inputBuffer (set_inputBuffer "help" sample_ui) <> EmptyString /\
  exists ui',
    handleInput pdcurses (sample_key 0x157) (set_inputBuffer "help" sample_ui) = Some ui' /\
    m_outputBuffer ui' =
      ["> help"; "Commands: exit, clear, help. Scroll: PgUp/PgDn"]%string.
Proof.
  split; [exact pdcurses_ok |].
  split; [left; reflexivity |].
  split; [reflexivity |].
  split; [discriminate |].
  destruct (echo_precedes_command_output pdcurses pdcurses_ok (sample_key 0x157)
              (set_inputBuffer "help" sample_ui))
    as (ui' & E & _ & Hb & _); [left; reflexivity | reflexivity | discriminate |].
  exists ui'. split; [exact E |]. rewrite Hb. reflexivity.
Defined.

Lemma resize_notice_once_witness :
  keycodes_ok pdcurses /\
  exists ui1,
    handleInput pdcurses (sample_key 0x222) (create (mkEnv (-1) (5, 20) newwin_ok)) = Some ui1 /\
    m_resizeStatus ui1 = has_value_ /\
    m_outputHeight ui1 = 21 /\ m_inputHeight ui1 = 3 /\
    m_outputBuffer ui1 = ["Terminal resized to usable dimensions."%string] /\
    handleInput pdcurses (sample_key 0x222) ui1 = Some ui1.
Proof.
  split; [exact pdcurses_ok |].
  exact (proj2 (proj2 (proj2 (resize_notice_once pdcurses pdcurses_ok) (-1) newwin_ok))).
Defined.


(** * Further properties of the code *)

(** ** Which key touches what *)

Lemma switch_inv (K : KeyCodes) (ch : Z) (c : SwitchCase) :
  switch K ch = c -> c = case_default \/ In (ch, c) (switch_labels K).
Proof.
  unfold switch. intros H.
  destruct (find (fun lc => fst lc =? ch) (switch_labels K)) as [[l c']|] eqn:E.
  - right. apply find_some in E. destruct E as [Hin Heq].
    cbn [fst snd] in *. apply Z.eqb_eq in Heq. subst. exact Hin.
  - left. now symmetry.
Qed.

Lemma switch_enter_inv (K : KeyCodes) (ch : Z) :
  switch K ch = case_ENTER -> is_enter K ch.
Proof.
  intros H. apply switch_inv in H. destruct H as [H | H]; [discriminate |].
  unfold is_enter. simpl in H.
  repeat (destruct H as [H | H]; [inversion H; auto |]). contradiction.
Qed.

Lemma switch_resize_inv (K : KeyCodes) (ch : Z) :
  switch K ch = case_RESIZE -> ch = KEY_RESIZE K.
Proof.
  intros H. apply switch_inv in H. destruct H as [H | H]; [discriminate |].
  simpl in H.
  repeat (destruct H as [H | H]; [inversion H; auto |]). contradiction.
Qed.

Lemma switch_page_inv (K : KeyCodes) (ch : Z) :
  switch K ch = case_PPAGE \/ switch K ch = case_NPAGE ->
  ch = KEY_PPAGE K \/ ch = KEY_NPAGE K.
Proof.
  intros [H | H]; apply switch_inv in H; destruct H as [H | H]; try discriminate;
    simpl in H;
    repeat (destruct H as [H | H]; [inversion H; auto |]); contradiction.
Qed.

(** Evaluate every test of a [case] body found in the hypothesis [H]. *)
Ltac run_case H :=
  repeat match type of H with
         | context [if ?b then _ else _] => destruct b eqn:?
         | context [match ?x with _ => _ end] => destruct x eqn:?
         | context [bind ?m _] => destruct m eqn:?; cbn [bind] in H
         end;
  try discriminate H;
  inversion H; subst; clear H.

Lemma handleResize_frame (env : Env) (ui : ConsoleUI) :
  let ui' := handleResize env ui in
  m_inputBuffer ui' = m_inputBuffer ui /\
  m_cursorPos ui' = m_cursorPos ui /\
  m_commandHistory ui' = m_commandHistory ui /\
  m_historyIndex ui' = m_historyIndex ui /\
  m_scrollOffset ui' = m_scrollOffset ui /\
  m_isRunning ui' = m_isRunning ui /\
  m_inputHeight ui' = m_inputHeight ui.
Proof.
  unfold handleResize. destruct (stdscr_maxyx env) as [h w].
  pose proof (setupWindows_frame (newwin env) h w ui) as F. cbv zeta in F.
  destruct (setupWindows (newwin env) h w ui) as [ui1 status]. cbn [fst] in F.
  destruct F as (F1 & F2 & F3 & F4 & F5 & F6 & F7 & F8 & _).
  destruct (negb (has_value (m_resizeStatus ui)) &&
            has_value (m_resizeStatus (set_resizeStatus status ui1)));
    members; repeat split; assumption.
Qed.

(** What the [case] bodies leave alone. *)
Lemma handleInput_switch_frame (c : SwitchCase) (env : Env) (ui ui' : ConsoleUI) :
  handleInput_switch c env ui = Some ui' ->
  (c <> case_ENTER ->
   m_commandHistory ui' = m_commandHistory ui /\ m_isRunning ui' = m_isRunning ui) /\
  (c <> case_ENTER -> c <> case_RESIZE -> m_outputBuffer ui' = m_outputBuffer ui) /\
  (c <> case_RESIZE ->
   m_outputWin ui' = m_outputWin ui /\ m_outputBorderWin ui' = m_outputBorderWin ui /\
   m_inputWin ui' = m_inputWin ui /\ m_inputBorderWin ui' = m_inputBorderWin ui /\
   m_termHeight ui' = m_termHeight ui /\ m_termWidth ui' = m_termWidth ui /\
   m_outputHeight ui' = m_outputHeight ui /\ m_resizeStatus ui' = m_resizeStatus ui) /\
  (c <> case_ENTER -> c <> case_PPAGE -> c <> case_NPAGE ->
   m_scrollOffset ui' = m_scrollOffset ui).
Proof.
  intros H.
  destruct c; unfold handleInput_switch in H; cbv zeta in H.
  - (* KEY_RESIZE *)
    inversion H; subst; clear H.
    pose proof (handleResize_frame env ui) as F. cbv zeta in F.
    destruct F as (F1 & F2 & F3 & F4 & F5 & F6 & F7).
    repeat split; intros; try congruence; auto.
  - run_case H; members; repeat split; intros; try congruence; auto.
  - run_case H; members; repeat split; intros; try congruence; auto.
  - run_case H; members; repeat split; intros; try congruence; auto.
  - run_case H; members; repeat split; intros; try congruence; auto.
  - run_case H; members; repeat split; intros; try congruence; auto.
  - run_case H; members; repeat split; intros; try congruence; auto.
  - run_case H; members; repeat split; intros; try congruence; auto.
  - run_case H; members; repeat split; intros; try congruence; auto.
  - (* KEY_ENTER *)
    destruct (has_value (m_resizeStatus ui) && negb (string_empty (m_inputBuffer ui))).
    + inversion H; subst; clear H.
      pose proof (processCommand_frame
                    (m_inputBuffer (addOutputMessage (format_echo (m_inputBuffer ui)) ui))
                    (addOutputMessage (format_echo (m_inputBuffer ui)) ui)) as F.
      cbv zeta in F. destruct F as (_ & _ & _ & _ & _ & F6 & F7 & F8 & F9 & F10).
      repeat split; intros; try congruence.
      all: match goal with
           | |- context [if ?b then _ else _] => destruct b
           end; members; auto.
      all: unfold processCommand;
        repeat match goal with
               | |- context [if ?b then _ else _] => destruct b
               end; reflexivity.
    + inversion H; subst. repeat split; intros; congruence.
  - run_case H; members; repeat split; intros; try congruence; auto.
  - run_case H; members; repeat split; intros; try congruence; auto.
  - run_case H; members; repeat split; intros; try congruence; auto.
Qed.

Lemma handleInput_cases (K : KeyCodes) (env : Env) (ui ui' : ConsoleUI) :
  handleInput K env ui = Some ui' ->
  ui' = ui \/ handleInput_switch (switch K (wgetch env)) env ui = Some ui'.
Proof.
  unfold handleInput. cbv zeta. intros H.
  destruct (negb (has_value (m_resizeStatus ui)) && negb (wgetch env =? KEY_RESIZE K)
            && negb (wgetch env =? ERR K)); [left; now inversion H |].
  destruct (wgetch env =? ERR K); [left; now inversion H |].
  now right.
Qed.

(** X12. What a key never touches.  A key other than enter changes neither
    History nor the running flag; a key other than enter and resize leaves
    the scrollback as it is; a key other than resize leaves the four
    windows, the terminal size, the output height and the layout status as
    they are; a key other than enter, page-up and page-down leaves the
    scroll offset as it is. *)
Theorem keys_leave_the_rest_alone (K : KeyCodes) (env : Env) (ui ui' : ConsoleUI) :
  handleInput K env ui = Some ui' ->
  let ch := wgetch env in
  (~ is_enter K ch ->
   m_commandHistory ui' = m_commandHistory ui /\ m_isRunning ui' = m_isRunning ui) /\
  (~ is_enter K ch -> ch <> KEY_RESIZE K -> m_outputBuffer ui' = m_outputBuffer ui) /\
  (ch <> KEY_RESIZE K ->
   m_outputWin ui' = m_outputWin ui /\ m_outputBorderWin ui' = m_outputBorderWin ui /\
   m_inputWin ui' = m_inputWin ui /\ m_inputBorderWin ui' = m_inputBorderWin ui /\
   m_termHeight ui' = m_termHeight ui /\ m_termWidth ui' = m_termWidth ui /\
   m_outputHeight ui' = m_outputHeight ui /\ m_resizeStatus ui' = m_resizeStatus ui) /\
  (~ is_enter K ch -> ch <> KEY_PPAGE K -> ch <> KEY_NPAGE K ->
   m_scrollOffset ui' = m_scrollOffset ui).
Proof.
  intros H ch.
  destruct (handleInput_cases K env ui ui' H) as [-> | Hsw].
  { repeat split; reflexivity. }
  destruct (handleInput_switch_frame _ env ui ui' Hsw) as (F1 & F2 & F3 & F4).
  assert (Henter : ~ is_enter K ch -> switch K ch <> case_ENTER)
    by (intros Hn E; apply Hn; now apply switch_enter_inv).
  assert (Hresize : ch <> KEY_RESIZE K -> switch K ch <> case_RESIZE)
    by (intros Hn E; apply Hn; now apply switch_resize_inv).
  split; [| split; [| split]].
  - intros Hn. apply F1. now apply Henter.
  - intros Hn Hr. apply F2; [now apply Henter | now apply Hresize].
  - intros Hr. apply F3. now apply Hresize.
  - intros Hn Hu Hd. apply F4; [now apply Henter | |].
    + intros E. destruct (switch_page_inv K ch (or_introl E)); contradiction.
    + intros E. destruct (switch_page_inv K ch (or_intror E)); contradiction.
Qed.

(** ** History *)

Lemma no_adjacent_dup_app_one (history : list string) (line : string) :
  no_adjacent_dup history ->
  (forall h0, history <> h0 ++ [line]) ->
  no_adjacent_dup (history ++ [line]).
Proof.
  induction history as [|x t IH]; intros Hnd Hlast; [exact I |].
  destruct t as [|y t'].
  - cbn. split; [| exact I]. intros ->. now apply (Hlast []).
  - cbn [no_adjacent_dup] in Hnd. destruct Hnd as [Hxy Hnd].
    change ((x :: y :: t') ++ [line]) with (x :: (y :: t') ++ [line]).
    cbn [no_adjacent_dup app]. split; [exact Hxy |].
    apply IH; [exact Hnd |].
    intros h0 E. apply (Hlast (x :: h0)). cbn. now rewrite E.
Qed.

Lemma enter_history (env : Env) (ui ui' : ConsoleUI) :
  handleInput_switch case_ENTER env ui = Some ui' ->
  m_commandHistory ui' = m_commandHistory ui \/
  (has_value (m_resizeStatus ui) = true /\
   m_inputBuffer ui <> "exit"%string /\
   (forall h0, m_commandHistory ui <> h0 ++ [m_inputBuffer ui]) /\
   m_commandHistory ui' = m_commandHistory ui ++ [m_inputBuffer ui]).
Proof.
  unfold handleInput_switch. cbv zeta. intros H.
  destruct (has_value (m_resizeStatus ui)) eqn:Hready; cbn [andb] in H;
    [| left; now inversion H].
  destruct (negb (string_empty (m_inputBuffer ui))); [| left; now inversion H].
  inversion H; subst; clear H. members.
  pose proof (processCommand_frame
                (m_inputBuffer ui) (addOutputMessage (format_echo (m_inputBuffer ui)) ui)) as F.
  cbv zeta in F. members. destruct F as (F1 & _ & F3 & _).
  rewrite F1, F3.
  pose proof (history_push_test (m_commandHistory ui) (m_inputBuffer ui)) as Htest.
  destruct (negb (String.eqb (m_inputBuffer ui) "exit")
            && (vector_empty (m_commandHistory ui)
                || negb (String.eqb (vector_back (m_commandHistory ui)) (m_inputBuffer ui)))).
  - right. destruct (proj1 Htest eq_refl) as [Hexit Hdup]. members. auto.
  - left. exact F3.
Qed.

Lemma handleInput_history (K : KeyCodes) (env : Env) (ui ui' : ConsoleUI) :
  handleInput K env ui = Some ui' ->
  m_commandHistory ui' = m_commandHistory ui \/
  (is_enter K (wgetch env) /\
   has_value (m_resizeStatus ui) = true /\
   m_inputBuffer ui <> "exit"%string /\
   (forall h0, m_commandHistory ui <> h0 ++ [m_inputBuffer ui]) /\
   m_commandHistory ui' = m_commandHistory ui ++ [m_inputBuffer ui]).
Proof.
  intros H.
  destruct (handleInput_cases K env ui ui' H) as [-> | Hsw]; [now left |].
  destruct (switch K (wgetch env)) eqn:Ec;
    try (left; apply (handleInput_switch_frame _ env ui ui' Hsw); discriminate).
  destruct (enter_history env ui ui' Hsw) as [E | (H1 & H2 & H3 & H4)]; [now left |].
  right. split; [now apply switch_enter_inv | auto].
Qed.

(** X2. History is append-only.  One poll either leaves History as it is
    or, for enter on a Ready layout, appends the submitted line, which then
    is not "exit" and differs from the entry before it.  So History never
    loses or reorders entries, and never holds two equal entries next to
    each other. *)
Theorem history_append_only (K : KeyCodes) (env : Env) (ui ui' : ConsoleUI) :
  handleInput K env ui = Some ui' ->
  (m_commandHistory ui' = m_commandHistory ui \/
   (is_enter K (wgetch env) /\
    has_value (m_resizeStatus ui) = true /\
    m_inputBuffer ui <> "exit"%string /\
    (forall h0, m_commandHistory ui <> h0 ++ [m_inputBuffer ui]) /\
    m_commandHistory ui' = m_commandHistory ui ++ [m_inputBuffer ui])) /\
  (exists added, m_commandHistory ui' = m_commandHistory ui ++ added) /\
  (no_adjacent_dup (m_commandHistory ui) -> no_adjacent_dup (m_commandHistory ui')).
Proof.
  intros H.
  pose proof (handleInput_history K env ui ui' H) as Hcases.
  split; [exact Hcases |]. split.
  - destruct Hcases as [-> | (_ & _ & _ & _ & ->)].
    + exists []. now rewrite app_nil_r.
    + now exists [m_inputBuffer ui].
  - intros Hnd. destruct Hcases as [-> | (_ & _ & _ & Hdup & ->)]; [exact Hnd |].
    now apply no_adjacent_dup_app_one.
Qed.

(** ** Runs *)







(** ** Polls that are ignored *)

Lemma handleInput_ignored (K : KeyCodes) (ui : ConsoleUI) (env : Env) :
  ignored_poll K ui env -> handleInput K env ui = Some ui.
Proof.
  unfold ignored_poll, handleInput. cbv zeta. intros [Herr | [[Hsmall Hkey] | [Hlabel Hprint]]].
  - rewrite Herr, Z.eqb_refl. rewrite andb_false_r. reflexivity.
  - rewrite Hsmall. cbn [negb andb].
    apply Z.eqb_neq in Hkey. rewrite Hkey. cbn [negb andb].
    destruct (wgetch env =? ERR K); reflexivity.
  - destruct (negb (has_value (m_resizeStatus ui)) && negb (wgetch env =? KEY_RESIZE K)
              && negb (wgetch env =? ERR K)); [reflexivity |].
    destruct (wgetch env =? ERR K); [reflexivity |].
    destruct (switch_inv K (wgetch env) _ eq_refl) as [E | Hin];
      [| now apply Hlabel in Hin].
    rewrite E. unfold handleInput_switch. cbv zeta.
    destruct (has_value (m_resizeStatus ui)); [| reflexivity]. cbn [andb].
    destruct (Z.geb_spec (wgetch env) 32); [| reflexivity].
    destruct (Z.leb_spec (wgetch env) 126); [| reflexivity].
    exfalso. apply Hprint. unfold printable. lia.
Qed.

(** X3. Ignored polls change nothing.  A poll with no key pending ([ERR]),
    any key but a resize while the layout is TooSmall, and a key that is
    neither handled by the [switch] nor printable all leave the object
    exactly as it was; so does any sequence of such polls. *)
Theorem ignored_polls_change_nothing (K : KeyCodes) (ui : ConsoleUI) (envs : list Env) :
  Forall (ignored_poll K ui) envs ->
  handleInputs K envs ui = Some ui /\
  (m_isRunning ui = true -> run_loop K envs ui = Some ui).
Proof.
  induction 1 as [|env envs Hign _ [IH1 IH2]]; [split; reflexivity |].
  cbn [handleInputs run_loop].
  rewrite (handleInput_ignored K ui env Hign). cbn [bind].
  split; [exact IH1 |]. intros Hrun. rewrite Hrun. now apply IH2.
Qed.

(** ** Stopping *)

Lemma handleInput_switch_enter_running (env : Env) (ui ui' : ConsoleUI) :
  handleInput_switch case_ENTER env ui = Some ui' ->
  m_isRunning ui' = m_isRunning ui \/
  (m_isRunning ui' = false /\ has_value (m_resizeStatus ui) = true /\
   m_inputBuffer ui = "exit"%string).
Proof.
  unfold handleInput_switch. cbv zeta. intros H.
  destruct (has_value (m_resizeStatus ui)) eqn:Hready; cbn [andb] in H;
    [| left; now inversion H].
  destruct (negb (string_empty (m_inputBuffer ui))); [| left; now inversion H].
  inversion H; subst; clear H. members.
  assert (Hrun : m_isRunning
            (processCommand (m_inputBuffer ui)
               (addOutputMessage (format_echo (m_inputBuffer ui)) ui)) =
          if String.eqb (m_inputBuffer ui) "exit" then false else m_isRunning ui).
  { unfold processCommand.
    destruct (String.eqb (m_inputBuffer ui) "exit"); [reflexivity |].
    destruct (String.eqb (m_inputBuffer ui) "clear"); [reflexivity |].
    destruct (String.eqb (m_inputBuffer ui) "help"); reflexivity. }
  match goal with
  | |- context [if ?b then _ else _] => destruct b
  end; members; rewrite Hrun;
    (destruct (String.eqb_spec (m_inputBuffer ui) "exit"); [right; auto | now left]).
Qed.

(** X8. Only "exit" stops the loop from the keyboard.  A poll clears the
    running flag only when it is enter on the line "exit" with a Ready
    layout; every other poll leaves the flag as it is.  Once the flag is
    cleared [run]'s loop handles no further poll: the polls after the
    "exit" line have no effect at all. *)
Theorem only_exit_stops_the_loop (K : KeyCodes) (env : Env) (ui ui' : ConsoleUI)
    (later : list Env) :
  handleInput K env ui = Some ui' ->
  (m_isRunning ui' = m_isRunning ui \/
   (m_isRunning ui' = false /\ is_enter K (wgetch env) /\
    has_value (m_resizeStatus ui) = true /\ m_inputBuffer ui = "exit"%string)) /\
  (m_isRunning ui = true -> m_isRunning ui' = false ->
   run_loop K (env :: later) ui = Some ui').
Proof.
  intros H.
  assert (Hflag :
    m_isRunning ui' = m_isRunning ui \/
    (m_isRunning ui' = false /\ is_enter K (wgetch env) /\
     has_value (m_resizeStatus ui) = true /\ m_inputBuffer ui = "exit"%string)).
  { destruct (handleInput_cases K env ui ui' H) as [-> | Hsw]; [now left |].
    destruct (switch K (wgetch env)) eqn:Ec;
      try (left; apply (handleInput_switch_frame _ env ui ui' Hsw); discriminate).
    destruct (handleInput_switch_enter_running env ui ui' Hsw) as [E | (E1 & E2 & E3)];
      [now left | right].
    split; [exact E1 |]. split; [now apply switch_enter_inv | auto]. }
  split; [exact Hflag |].
  intros Hrun Hstop. cbn [run_loop]. rewrite Hrun, H. cbn [bind].
  destruct later as [|env1 later]; cbn [run_loop]; [reflexivity |].
  now rewrite Hstop.
Qed.

(** ** Editing the line *)

Lemma las_append (s t : string) :
  list_ascii_of_string (String.append s t) = list_ascii_of_string s ++ list_ascii_of_string t.
Proof.
  induction s as [|c s IH]; cbn; [reflexivity | now rewrite IH].
Qed.

Lemma las_substring (s : string) :
  forall n m,
    list_ascii_of_string (substring n m s) = firstn m (skipn n (list_ascii_of_string s)).
Proof.
  induction s as [|c s IH]; intros [|n] [|m]; cbn; try reflexivity.
  - now rewrite IH.
  - apply IH.
  - apply IH.
Qed.

Lemma las_length (s : string) : List.length (list_ascii_of_string s) = String.length s.
Proof.
  induction s as [|c s IH]; cbn; [reflexivity | now rewrite IH].
Qed.

Lemma las_inj (s t : string) : list_ascii_of_string s = list_ascii_of_string t -> s = t.
Proof.
  intros H. rewrite <- (string_of_list_ascii_of_string s), H.
  apply string_of_list_ascii_of_string.
Qed.

Lemma string_insert_las (s b : string) (pos : Z) (a : ascii) :
  string_insert s pos a = Some b ->
  0 <= pos <= string_length s /\
  list_ascii_of_string b =
    firstn (Z.to_nat pos) (list_ascii_of_string s)
      ++ a :: skipn (Z.to_nat pos) (list_ascii_of_string s).
Proof.
  unfold string_insert, string_length. intros H.
  destruct (Z.leb_spec 0 pos); [| discriminate].
  destruct (Z.leb_spec pos (Z.of_nat (String.length s))); [| discriminate].
  cbn [andb] in H. inversion H; subst; clear H. split; [lia |].
  rewrite las_append. cbn [list_ascii_of_string]. rewrite !las_substring.
  rewrite skipn_0. f_equal. f_equal.
  apply firstn_all2. rewrite length_skipn, las_length. lia.
Qed.

Lemma string_erase_las (s b : string) (pos : Z) :
  string_erase s pos 1 = Some b ->
  list_ascii_of_string b =
    firstn (Z.to_nat pos) (list_ascii_of_string s)
      ++ skipn (Z.to_nat pos + 1) (list_ascii_of_string s).
Proof.
  unfold string_erase, string_length. intros H.
  destruct (Z.leb_spec 0 pos); [| discriminate].
  destruct (Z.leb_spec pos (Z.of_nat (String.length s))); [| discriminate].
  cbn [andb] in H. inversion H; subst; clear H.
  rewrite las_append, !las_substring, skipn_0. f_equal.
  apply firstn_all2. rewrite length_skipn, las_length. lia.
Qed.

(** Inserting at [p] and erasing at [p] again gives the list back. *)
Lemma insert_erase_list {A : Type} (l : list A) (p : nat) (a : A) :
  (p <= List.length l)%nat ->
  firstn p (firstn p l ++ a :: skipn p l) ++ skipn (p + 1) (firstn p l ++ a :: skipn p l) = l.
Proof.
  intros Hp.
  assert (Hlen : List.length (firstn p l) = p) by (rewrite length_firstn; lia).
  rewrite firstn_app, skipn_app, Hlen.
  replace (p - p)%nat with 0%nat by lia.
  replace (p + 1 - p)%nat with 1%nat by lia.
  rewrite firstn_0, app_nil_r, firstn_firstn, Nat.min_id.
  rewrite (skipn_all2 (firstn p l)) by lia.
  cbn [skipn app]. apply firstn_skipn.
Qed.

Lemma handleInputs_app (K : KeyCodes) (envs1 envs2 : list Env) :
  forall ui,
    handleInputs K (envs1 ++ envs2) ui =
    (ui1 <- handleInputs K envs1 ui ;; handleInputs K envs2 ui1).
Proof.
  induction envs1 as [|env envs1 IH]; intros ui; cbn [app handleInputs bind]; [reflexivity |].
  destruct (handleInput K env ui) as [ui1|]; cbn [bind]; [apply IH | reflexivity].
Qed.

Lemma set_cursor_text_id (ui : ConsoleUI) :
  set_cursorPos (m_cursorPos ui) (set_inputBuffer (m_inputBuffer ui) ui) = ui.
Proof.
  destruct ui; reflexivity.
Qed.

Lemma set_cursor_text_eq (ui : ConsoleUI) (c c' : Z) (t t' : string) :
  c = c' -> t = t' ->
  set_cursorPos c (set_inputBuffer t ui) = set_cursorPos c' (set_inputBuffer t' ui).
Proof.
  now intros -> ->.
Qed.

Section Editing.

Variable K : KeyCodes.
Hypothesis HU : keycodes_unprintable K.

Lemma switch_printable (ch : Z) : printable ch -> switch K ch = case_default.
Proof.
  intros Hp. destruct (switch_inv K ch _ eq_refl) as [E | Hin]; [exact E |].
  exfalso. exact (proj1 HU ch _ Hin Hp).
Qed.

(** A printable key on a Ready layout reaches the [default] case and is
    inserted at the cursor. *)
Lemma handleInput_printable (env : Env) (ui : ConsoleUI) :
  printable (wgetch env) ->
  has_value (m_resizeStatus ui) = true ->
  handleInput K env ui =
  (b <- string_insert (m_inputBuffer ui) (m_cursorPos ui)
          (ascii_of_nat (Z.to_nat (wgetch env))) ;;
   Some (set_cursorPos (m_cursorPos ui + 1) (set_inputBuffer b ui))).
Proof.
  intros Hp Hready. unfold handleInput. cbv zeta. rewrite Hready. cbn [negb andb].
  assert (Herr : (wgetch env =? ERR K) = false).
  { apply Z.eqb_neq. intros E. apply (proj2 HU). now rewrite <- E. }
  rewrite Herr, (switch_printable _ Hp).
  unfold handleInput_switch. cbv zeta. rewrite Hready. cbn [andb].
  unfold printable in Hp.
  destruct (Z.geb_spec (wgetch env) 32); [| lia].
  destruct (Z.leb_spec (wgetch env) 126); [| lia].
  reflexivity.
Qed.

Lemma typing_step (scr : Z * Z) (nw : Z -> Z -> Z -> Z -> option WINDOW)
    (a : ascii) (ui : ConsoleUI) :
  printable (Z.of_nat (nat_of_ascii a)) ->
  has_value (m_resizeStatus ui) = true ->
  0 <= m_cursorPos ui <= string_length (m_inputBuffer ui) ->
  exists b,
    handleInput K (mkEnv (Z.of_nat (nat_of_ascii a)) scr nw) ui =
      Some (set_cursorPos (m_cursorPos ui + 1) (set_inputBuffer b ui)) /\
    string_length b = string_length (m_inputBuffer ui) + 1 /\
    list_ascii_of_string b =
      firstn (Z.to_nat (m_cursorPos ui)) (list_ascii_of_string (m_inputBuffer ui))
        ++ a :: skipn (Z.to_nat (m_cursorPos ui)) (list_ascii_of_string (m_inputBuffer ui)).
Proof.
  intros Hp Hready Hc.
  rewrite handleInput_printable by assumption. cbn [wgetch].
  rewrite Nat2Z.id, ascii_nat_embedding.
  destruct (string_insert_one (m_inputBuffer ui) (m_cursorPos ui) a Hc) as (b & Eb & Lb).
  rewrite Eb. cbn [bind]. exists b. split; [reflexivity |]. split; [exact Lb |].
  now apply string_insert_las in Eb.
Qed.

Lemma typing_run (scr : Z * Z) (nw : Z -> Z -> Z -> Z -> option WINDOW) (s : string) :
  forall ui : ConsoleUI,
    has_value (m_resizeStatus ui) = true ->
    0 <= m_cursorPos ui <= string_length (m_inputBuffer ui) ->
    Forall printable (key_codes s) ->
    exists text',
      handleInputs K (polls scr nw (key_codes s)) ui =
        Some (set_cursorPos (m_cursorPos ui + string_length s) (set_inputBuffer text' ui)) /\
      list_ascii_of_string text' =
        firstn (Z.to_nat (m_cursorPos ui)) (list_ascii_of_string (m_inputBuffer ui))
          ++ list_ascii_of_string s
          ++ skipn (Z.to_nat (m_cursorPos ui)) (list_ascii_of_string (m_inputBuffer ui)).
Proof.
  induction s as [|a s IH]; intros ui Hready Hc Hp.
  - exists (m_inputBuffer ui). split.
    + cbn [key_codes polls list_ascii_of_string map handleInputs].
      rewrite <- (set_cursor_text_id ui) at 1. f_equal.
      apply set_cursor_text_eq; [| reflexivity]. unfold string_length. cbn. lia.
    + cbn [list_ascii_of_string app]. now rewrite firstn_skipn.
  - cbn [key_codes list_ascii_of_string map] in Hp. inversion Hp as [|? ? Hpa Hps]; subst.
    destruct (typing_step scr nw a ui Hpa Hready Hc) as (b & Estep & Lb & Eb).
    set (ui1 := set_cursorPos (m_cursorPos ui + 1) (set_inputBuffer b ui)) in *.
    destruct (IH ui1) as (text' & Erun & Etext).
    { exact Hready. }
    { unfold ui1. members. lia. }
    { exact Hps. }
    exists text'. split.
    + unfold key_codes, polls in *. cbn [list_ascii_of_string map handleInputs].
      rewrite Estep. cbn [bind]. rewrite Erun. unfold ui1. members. f_equal.
      change (set_cursorPos ?c (set_inputBuffer ?t (set_cursorPos _ (set_inputBuffer _ ui))))
        with (set_cursorPos c (set_inputBuffer t ui)).
      apply set_cursor_text_eq; [| reflexivity].
      unfold string_length. cbn [String.length]. lia.
    + rewrite Etext. unfold ui1. members. rewrite Eb.
      set (l := list_ascii_of_string (m_inputBuffer ui)).
      set (p := Z.to_nat (m_cursorPos ui)).
      assert (Hp' : (p <= List.length l)%nat)
        by (unfold p, l; rewrite las_length; unfold string_length in Hc; lia).
      assert (Hlen : List.length (firstn p l) = p) by (rewrite length_firstn; lia).
      replace (Z.to_nat (m_cursorPos ui + 1)) with (p + 1)%nat by (unfold p; lia).
      rewrite firstn_app, skipn_app, Hlen.
      replace (p + 1 - p)%nat with 1%nat by lia.
      rewrite (firstn_all2 (firstn p l)) by lia.
      rewrite (skipn_all2 (firstn p l)) by lia.
      cbn [firstn skipn app list_ascii_of_string].
      rewrite <- app_assoc. reflexivity.
Qed.

End Editing.

(** X4. Typing inserts at the cursor.  On a Ready layout, typing the
    printable characters of [s] one key at a time puts [s] into the line at
    the cursor position, between the text before and the text after the
    cursor, and moves the cursor to the end of what was typed; nothing else
    of the object changes.  On an empty line the text becomes [s]. *)
Theorem typing_inserts_at_cursor (K : KeyCodes) (scr : Z * Z)
    (nw : Z -> Z -> Z -> Z -> option WINDOW) (s : string) (ui : ConsoleUI) :
  keycodes_unprintable K ->
  has_value (m_resizeStatus ui) = true ->
  0 <= m_cursorPos ui <= string_length (m_inputBuffer ui) ->
  Forall printable (key_codes s) ->
  let p := Z.to_nat (m_cursorPos ui) in
  let before := substring 0 p (m_inputBuffer ui) in
  let after := substring p (String.length (m_inputBuffer ui) - p) (m_inputBuffer ui) in
  handleInputs K (polls scr nw (key_codes s)) ui =
    Some (set_cursorPos (m_cursorPos ui + string_length s)
            (set_inputBuffer (String.append before (String.append s after)) ui)) /\
  (m_inputBuffer ui = EmptyString ->
   handleInputs K (polls scr nw (key_codes s)) ui =
     Some (set_cursorPos (string_length s) (set_inputBuffer s ui))).
Proof.
  intros HU Hready Hc Hp p before after.
  destruct (typing_run K HU scr nw s ui Hready Hc Hp) as (text' & Erun & Etext).
  assert (E : text' = String.append before (String.append s after)).
  { apply las_inj. rewrite Etext, !las_append. unfold before, after.
    rewrite !las_substring, skipn_0. fold p. f_equal. f_equal.
    symmetry. apply firstn_all2. rewrite length_skipn, las_length. lia. }
  subst text'. split; [exact Erun |].
  intros Hempty. rewrite Erun.
  assert (Hc0 : m_cursorPos ui = 0)
    by (rewrite Hempty in Hc; unfold string_length in Hc; cbn in Hc; lia).
  unfold before, after, p. rewrite Hempty, Hc0. f_equal.
  assert (Es : String.append s "" = s).
  { apply las_inj. rewrite las_append. cbn. apply app_nil_r. }
  apply set_cursor_text_eq; [lia |]. cbn. exact Es.
Qed.

Section EditingKeys.

Variable K : KeyCodes.
Hypothesis HK : keycodes_ok K.
Variable scr : Z * Z.
Variable nw : Z -> Z -> Z -> Z -> option WINDOW.

(** Send the key [ch], a label of the group [group], to a Ready layout. *)
Ltac key_of group :=
  rewrite (handleInput_dispatch K HK _ _ group);
  [ unfold handleInput_switch; cbv zeta; members
  | cbn [wgetch]; simpl; auto 20
  | left; members; assumption ].

Lemma backspace_label (bs : Z) :
  is_backspace K bs -> In (bs, case_BACKSPACE) (switch_labels K).
Proof.
  intros [-> | [-> | ->]]; simpl; auto 20.
Qed.

Lemma handleInput_backspace (bs : Z) (ui : ConsoleUI) :
  is_backspace K bs ->
  has_value (m_resizeStatus ui) = true ->
  0 < m_cursorPos ui <= string_length (m_inputBuffer ui) ->
  exists b,
    handleInput K (mkEnv bs scr nw) ui =
      Some (set_cursorPos (m_cursorPos ui - 1) (set_inputBuffer b ui)) /\
    list_ascii_of_string b =
      firstn (Z.to_nat (m_cursorPos ui - 1)) (list_ascii_of_string (m_inputBuffer ui))
        ++ skipn (Z.to_nat (m_cursorPos ui - 1) + 1) (list_ascii_of_string (m_inputBuffer ui)).
Proof.
  intros Hbs Hready Hc.
  rewrite (handleInput_dispatch K HK _ _ case_BACKSPACE);
    [| now apply backspace_label | now left].
  unfold handleInput_switch. cbv zeta.
  destruct (Z.gtb_spec (m_cursorPos ui) 0); [| lia].
  destruct (string_erase_one (m_inputBuffer ui) (m_cursorPos ui - 1)) as (b & Eb & _); [lia |].
  rewrite Eb. cbn [bind]. exists b. split; [reflexivity |].
  now apply string_erase_las.
Qed.

Lemma handleInput_delete (ui : ConsoleUI) :
  has_value (m_resizeStatus ui) = true ->
  0 <= m_cursorPos ui < string_length (m_inputBuffer ui) ->
  exists b,
    handleInput K (mkEnv (KEY_DC K) scr nw) ui = Some (set_inputBuffer b ui) /\
    list_ascii_of_string b =
      firstn (Z.to_nat (m_cursorPos ui)) (list_ascii_of_string (m_inputBuffer ui))
        ++ skipn (Z.to_nat (m_cursorPos ui) + 1) (list_ascii_of_string (m_inputBuffer ui)).
Proof.
  intros Hready Hc. key_of case_DC.
  destruct (Z.ltb_spec (m_cursorPos ui) (string_length (m_inputBuffer ui))); [| lia].
  destruct (string_erase_one (m_inputBuffer ui) (m_cursorPos ui)) as (b & Eb & _); [lia |].
  rewrite Eb. cbn [bind]. exists b. split; [reflexivity |].
  now apply string_erase_las.
Qed.

Lemma handleInput_left (ui : ConsoleUI) :
  has_value (m_resizeStatus ui) = true ->
  handleInput K (mkEnv (KEY_LEFT K) scr nw) ui =
  Some (if m_cursorPos ui >? 0 then set_cursorPos (m_cursorPos ui - 1) ui else ui).
Proof.
  intros Hready. key_of case_LEFT. destruct (m_cursorPos ui >? 0); reflexivity.
Qed.

Lemma handleInput_right (ui : ConsoleUI) :
  has_value (m_resizeStatus ui) = true ->
  handleInput K (mkEnv (KEY_RIGHT K) scr nw) ui =
  Some (if m_cursorPos ui <? string_length (m_inputBuffer ui)
        then set_cursorPos (m_cursorPos ui + 1) ui else ui).
Proof.
  intros Hready. key_of case_RIGHT.
  destruct (m_cursorPos ui <? string_length (m_inputBuffer ui)); reflexivity.
Qed.

Lemma handleInput_home (ui : ConsoleUI) :
  has_value (m_resizeStatus ui) = true ->
  handleInput K (mkEnv (KEY_HOME K) scr nw) ui = Some (set_cursorPos 0 ui).
Proof.
  intros Hready. key_of case_HOME. reflexivity.
Qed.

Lemma handleInput_end (ui : ConsoleUI) :
  has_value (m_resizeStatus ui) = true ->
  handleInput K (mkEnv (KEY_END K) scr nw) ui =
  Some (set_cursorPos (string_length (m_inputBuffer ui)) ui).
Proof.
  intros Hready. key_of case_END. reflexivity.
Qed.

End EditingKeys.

Lemma set_cursorPos_id (ui : ConsoleUI) (c : Z) :
  c = m_cursorPos ui -> set_cursorPos c ui = ui.
Proof.
  intros ->. destruct ui; reflexivity.
Qed.

(** X5. Insertion and erasure are inverse.  On a Ready layout, typing a
    printable character and then pressing backspace gives back the object as
    it was, text and cursor included; so does typing the character, moving
    left and pressing delete. *)
Theorem insert_then_erase_restores (K : KeyCodes) (scr : Z * Z)
    (nw : Z -> Z -> Z -> Z -> option WINDOW) (ch bs : Z) (ui : ConsoleUI) :
  keycodes_ok K ->
  keycodes_unprintable K ->
  has_value (m_resizeStatus ui) = true ->
  0 <= m_cursorPos ui <= string_length (m_inputBuffer ui) ->
  printable ch ->
  is_backspace K bs ->
  handleInputs K (polls scr nw [ch; bs]) ui = Some ui /\
  handleInputs K (polls scr nw [ch; KEY_LEFT K; KEY_DC K]) ui = Some ui.
Proof.
  intros HK HU Hready Hc Hp Hbs.
  set (a := ascii_of_nat (Z.to_nat ch)).
  destruct (string_insert_one (m_inputBuffer ui) (m_cursorPos ui) a Hc) as (b1 & E1 & L1).
  pose proof (string_insert_las _ _ _ _ E1) as (_ & Eb1).
  set (ui1 := set_cursorPos (m_cursorPos ui + 1) (set_inputBuffer b1 ui)).
  assert (Estep : handleInput K (mkEnv ch scr nw) ui = Some ui1).
  { rewrite (handleInput_printable K HU) by assumption. cbn [wgetch]. fold a.
    rewrite E1. reflexivity. }
  set (l := list_ascii_of_string (m_inputBuffer ui)) in *.
  set (p := Z.to_nat (m_cursorPos ui)) in *.
  assert (Hp' : (p <= List.length l)%nat)
    by (unfold p, l; rewrite las_length; unfold string_length in Hc; lia).
  assert (Hback : forall b2 : string,
            list_ascii_of_string b2 =
              firstn p (list_ascii_of_string b1) ++ skipn (p + 1) (list_ascii_of_string b1) ->
            b2 = m_inputBuffer ui).
  { intros b2 E2. apply las_inj. rewrite E2, Eb1. fold l. now apply insert_erase_list. }
  split.
  - cbn [polls map handleInputs]. rewrite Estep. cbn [bind].
    destruct (handleInput_backspace K HK scr nw bs ui1 Hbs) as (b2 & E2 & Eb2).
    { exact Hready. }
    { unfold ui1. members. lia. }
    rewrite E2. cbn [bind]. f_equal. unfold ui1 in *. members.
    replace (Z.to_nat (m_cursorPos ui + 1 - 1)) with p in Eb2 by (unfold p; lia).
    rewrite (Hback b2 Eb2).
    change (set_cursorPos ?c (set_inputBuffer ?t (set_cursorPos _ (set_inputBuffer _ ui))))
      with (set_cursorPos c (set_inputBuffer t ui)).
    etransitivity; [| apply set_cursor_text_id].
    apply set_cursor_text_eq; [lia | reflexivity].
  - cbn [polls map handleInputs]. rewrite Estep. cbn [bind].
    rewrite (handleInput_left K HK scr nw ui1 Hready).
    unfold ui1 at 1. members.
    destruct (Z.gtb_spec (m_cursorPos ui + 1) 0); [| lia]. cbn [bind].
    set (ui2 := set_cursorPos (m_cursorPos ui1 - 1) ui1).
    destruct (handleInput_delete K HK scr nw ui2) as (b2 & E2 & Eb2).
    { exact Hready. }
    { unfold ui2, ui1. members. lia. }
    rewrite E2. cbn [bind]. f_equal. unfold ui2, ui1 in *. members.
    replace (Z.to_nat (m_cursorPos ui + 1 - 1)) with p in Eb2 by (unfold p; lia).
    rewrite (Hback b2 Eb2).
    change (set_inputBuffer ?t (set_cursorPos ?c (set_cursorPos _ (set_inputBuffer _ ui))))
      with (set_cursorPos c (set_inputBuffer t ui)).
    etransitivity; [| apply set_cursor_text_id].
    apply set_cursor_text_eq; [lia | reflexivity].
Qed.

(** X6. Cursor keys.  On a Ready layout, left then right gives back the
    object when the cursor is not at the start of the line, and right then
    left when it is not at the end; left at the start and right at the end
    do nothing; home and end put the cursor at 0 and at the length of the
    line.  None of these keys changes anything but the cursor. *)
Theorem cursor_keys_move_within_the_line (K : KeyCodes) (scr : Z * Z)
    (nw : Z -> Z -> Z -> Z -> option WINDOW) (ui : ConsoleUI) :
  keycodes_ok K ->
  has_value (m_resizeStatus ui) = true ->
  let len := string_length (m_inputBuffer ui) in
  (0 < m_cursorPos ui <= len ->
   handleInputs K (polls scr nw [KEY_LEFT K; KEY_RIGHT K]) ui = Some ui) /\
  (0 <= m_cursorPos ui < len ->
   handleInputs K (polls scr nw [KEY_RIGHT K; KEY_LEFT K]) ui = Some ui) /\
  (m_cursorPos ui <= 0 -> handleInput K (mkEnv (KEY_LEFT K) scr nw) ui = Some ui) /\
  (len <= m_cursorPos ui -> handleInput K (mkEnv (KEY_RIGHT K) scr nw) ui = Some ui) /\
  handleInput K (mkEnv (KEY_HOME K) scr nw) ui = Some (set_cursorPos 0 ui) /\
  handleInput K (mkEnv (KEY_END K) scr nw) ui = Some (set_cursorPos len ui).
Proof.
  intros HK Hready len.
  split; [| split; [| split; [| split; [| split]]]].
  - intros Hc. cbn [polls map handleInputs].
    rewrite (handleInput_left K HK scr nw ui Hready).
    destruct (Z.gtb_spec (m_cursorPos ui) 0); [| lia]. cbn [bind].
    rewrite (handleInput_right K HK scr nw (set_cursorPos (m_cursorPos ui - 1) ui) Hready).
    members. fold len.
    destruct (Z.ltb_spec (m_cursorPos ui - 1) len); [| lia]. cbn [bind]. f_equal.
    change (set_cursorPos ?c (set_cursorPos _ ui)) with (set_cursorPos c ui).
    apply set_cursorPos_id. lia.
  - intros Hc. cbn [polls map handleInputs].
    rewrite (handleInput_right K HK scr nw ui Hready). fold len.
    destruct (Z.ltb_spec (m_cursorPos ui) len); [| lia]. cbn [bind].
    rewrite (handleInput_left K HK scr nw (set_cursorPos (m_cursorPos ui + 1) ui) Hready).
    members.
    destruct (Z.gtb_spec (m_cursorPos ui + 1) 0); [| lia]. cbn [bind]. f_equal.
    change (set_cursorPos ?c (set_cursorPos _ ui)) with (set_cursorPos c ui).
    apply set_cursorPos_id. lia.
  - intros Hc. rewrite (handleInput_left K HK scr nw ui Hready).
    destruct (Z.gtb_spec (m_cursorPos ui) 0); [lia | reflexivity].
  - intros Hc. rewrite (handleInput_right K HK scr nw ui Hready). fold len.
    destruct (Z.ltb_spec (m_cursorPos ui) len); [lia | reflexivity].
  - now apply handleInput_home.
  - now apply handleInput_end.
Qed.

(** ** A whole command *)

Lemma processCommand_buffer (command : string) (ui : ConsoleUI) :
  m_outputBuffer (processCommand command ui) =
  if String.eqb command "exit" then m_outputBuffer ui
  else if String.eqb command "clear" then []
  else if String.eqb command "help"
       then push_bounded (m_outputBuffer ui) "Commands: exit, clear, help. Scroll: PgUp/PgDn"
       else push_bounded (m_outputBuffer ui) (format_unknown command).
Proof.
  unfold processCommand.
  destruct (String.eqb command "exit"); [reflexivity |].
  destruct (String.eqb command "clear"); [reflexivity |].
  destruct (String.eqb command "help"); reflexivity.
Qed.

Lemma processCommand_isRunning (command : string) (ui : ConsoleUI) :
  m_isRunning (processCommand command ui) =
  if String.eqb command "exit" then false else m_isRunning ui.
Proof.
  unfold processCommand.
  destruct (String.eqb command "exit"); [reflexivity |].
  destruct (String.eqb command "clear"); [reflexivity |].
  destruct (String.eqb command "help"); reflexivity.
Qed.

(** X7. Typing a command and pressing enter.  On a Ready layout with an
    empty line, typing the printable, non-empty text [s] and then enter
    shows the echo "> s" followed by what [processCommand] prints for [s],
    records [s] in History unless it is "exit" or repeats the last entry,
    stops the loop exactly when [s] is "exit", and leaves an empty line with
    the cursor at 0, historyIndex -1 and scroll offset 0. *)
Theorem type_and_submit (K : KeyCodes) (scr : Z * Z)
    (nw : Z -> Z -> Z -> Z -> option WINDOW) (s : string) (enter : Z) (ui : ConsoleUI) :
  keycodes_ok K ->
  keycodes_unprintable K ->
  has_value (m_resizeStatus ui) = true ->
  m_inputBuffer ui = EmptyString ->
  m_cursorPos ui = 0 ->
  s <> EmptyString ->
  Forall printable (key_codes s) ->
  is_enter K enter ->
  exists ui',
    handleInputs K (polls scr nw (key_codes s ++ [enter])) ui = Some ui' /\
    m_outputBuffer ui' =
      m_outputBuffer (processCommand s (addOutputMessage (String.append "> " s) ui)) /\
    m_isRunning ui' = (if String.eqb s "exit" then false else m_isRunning ui) /\
    (s = "exit"%string \/ (exists h0, m_commandHistory ui = h0 ++ [s]) ->
     m_commandHistory ui' = m_commandHistory ui) /\
    (s <> "exit"%string -> (forall h0, m_commandHistory ui <> h0 ++ [s]) ->
     m_commandHistory ui' = m_commandHistory ui ++ [s]) /\
    m_inputBuffer ui' = EmptyString /\
    m_cursorPos ui' = 0 /\
    m_historyIndex ui' = -1 /\
    m_scrollOffset ui' = 0.
Proof.
  intros HK HU Hready Hempty Hcur Hs Hp Henter.
  destruct (typing_run K HU scr nw s ui Hready) as (text' & Erun & Etext);
    [rewrite Hempty, Hcur; unfold string_length; cbn; lia | exact Hp |].
  assert (E : text' = s).
  { apply las_inj. rewrite Etext, Hempty, Hcur. cbn. apply app_nil_r. }
  subst text'.
  set (typed := set_cursorPos (m_cursorPos ui + string_length s) (set_inputBuffer s ui)) in *.
  unfold polls. rewrite map_app. fold (polls scr nw (key_codes s)).
  rewrite handleInputs_app, Erun. cbn [bind map handleInputs].
  assert (Hline : m_inputBuffer typed <> EmptyString) by exact Hs.
  rewrite (handleInput_enter K HK (mkEnv enter scr nw) Henter typed Hready Hline).
  cbn [bind]. eexists. split; [reflexivity |].
  unfold typed. members.
  pose proof (history_push_test (m_commandHistory ui) s) as Htest.
  split; [| split].
  - rewrite !processCommand_buffer. reflexivity.
  - rewrite processCommand_isRunning. reflexivity.
  - destruct (negb (String.eqb s "exit")
              && (vector_empty (m_commandHistory ui)
                  || negb (String.eqb (vector_back (m_commandHistory ui)) s))).
    + destruct (proj1 Htest eq_refl) as [Hexit Hdup]. repeat split; auto.
      intros [E | [h0 E]]; [contradiction | now apply Hdup in E].
    + repeat split; auto.
      intros Hexit Hdup. assert (false = true) by (apply Htest; auto). discriminate.
Qed.

(** ** Signals *)

Lemma setupWindows_set_isRunning (nw : Z -> Z -> Z -> Z -> option WINDOW) (h w : Z)
    (r : bool) (ui : ConsoleUI) :
  setupWindows nw h w (set_isRunning r ui) =
  (set_isRunning r (fst (setupWindows nw h w ui)), snd (setupWindows nw h w ui)).
Proof.
  unfold setupWindows. cbv zeta. members.
  destruct ((h <? m_minHeight) || (w <? m_minWidth)); [reflexivity |].
  repeat match goal with
         | |- context [match nw ?a ?b ?c ?d with _ => _ end] => destruct (nw a b c d)
         end; reflexivity.
Qed.

Lemma handleResize_set_isRunning (env : Env) (r : bool) (ui : ConsoleUI) :
  handleResize env (set_isRunning r ui) = set_isRunning r (handleResize env ui).
Proof.
  unfold handleResize. destruct (stdscr_maxyx env) as [h w].
  rewrite setupWindows_set_isRunning.
  destruct (setupWindows (newwin env) h w ui) as [ui1 status]. cbn [fst snd]. members.
  destruct (negb (has_value (m_resizeStatus ui)) && has_value status); reflexivity.
Qed.

Lemma processCommand_stop (command : string) (ui : ConsoleUI) :
  processCommand command (stop ui) = stop (processCommand command ui).
Proof.
  unfold processCommand.
  destruct (String.eqb command "exit"); [reflexivity |].
  destruct (String.eqb command "clear"); [reflexivity |].
  destruct (String.eqb command "help"); reflexivity.
Qed.

Lemma handleInput_switch_stop (c : SwitchCase) (env : Env) (ui : ConsoleUI) :
  handleInput_switch c env (stop ui) = option_map stop (handleInput_switch c env ui).
Proof.
  destruct c; unfold handleInput_switch; cbv zeta.
  1:{ unfold stop. rewrite handleResize_set_isRunning. reflexivity. }
  9:{ change (m_resizeStatus (stop ui)) with (m_resizeStatus ui).
      change (m_inputBuffer (stop ui)) with (m_inputBuffer ui).
      destruct (has_value (m_resizeStatus ui) && negb (string_empty (m_inputBuffer ui)));
        [| reflexivity].
      cbn [option_map]. f_equal.
      change (addOutputMessage (format_echo (m_inputBuffer ui)) (stop ui))
        with (stop (addOutputMessage (format_echo (m_inputBuffer ui)) ui)).
      change (m_inputBuffer (stop ?u)) with (m_inputBuffer u).
      rewrite processCommand_stop.
      set (P := processCommand
                  (m_inputBuffer (addOutputMessage (format_echo (m_inputBuffer ui)) ui))
                  (addOutputMessage (format_echo (m_inputBuffer ui)) ui)).
      change (m_inputBuffer (stop P)) with (m_inputBuffer P).
      change (m_commandHistory (stop P)) with (m_commandHistory P).
      destruct (negb (String.eqb (m_inputBuffer P) "exit")
                && (vector_empty (m_commandHistory P)
                    || negb (String.eqb (vector_back (m_commandHistory P)) (m_inputBuffer P))));
        reflexivity. }
  all: unfold stop, getmaxyx;
    repeat (members; cbv beta iota;
            match goal with
            | |- context [if ?b then _ else _] => destruct b
            | |- context [match ?x with Some _ => _ | None => _ end] => destruct x
            | |- context [bind ?m _] => destruct m; cbn [bind]
            end);
    reflexivity.
Qed.

(** X9. Stop signals.  [handleSignal] stops the registered object on SIGINT
    and SIGTERM, leaves it alone on any other signal and does nothing when
    no object is registered.  Stopping commutes with handling a poll: the
    object is the same whether the signal arrives before or after the poll
    is handled.  After a stop the loop of [run] handles no further poll. *)
Theorem signal_stops_the_loop (K : KeyCodes) (SIGINT SIGTERM signum : Z)
    (env : Env) (envs : list Env) (ui : ConsoleUI) :
  (signum = SIGINT \/ signum = SIGTERM ->
   handleSignal SIGINT SIGTERM signum (Some ui) = Some (stop ui)) /\
  (signum <> SIGINT -> signum <> SIGTERM ->
   handleSignal SIGINT SIGTERM signum (Some ui) = Some ui) /\
  handleSignal SIGINT SIGTERM signum None = None /\
  handleInput K env (stop ui) = option_map stop (handleInput K env ui) /\
  run_loop K envs (stop ui) = Some (stop ui).
Proof.
  split; [| split; [| split; [| split]]].
  - intros Hsig. unfold handleSignal.
    assert (E : (signum =? SIGINT) || (signum =? SIGTERM) = true).
    { apply orb_true_iff. destruct Hsig; [left | right]; now apply Z.eqb_eq. }
    now rewrite E.
  - intros H1 H2. unfold handleSignal.
    apply Z.eqb_neq in H1. apply Z.eqb_neq in H2. now rewrite H1, H2.
  - reflexivity.
  - unfold handleInput. cbv zeta.
    change (m_resizeStatus (stop ui)) with (m_resizeStatus ui).
    destruct (negb (has_value (m_resizeStatus ui)) && negb (wgetch env =? KEY_RESIZE K)
              && negb (wgetch env =? ERR K)); [reflexivity |].
    destruct (wgetch env =? ERR K); [reflexivity |].
    apply handleInput_switch_stop.
  - destruct envs; reflexivity.
Qed.

(** ** What the output window shows *)

Lemma drawOutputWindow_lines_snd (buffer : list string) (winHeight scrollOffset : Z) :
  0 <= scrollOffset ->
  map snd (drawOutputWindow_lines buffer winHeight scrollOffset) =
  map Some (slice buffer
              (Z.to_nat (Z.max 0 (vector_size buffer - winHeight - scrollOffset)))
              (Z.to_nat (Z.max 0 (vector_size buffer - scrollOffset)))).
Proof.
  intros Hs.
  destruct (drawOutputWindow_lines_slice buffer winHeight scrollOffset Hs) as (Hlast & _ & E).
  rewrite E. apply map_snd_combine.
  rewrite !length_map, length_seq, slice_length by exact Hlast. reflexivity.
Qed.

(** X10. Bottom and top of the scrollback.  With scroll offset 0 the output
    window shows the newest lines: the last [rows] lines of the scrollback,
    or all of it when it is shorter, in order, so that the newest line is
    the last one drawn.  With the largest offset page-up allows,
    [size - rows], it shows the oldest [rows] lines, beginning with the
    first line of the scrollback. *)
Theorem view_bottom_and_top (buffer : list string) (rows : nat) :
  map snd (drawOutputWindow_lines buffer (Z.of_nat rows) 0) =
    map Some (skipn (List.length buffer - rows) buffer) /\
  ((rows <= List.length buffer)%nat ->
   map snd (drawOutputWindow_lines buffer (Z.of_nat rows)
              (Z.of_nat (List.length buffer - rows))) =
     map Some (firstn rows buffer)).
Proof.
  split.
  - rewrite drawOutputWindow_lines_snd by lia. f_equal. unfold slice, vector_size.
    replace (Z.to_nat (Z.max 0 (Z.of_nat (List.length buffer) - Z.of_nat rows - 0)))
      with (List.length buffer - rows)%nat by lia.
    replace (Z.to_nat (Z.max 0 (Z.of_nat (List.length buffer) - 0)))
      with (List.length buffer) by lia.
    apply firstn_all2. rewrite length_skipn. lia.
  - intros Hrows. rewrite drawOutputWindow_lines_snd by lia. f_equal.
    unfold slice, vector_size.
    replace (Z.to_nat (Z.max 0 (Z.of_nat (List.length buffer) - Z.of_nat rows
                                 - Z.of_nat (List.length buffer - rows))))
      with 0%nat by lia.
    replace (Z.to_nat (Z.max 0 (Z.of_nat (List.length buffer)
                                 - Z.of_nat (List.length buffer - rows))))
      with rows by lia.
    rewrite skipn_0. f_equal. lia.
Qed.

Lemma set_scrollOffset_id (ui : ConsoleUI) (s : Z) :
  s = m_scrollOffset ui -> set_scrollOffset s ui = ui.
Proof.
  intros ->. destruct ui; reflexivity.
Qed.

(** X11. Paging up and down.  On a Ready layout, page-up followed by
    page-down gives back the object when a full page was still above the
    view ([s + V <= B - V]), and page-down followed by page-up when a full
    page was below it and the view was not above the top.  Page-up at the
    top offset and page-down at offset 0 change nothing. *)
Theorem paging_up_and_down (K : KeyCodes) (ui : ConsoleUI) (win : WINDOW) (scr : Z * Z)
    (nw : Z -> Z -> Z -> Z -> option WINDOW) :
  keycodes_ok K ->
  m_outputWin ui = Some win ->
  has_value (m_resizeStatus ui) = true ->
  let B := vector_size (m_outputBuffer ui) in
  let V := Z.of_nat (_maxy win) in
  let s := m_scrollOffset ui in
  let page_up := mkEnv (KEY_PPAGE K) scr nw in
  let page_down := mkEnv (KEY_NPAGE K) scr nw in
  (0 <= s -> s + V <= B - V -> handleInputs K [page_up; page_down] ui = Some ui) /\
  (V <= s <= B - V -> handleInputs K [page_down; page_up] ui = Some ui) /\
  (s = Z.max 0 (B - V) -> handleInput K page_up ui = Some ui) /\
  (s = 0 -> handleInput K page_down ui = Some ui).
Proof.
  intros HK Hwin Hready B V s page_up page_down.
  split; [| split; [| split]].
  - intros Hs Hroom. cbn [handleInputs].
    rewrite (handleInput_ppage K HK page_up ui win eq_refl Hwin Hready). cbn [bind].
    match goal with
    | |- context [handleInput K page_down ?u] =>
        rewrite (handleInput_npage K HK page_down u win eq_refl Hwin Hready)
    end. cbn [bind].
    members. fold B V s. f_equal.
    change (set_scrollOffset ?x (set_scrollOffset _ ui)) with (set_scrollOffset x ui).
    apply set_scrollOffset_id. fold s. unfold V in *. lia.
  - intros Hroom. cbn [handleInputs].
    rewrite (handleInput_npage K HK page_down ui win eq_refl Hwin Hready). cbn [bind].
    match goal with
    | |- context [handleInput K page_up ?u] =>
        rewrite (handleInput_ppage K HK page_up u win eq_refl Hwin Hready)
    end. cbn [bind].
    members. fold B V s. f_equal.
    change (set_scrollOffset ?x (set_scrollOffset _ ui)) with (set_scrollOffset x ui).
    apply set_scrollOffset_id. fold s. unfold V in *. lia.
  - intros Htop. rewrite (handleInput_ppage K HK page_up ui win eq_refl Hwin Hready).
    fold B V s. f_equal. apply set_scrollOffset_id. fold s. unfold V in *. lia.
  - intros Hzero. rewrite (handleInput_npage K HK page_down ui win eq_refl Hwin Hready).
    fold V s. f_equal. apply set_scrollOffset_id. fold s. unfold V in *. lia.
Qed.

Lemma nth_error_combine_some {A B : Type} (l1 : list A) :
  forall (l2 : list B) (r : nat) (a : A) (b : B),
    nth_error l1 r = Some a -> nth_error l2 r = Some b ->
    nth_error (combine l1 l2) r = Some (a, b).
Proof.
  induction l1 as [|x l1 IH]; intros [|y l2] [|r] a b H1 H2; cbn in *; try discriminate.
  - now inversion H1; inversion H2.
  - now apply IH.
Qed.

(** The entry drawn on row [row]. *)
Lemma drawOutputWindow_lines_nth (buffer : list string) (winHeight scrollOffset : Z)
    (row : nat) :
  0 <= scrollOffset ->
  let first := Z.to_nat (Z.max 0 (vector_size buffer - winHeight - scrollOffset)) in
  let last := Z.to_nat (Z.max 0 (vector_size buffer - scrollOffset)) in
  (row < last - first)%nat ->
  nth_error (drawOutputWindow_lines buffer winHeight scrollOffset) row =
  Some (Z.of_nat row, nth_error buffer (first + row)).
Proof.
  intros Hs first last Hrow.
  destruct (drawOutputWindow_lines_slice buffer winHeight scrollOffset Hs) as (Hlast & _ & E).
  fold first last in Hlast, E. rewrite E.
  apply nth_error_combine_some.
  - rewrite nth_error_map, nth_error_seq.
    destruct (Nat.ltb_spec row (last - first)); [reflexivity | lia].
  - rewrite nth_error_map, slice_nth_error by exact Hrow.
    destruct (nth_error buffer (first + row)) eqn:En; [reflexivity |].
    apply nth_error_None in En. lia.
Qed.

(** X13. Page-up reaches every line.  On a Ready layout showing the bottom
    of the scrollback (offset 0) in an output window of at least one row,
    every line of the scrollback comes into view by pressing page-up: line
    number [i] (from 0, oldest first) is drawn after
    [(size - 1 - i) / rows] page-up keys. *)
Theorem page_up_reaches_every_line (K : KeyCodes) (ui : ConsoleUI) (win : WINDOW)
    (scr : Z * Z) (nw : Z -> Z -> Z -> Z -> option WINDOW) (i : nat) :
  keycodes_ok K ->
  m_outputWin ui = Some win ->
  has_value (m_resizeStatus ui) = true ->
  m_scrollOffset ui = 0 ->
  (0 < _maxy win)%nat ->
  (i < List.length (m_outputBuffer ui))%nat ->
  let rows := _maxy win in
  let k := ((List.length (m_outputBuffer ui) - 1 - i) / rows)%nat in
  let page_up := mkEnv (KEY_PPAGE K) scr nw in
  exists (ui' : ConsoleUI) (row : nat),
    handleInputs K (repeat page_up k) ui = Some ui' /\
    m_outputBuffer ui' = m_outputBuffer ui /\
    (row < rows)%nat /\
    nth_error (drawOutputWindow_lines (m_outputBuffer ui') (Z.of_nat rows) (m_scrollOffset ui'))
              row =
      Some (Z.of_nat row, nth_error (m_outputBuffer ui) i).
Proof.
  intros HK Hwin Hready Hzero Hrows Hi rows k page_up.
  set (B := List.length (m_outputBuffer ui)) in *.
  assert (Hk1 : (rows * k <= B - 1 - i)%nat) by (apply Nat.Div0.mul_div_le).
  assert (Hk2 : (B - 1 - i < rows * S k)%nat) by (apply Nat.mul_succ_div_gt; lia).
  assert (Hstate : exists s',
            handleInputs K (repeat page_up k) ui = Some (set_scrollOffset s' ui) /\
            0 <= s' /\
            (Z.max 0 (Z.of_nat B - Z.of_nat rows - s') <= Z.of_nat i
             < Z.max 0 (Z.of_nat B - s')) /\
            Z.max 0 (Z.of_nat B - s') - Z.max 0 (Z.of_nat B - Z.of_nat rows - s')
              <= Z.of_nat rows).
  { clearbody k. destruct k as [|n].
    - exists 0. split.
      + cbn [repeat handleInputs]. f_equal. symmetry. now apply set_scrollOffset_id.
      + lia.
    - eexists. split.
      + apply (page_up_repeat K HK page_up win n eq_refl ui Hwin Hready). lia.
      + rewrite Hzero. unfold vector_size. fold B. fold rows.
        set (kr := Z.of_nat (S n) * Z.of_nat rows).
        assert (Ekr : kr = Z.of_nat (rows * S n)) by (unfold kr; lia).
        destruct (Z.ltb_spec 0 (Z.of_nat B - Z.of_nat rows)); lia. }
  destruct Hstate as (s' & Erun & Hs' & Hvis & Hcount).
  set (first := Z.to_nat (Z.max 0 (Z.of_nat B - Z.of_nat rows - s'))).
  exists (set_scrollOffset s' ui), (i - first)%nat.
  split; [exact Erun |]. split; [reflexivity |]. split; [unfold first; lia |].
  members.
  rewrite drawOutputWindow_lines_nth; unfold vector_size; fold B; fold first.
  - f_equal. f_equal. f_equal. unfold first. lia.
  - exact Hs'.
  - unfold first. lia.
Qed.

(** ** The cursor on the screen *)

(** X14. The cursor stays inside the input window.  On a Ready layout with
    an input window of [ww >= 1] columns, [run] puts the terminal cursor on
    row 0 at column [min cursor (ww - 1)]: at the cursor position of the
    line while it fits, and on the last column once the cursor is past the
    window, while [drawInputWindow] hands the whole line to [mvwaddnstr]
    with the limit [ww].  Without an input window, or while the layout is
    TooSmall, the cursor is not placed. *)
Theorem cursor_stays_in_the_input_window (ui : ConsoleUI) :
  (forall win : WINDOW,
     m_inputWin ui = Some win ->
     has_value (m_resizeStatus ui) = true ->
     0 <= m_cursorPos ui ->
     (0 < _maxx win)%nat ->
     let ww := Z.of_nat (_maxx win) in
     exists col,
       run_wmove ui = Some (0, col) /\
       0 <= col < ww /\
       (m_cursorPos ui < ww -> col = m_cursorPos ui) /\
       (ww <= m_cursorPos ui -> col = ww - 1) /\
       ((0 < _maxy win)%nat ->
        drawInputWindow ui = [mk_mvwaddnstr 0 0 (Some (m_inputBuffer ui)) ww])) /\
  (m_inputWin ui = None \/ has_value (m_resizeStatus ui) = false -> run_wmove ui = None).
Proof.
  split.
  - intros win Hwin Hready Hc Hx ww.
    unfold run_wmove, drawInputWindow, getmaxyx. rewrite Hwin, Hready. fold ww.
    eexists. split; [reflexivity |].
    repeat split; try lia.
    intros Hy.
    destruct (Z.leb_spec (Z.of_nat (_maxy win)) 0); [lia |].
    destruct (Z.leb_spec ww 0); [unfold ww in *; lia | reflexivity].
  - intros [Hnone | Hsmall]; unfold run_wmove.
    + now rewrite Hnone.
    + destruct (m_inputWin ui); [now rewrite Hsmall | reflexivity].
Qed.

(** ** Start-up *)

(** X15. Results of [create].  [create] fails with NCURSES_INIT_FAILED
    exactly when [initscr] fails, with COLOR_SUPPORT_MISSING exactly when
    curses starts but the terminal has no colours, and with
    CANNOT_CHANGE_COLOR exactly when colours exist but [start_color] fails;
    in the last two cases, where the terminal is already in raw mode, its
    last library call is [endwin].  In every other case it succeeds: a
    failing [setlocale], a terminal that is too small and a failed window
    allocation do not make it fail (the object is then in the TooSmall
    layout), it never reports WINDOW_SETUP_FAILED or TERMINAL_TOO_SMALL,
    and it does not call [endwin]. *)
Theorem create_results (init : CursesInit) (env : Env) :
  let calls := fst (ConsoleUI_create init env) in
  let result := snd (ConsoleUI_create init env) in
  (result = inr InitError.NCURSES_INIT_FAILED <-> initscr_ok init = false) /\
  (result = inr InitError.COLOR_SUPPORT_MISSING <->
   initscr_ok init = true /\ has_colors init = false) /\
  (result = inr InitError.CANNOT_CHANGE_COLOR <->
   initscr_ok init = true /\ has_colors init = true /\ start_color_ok init = false) /\
  (result = inl (create env) <->
   initscr_ok init = true /\ has_colors init = true /\ start_color_ok init = true) /\
  result <> inr InitError.WINDOW_SETUP_FAILED /\
  result <> inr InitError.TERMINAL_TOO_SMALL /\
  (In call_raw calls -> forall e, result = inr e -> last calls call_setlocale = call_endwin) /\
  (forall ui, result = inl ui -> ~ In call_endwin calls).
Proof.
  unfold ConsoleUI_create, initializeNcurses. cbv zeta.
  destruct (stdscr_maxyx env) as [h w].
  destruct (initscr_ok init), (has_colors init), (start_color_ok init);
    cbn [negb fst snd app];
    try (destruct (can_change_color init && (COLORS init >=? 8) && (COLOR_PAIRS init >=? 4));
         cbn [fst snd app]);
    repeat split; try discriminate; try reflexivity; try tauto;
    try (intros [? ?]; discriminate);
    try (intros (? & ? & ?); discriminate);
    try (intros ? ? ?; discriminate);
    try (intros ? ?; cbn; intuition discriminate);
    try (cbn; intuition discriminate).
Qed.

(** ** Tear-down *)

Lemma lifecycle_step_endwin (e : Lifecycle) (g : option nat) (isendwin : bool) :
  let calls := fst (lifecycle_step e (g, isendwin)) in
  let isendwin' := snd (snd (lifecycle_step e (g, isendwin))) in
  (List.length (filter is_endwin calls) <= if isendwin then 0 else 1)%nat /\
  (isendwin = true -> isendwin' = true) /\
  (List.length (filter is_endwin calls) = 1%nat -> isendwin' = true).
Proof.
  destruct e as [this other | this other | this]; cbn [lifecycle_step].
  - cbn. destruct isendwin; repeat split; auto; discriminate.
  - destruct (Nat.eqb this other);
      [cbn; destruct isendwin; repeat split; auto; discriminate |].
    destruct (compare_exchange_strong g (Some other) (Some this)) as [g1 updated].
    destruct updated; cbn; destruct isendwin; repeat split; auto; discriminate.
  - destruct (compare_exchange_strong g (Some this) None) as [g1 registered].
    destruct registered; destruct isendwin; cbn; repeat split; auto; discriminate.
Qed.

Lemma lifecycle_endwin_bound (es : list Lifecycle) :
  forall (g : option nat) (isendwin : bool),
    (List.length (filter is_endwin (fst (lifecycle es (g, isendwin))))
     <= if isendwin then 0 else 1)%nat.
Proof.
  induction es as [|e es IH]; intros g w; [cbn; destruct w; lia |].
  cbn [lifecycle].
  pose proof (lifecycle_step_endwin e g w) as S. cbv zeta in S.
  destruct (lifecycle_step e (g, w)) as [calls [g1 w1]]. cbn [fst snd] in S.
  specialize (IH g1 w1).
  destruct (lifecycle es (g1, w1)) as [calls' st2]. cbn [fst] in *.
  rewrite filter_app, length_app.
  destruct S as (S1 & S2 & S3).
  destruct w.
  - rewrite (S2 eq_refl) in IH. lia.
  - destruct w1; [lia |].
    assert (List.length (filter is_endwin calls) <> 1%nat)
      by (intros E; apply S3 in E; discriminate).
    lia.
Qed.

Lemma lifecycle_unregistered (es : list Lifecycle) :
  forall isendwin : bool, lifecycle es (None, isendwin) = ([], (None, isendwin)).
Proof.
  induction es as [|e es IH]; intros w; [reflexivity |].
  cbn [lifecycle].
  assert (E : lifecycle_step e (None, w) = ([], (None, w))).
  { destruct e as [this other | this other | this]; cbn; try reflexivity.
    destruct (Nat.eqb this other); reflexivity. }
  rewrite E, IH. reflexivity.
Qed.

(** X16. The terminal is restored at most once, and only by the registered
    object.  Over any sequence of move constructions, move assignments and
    destructions, [endwin] is called at most once, and not at all when it
    was called before.  Moving the registered object [a] into [b] and
    destroying [a], as [create] does on return, makes no library call and
    leaves [b] registered; destroying [b] then restores the terminal
    (cursor shown, raw mode left, echo on, keypad and nodelay off,
    [endwin]).  Move-assigning an unregistered object onto the registered
    one leaves no object registered, after which no destructor restores
    the terminal. *)
Theorem terminal_restored_at_most_once (es : list Lifecycle) (g : option nat)
    (isendwin : bool) (a b : nat) :
  a <> b ->
  (List.length (filter is_endwin (fst (lifecycle es (g, isendwin)))) <= 1)%nat /\
  (isendwin = true -> filter is_endwin (fst (lifecycle es (g, isendwin))) = []) /\
  lifecycle [MoveConstruct b a; Destroy a] (Some a, false) = ([], (Some b, false)) /\
  lifecycle [Destroy b] (Some b, false) =
    ([call_isendwin; call_curs_set 1; call_noraw; call_echo;
      call_keypad false; call_nodelay false; call_endwin], (None, true)) /\
  lifecycle (MoveAssign a b :: es) (Some a, isendwin) = ([], (None, isendwin)).
Proof.
  intros Hab.
  pose proof (lifecycle_endwin_bound es g isendwin) as Hbound.
  assert (Eab : Nat.eqb a b = false) by now apply Nat.eqb_neq.
  assert (Eba : Nat.eqb b a = false) by (apply Nat.eqb_neq; auto).
  split; [destruct isendwin; lia |]. split; [| split; [| split]].
  - intros ->. apply length_zero_iff_nil.
    cbn [fst] in Hbound. lia.
  - cbn -[Nat.eqb]. rewrite Nat.eqb_refl. cbn -[Nat.eqb]. rewrite Eba. reflexivity.
  - cbn -[Nat.eqb]. rewrite Nat.eqb_refl. reflexivity.
  - assert (Estep : lifecycle_step (MoveAssign a b) (Some a, isendwin) =
                    ([], (None, isendwin))).
    { unfold lifecycle_step, compare_exchange_strong.
      rewrite Eab, Nat.eqb_refl. reflexivity. }
    cbn [lifecycle]. rewrite Estep, lifecycle_unregistered. reflexivity.
Qed.

(** ** Layout *)

(** X17. Layout computation is idempotent: running [setupWindows] again
    with the same dimensions and the same allocation outcomes gives the
    same object and the same result, whatever the state before. *)
Theorem layout_is_idempotent (nw : Z -> Z -> Z -> Z -> option WINDOW) (h w : Z)
    (ui : ConsoleUI) :
  setupWindows nw h w (fst (setupWindows nw h w ui)) = setupWindows nw h w ui.
Proof.
  unfold setupWindows. cbv zeta. members.
  destruct ((h <? m_minHeight) || (w <? m_minWidth)) eqn:Esmall.
  - cbn [fst]. members. rewrite ?Esmall. reflexivity.
  - destruct (nw (h - m_inputHeight ui) w 0 0) as [ob|] eqn:Eob;
      destruct (nw (m_inputHeight ui) w (h - m_inputHeight ui) 0) as [ib|] eqn:Eib;
      cbn [fst]; members; rewrite ?Esmall, ?Eob, ?Eib; try reflexivity.
    destruct (nw (if h - m_inputHeight ui >? 2 then h - m_inputHeight ui - 2 else 0)
                 (if w >? 2 then w - 2 else 0) 1 1) as [o|] eqn:Eo;
      destruct (nw (if m_inputHeight ui >? 2 then m_inputHeight ui - 2 else 0)
                   (if w >? 2 then w - 2 else 0) (h - m_inputHeight ui + 1) 1) as [i|] eqn:Ei;
      cbn [fst]; members; rewrite ?Esmall, ?Eob, ?Eib, ?Eo, ?Ei; reflexivity.
Qed.

(** X18. Geometry of a Ready layout.  With an allocator that returns the
    windows it is asked for, a terminal of at least 10 x 40 gets: the output
    border over the top [height - 3] rows and the input border over the 3
    rows below it, both of full width, so that the two cover the terminal
    without overlap; the output window (the viewport) one cell inside the
    output border, [height - 5 >= 5] rows by [width - 2 >= 38] columns; and
    the input window one cell inside the input border, a single row. *)
Theorem ready_layout_geometry (height width : Z) (ui : ConsoleUI) :
  m_inputHeight ui = 3 ->
  10 <= height -> 40 <= width ->
  let ui' := fst (setupWindows newwin_ok height width ui) in
  snd (setupWindows newwin_ok height width ui) = has_value_ /\
  m_outputBorderWin ui' = Some (mkWINDOW (Z.to_nat (height - 3)) (Z.to_nat width) 0 0) /\
  m_inputBorderWin ui' = Some (mkWINDOW 3 (Z.to_nat width) (height - 3) 0) /\
  m_outputWin ui' = Some (mkWINDOW (Z.to_nat (height - 5)) (Z.to_nat (width - 2)) 1 1) /\
  m_inputWin ui' = Some (mkWINDOW 1 (Z.to_nat (width - 2)) (height - 2) 1) /\
  (5 <= Z.to_nat (height - 5))%nat /\ (38 <= Z.to_nat (width - 2))%nat /\
  Z.of_nat (Z.to_nat (height - 3)) + 3 = height.
Proof.
  intros Hin Hh Hw ui'. subst ui'.
  unfold setupWindows, m_minHeight, m_minWidth, newwin_ok. cbv zeta. members. rewrite Hin.
  assert (E : (height <? 10) || (width <? 40) = false).
  { apply orb_false_iff. split; now apply Z.ltb_ge. }
  rewrite E.
  assert (E1 : (height - 3 >? 2) = true) by (apply Z.gtb_lt; lia).
  assert (E2 : (width >? 2) = true) by (apply Z.gtb_lt; lia).
  rewrite E1, E2. change (3 >? 2) with true. cbv iota. cbn [fst snd]. members.
  replace (height - 3 - 2) with (height - 5) by lia.
  replace (height - 3 + 1) with (height - 2) by lia.
  repeat split; lia.
Qed.

(** ** Browsing and drafts *)

Lemma vector_at_back (history : list string) :
  history <> [] ->
  vector_at history (vector_size history - 1) = Some (vector_back history).
Proof.
  intros Hne. unfold vector_size, vector_back.
  destruct (exists_last Hne) as (h0 & x & ->).
  rewrite last_last, length_app. cbn [List.length].
  rewrite vector_at_nat by lia.
  replace (Z.to_nat (Z.of_nat (List.length h0 + 1) - 1)) with (List.length h0) by lia.
  rewrite nth_error_app2 by lia. rewrite Nat.sub_diag. reflexivity.
Qed.

(** X19. Browsing replaces the draft.  On a Ready layout with a non-empty
    History: when not browsing, up followed by down leaves an empty line
    with the cursor at 0, whatever text was being typed (the draft is not
    brought back); while browsing above the oldest entry, up followed by
    down returns to the same entry, loaded afresh with the cursor at its
    end; and, when not browsing, up followed by enter submits the newest
    entry again without adding it to History a second time. *)
Theorem browsing_replaces_the_draft (K : KeyCodes) (scr : Z * Z)
    (nw : Z -> Z -> Z -> Z -> option WINDOW) (enter : Z) (ui : ConsoleUI) :
  keycodes_ok K ->
  has_value (m_resizeStatus ui) = true ->
  m_commandHistory ui <> [] ->
  let up := mkEnv (KEY_UP K) scr nw in
  let down := mkEnv (KEY_DOWN K) scr nw in
  (m_historyIndex ui = -1 ->
   exists ui',
     handleInputs K [up; down] ui = Some ui' /\
     m_inputBuffer ui' = EmptyString /\ m_cursorPos ui' = 0 /\
     m_historyIndex ui' = -1 /\ m_commandHistory ui' = m_commandHistory ui) /\
  (0 < m_historyIndex ui < vector_size (m_commandHistory ui) ->
   exists ui',
     handleInputs K [up; down] ui = Some ui' /\
     m_historyIndex ui' = m_historyIndex ui /\
     vector_at (m_commandHistory ui) (m_historyIndex ui) = Some (m_inputBuffer ui') /\
     m_cursorPos ui' = string_length (m_inputBuffer ui') /\
     m_commandHistory ui' = m_commandHistory ui) /\
  (m_historyIndex ui = -1 ->
   is_enter K enter ->
   vector_back (m_commandHistory ui) <> EmptyString ->
   let newest := vector_back (m_commandHistory ui) in
   exists ui',
     handleInputs K [up; mkEnv enter scr nw] ui = Some ui' /\
     m_commandHistory ui' = m_commandHistory ui /\
     m_outputBuffer ui' =
       m_outputBuffer (processCommand newest (addOutputMessage (String.append "> " newest) ui)) /\
     m_inputBuffer ui' = EmptyString /\ m_historyIndex ui' = -1).
Proof.
  intros HK Hready Hne up down.
  split; [| split].
  - intros Hidx.
    destruct (handleInput_up K HK up ui eq_refl Hready Hne (or_introl Hidx))
      as (ui1 & E1 & I1 & _ & _ & _ & _ & H1 & R1).
    destruct (handleInput_down K HK down ui1 eq_refl) as (ui2 & E2 & _ & _ & D3 & H2 & _).
    { now rewrite R1. }
    { right. rewrite H1, (I1 Hidx). unfold vector_size.
      destruct (m_commandHistory ui); [now contradiction Hne | cbn [List.length]; lia]. }
    exists ui2. cbn [handleInputs]. rewrite E1. cbn [bind]. rewrite E2. cbn [bind].
    split; [reflexivity |].
    destruct D3 as (D31 & D32 & D33).
    { rewrite (I1 Hidx). unfold vector_size.
      destruct (m_commandHistory ui); [now contradiction Hne | cbn [List.length]; lia]. }
    { now rewrite H1, (I1 Hidx). }
    repeat split; auto. now rewrite H2.
  - intros Hidx.
    destruct (handleInput_up K HK up ui eq_refl Hready Hne) as (ui1 & E1 & _ & I2 & _ & _ & _ & H1 & R1);
      [right; lia |].
    destruct (handleInput_down K HK down ui1 eq_refl) as (ui2 & E2 & _ & D2 & _ & H2 & _).
    { now rewrite R1. }
    { right. rewrite H1, I2 by lia. lia. }
    exists ui2. cbn [handleInputs]. rewrite E1. cbn [bind]. rewrite E2. cbn [bind].
    split; [reflexivity |].
    destruct D2 as (D21 & D22 & D23); [rewrite H1, I2 by lia; lia |].
    rewrite H1 in D22. rewrite D21, I2 in * by lia.
    replace (m_historyIndex ui - 1 + 1) with (m_historyIndex ui) in * by lia.
    repeat split; auto. now rewrite H2.
  - intros Hidx Henter Hnewest newest.
    destruct (handleInput_up K HK up ui eq_refl Hready Hne (or_introl Hidx))
      as (ui1 & E1 & I1 & _ & _ & T1 & _ & H1 & R1).
    rewrite (I1 Hidx), (vector_at_back _ Hne) in T1. inversion T1 as [Etext].
    fold newest in Etext.
    assert (Hready1 : has_value (m_resizeStatus ui1) = true) by now rewrite R1.
    assert (Hline : m_inputBuffer ui1 <> EmptyString) by now rewrite <- Etext.
    cbn [handleInputs]. rewrite E1. cbn [bind].
    rewrite (handleInput_enter K HK (mkEnv enter scr nw) Henter ui1 Hready1 Hline).
    cbn [bind]. eexists. split; [reflexivity |]. members.
    rewrite <- Etext, H1.
    assert (Etest : negb (String.eqb newest "exit")
                    && (vector_empty (m_commandHistory ui)
                        || negb (String.eqb (vector_back (m_commandHistory ui)) newest))
                    = false).
    { fold newest. rewrite String.eqb_refl. cbn [negb].
      destruct (m_commandHistory ui); [now contradiction Hne |].
      cbn [vector_empty orb]. apply andb_false_r. }
    assert (B1 : m_outputBuffer ui1 = m_outputBuffer ui).
    { destruct (handleInput_cases K up ui ui1 E1) as [-> | Hsw]; [reflexivity |].
      cbn [wgetch up] in Hsw.
      rewrite (switch_label K HK (KEY_UP K) case_UP) in Hsw by (simpl; auto 20).
      apply (handleInput_switch_frame _ _ _ _ Hsw); discriminate. }
    rewrite Etest. repeat split.
    rewrite !processCommand_buffer. unfold addOutputMessage. members.
    rewrite B1. reflexivity.
Qed.

(** * Instances of the further properties *)

Lemma pdcurses_unprintable : keycodes_unprintable pdcurses.
Proof.
  split.
  - intros l c Hin. unfold printable. simpl in Hin.
    repeat (destruct Hin as [Hin | Hin]; [inversion Hin; subst; cbn; lia |]).
    contradiction.
  - unfold printable. cbn. lia.
Qed.

Lemma keys_leave_the_rest_alone_witness :
  handleInput pdcurses (sample_key 97) sample_ui =
    Some (set_cursorPos 1 (set_inputBuffer "a" sample_ui)) /\
  m_commandHistory (set_cursorPos 1 (set_inputBuffer "a" sample_ui)) =
    m_commandHistory sample_ui /\
  m_outputWin (set_cursorPos 1 (set_inputBuffer "a" sample_ui)) = m_outputWin sample_ui.
Proof.
  assert (H : handleInput pdcurses (sample_key 97) sample_ui =
              Some (set_cursorPos 1 (set_inputBuffer "a" sample_ui)))
    by (vm_compute; reflexivity).
  split; [exact H |].
  destruct (keys_leave_the_rest_alone pdcurses (sample_key 97) sample_ui _ H)
    as (F1 & _ & F3 & _).
  split.
  - apply F1. intros [E | [E | E]]; discriminate E.
  - apply F3. discriminate.
Defined.

Lemma history_append_only_witness :
  exists ui',
    handleInput pdcurses (sample_key 10) (set_inputBuffer "look" sample_ui) = Some ui' /\
    (exists added, m_commandHistory ui' = m_commandHistory sample_ui ++ added) /\
    no_adjacent_dup (m_commandHistory ui').
Proof.
  destruct (handleInput pdcurses (sample_key 10) (set_inputBuffer "look" sample_ui))
    as [ui'|] eqn:E; [| vm_compute in E; discriminate E].
  exists ui'. split; [reflexivity |].
  destruct (history_append_only pdcurses (sample_key 10) _ ui' E) as (_ & Hadd & Hnd).
  split; [exact Hadd | apply Hnd; exact I].
Defined.

Lemma ignored_polls_change_nothing_witness :
  let ui := create (mkEnv (-1) (5, 20) newwin_ok) in
  Forall (ignored_poll pdcurses ui) [sample_key (-1); sample_key 97] /\
  handleInputs pdcurses [sample_key (-1); sample_key 97] ui = Some ui.
Proof.
  cbv zeta.
  assert (H : Forall (ignored_poll pdcurses (create (mkEnv (-1) (5, 20) newwin_ok)))
                     [sample_key (-1); sample_key 97]).
  { apply Forall_cons; [left; reflexivity |].
    apply Forall_cons; [| apply Forall_nil].
    right. left. split; [reflexivity | discriminate]. }
  split; [exact H |].
  exact (proj1 (ignored_polls_change_nothing pdcurses _ _ H)).
Defined.

Lemma only_exit_stops_the_loop_witness :
  exists ui',
    handleInput pdcurses (sample_key 10)
      (set_inputBuffer "exit" (set_isRunning true sample_ui)) = Some ui' /\
    run_loop pdcurses [sample_key 10; sample_key 97; sample_key 10]
      (set_inputBuffer "exit" (set_isRunning true sample_ui)) = Some ui'.
Proof.
  destruct (handleInput pdcurses (sample_key 10)
              (set_inputBuffer "exit" (set_isRunning true sample_ui)))
    as [ui'|] eqn:E; [| vm_compute in E; discriminate E].
  exists ui'. split; [reflexivity |].
  apply (proj2 (only_exit_stops_the_loop pdcurses (sample_key 10) _ ui'
                  [sample_key 97; sample_key 10] E)).
  - reflexivity.
  - vm_compute in E. inversion E. reflexivity.
Defined.

Lemma typing_inserts_at_cursor_witness :
  keycodes_unprintable pdcurses /\
  has_value (m_resizeStatus sample_ui) = true /\
  0 <= m_cursorPos sample_ui <= string_length (m_inputBuffer sample_ui) /\
  Forall printable (key_codes "look") /\
  handleInputs pdcurses (polls (24, 80) newwin_ok (key_codes "look")) sample_ui =
    Some (set_cursorPos 4 (set_inputBuffer "look" sample_ui)).
Proof.
  assert (Hp : Forall printable (key_codes "look"))
    by (repeat constructor; unfold printable; cbn; lia).
  assert (Hc : 0 <= m_cursorPos sample_ui <= string_length (m_inputBuffer sample_ui))
    by (cbn; lia).
  split; [exact pdcurses_unprintable |]. split; [reflexivity |].
  split; [exact Hc |]. split; [exact Hp |].
  exact (proj2 (typing_inserts_at_cursor pdcurses (24, 80) newwin_ok "look" sample_ui
                  pdcurses_unprintable eq_refl Hc Hp) eq_refl).
Defined.

Lemma insert_then_erase_restores_witness :
  let ui := set_cursorPos 2 (set_inputBuffer "look" sample_ui) in
  printable 97 /\ is_backspace pdcurses 127 /\
  handleInputs pdcurses (polls (24, 80) newwin_ok [97; 127]) ui = Some ui.
Proof.
  cbv zeta.
  assert (Hp : printable 97) by (unfold printable; lia).
  assert (Hbs : is_backspace pdcurses 127) by (right; left; reflexivity).
  split; [exact Hp |]. split; [exact Hbs |].
  apply (insert_then_erase_restores pdcurses (24, 80) newwin_ok 97 127
           (set_cursorPos 2 (set_inputBuffer "look" sample_ui))
           pdcurses_ok pdcurses_unprintable eq_refl); [cbn; lia | exact Hp | exact Hbs].
Defined.

Lemma cursor_keys_move_within_the_line_witness :
  let ui := set_cursorPos 2 (set_inputBuffer "look" sample_ui) in
  keycodes_ok pdcurses /\
  has_value (m_resizeStatus ui) = true /\
  handleInputs pdcurses (polls (24, 80) newwin_ok [0x104; 0x105]) ui = Some ui.
Proof.
  cbv zeta. split; [exact pdcurses_ok |]. split; [reflexivity |].
  apply (cursor_keys_move_within_the_line pdcurses (24, 80) newwin_ok
           (set_cursorPos 2 (set_inputBuffer "look" sample_ui)) pdcurses_ok eq_refl).
  cbn. lia.
Defined.

Lemma look_is_printable : Forall printable (key_codes "look").
Proof.
  repeat constructor; unfold printable; cbn; lia.
Qed.

Lemma type_and_submit_witness :
  Forall printable (key_codes "look") /\
  exists ui',
    handleInputs pdcurses (polls (24, 80) newwin_ok (key_codes "look" ++ [10])) sample_ui
      = Some ui' /\
    m_outputBuffer ui' = ["> look"; "Unknown: 'look'"]%string /\
    m_commandHistory ui' = ["look"%string].
Proof.
  split; [exact look_is_printable |].
  destruct (type_and_submit pdcurses (24, 80) newwin_ok "look" 10 sample_ui
              pdcurses_ok pdcurses_unprintable eq_refl eq_refl eq_refl)
    as (ui' & E & Hb & _ & _ & Hh & _).
  - discriminate.
  - exact look_is_printable.
  - right. left. reflexivity.
  - exists ui'. split; [exact E |]. split.
    + rewrite Hb. reflexivity.
    + rewrite Hh; [reflexivity | discriminate |].
      intros h0 Eh. destruct h0; discriminate Eh.
Defined.

Lemma paging_up_and_down_witness :
  keycodes_ok pdcurses /\
  m_outputWin sample_scrollback = Some (mkWINDOW 4 78 1 1) /\
  has_value (m_resizeStatus sample_scrollback) = true /\
  handleInputs pdcurses [sample_key 0x153; sample_key 0x152] sample_scrollback =
    Some sample_scrollback.
Proof.
  split; [exact pdcurses_ok |]. split; [reflexivity |]. split; [reflexivity |].
  apply (proj1 (paging_up_and_down pdcurses sample_scrollback (mkWINDOW 4 78 1 1)
                  (24, 80) newwin_ok pdcurses_ok eq_refl eq_refl));
    vm_compute; discriminate.
Defined.

Lemma page_up_reaches_every_line_witness :
  keycodes_ok pdcurses /\
  m_scrollOffset sample_scrollback = 0 /\
  exists ui' row,
    handleInputs pdcurses (repeat (sample_key 0x153) 2) sample_scrollback = Some ui' /\
    nth_error (drawOutputWindow_lines (m_outputBuffer ui') 4 (m_scrollOffset ui')) row =
      Some (Z.of_nat row, Some "l0"%string).
Proof.
  split; [exact pdcurses_ok |]. split; [reflexivity |].
  destruct (page_up_reaches_every_line pdcurses sample_scrollback (mkWINDOW 4 78 1 1)
              (24, 80) newwin_ok 0 pdcurses_ok eq_refl eq_refl eq_refl)
    as (ui' & row & E & _ & _ & Hdraw).
  - cbn. lia.
  - vm_compute. lia.
  - exists ui', row. split; [exact E | exact Hdraw].
Defined.

Lemma cursor_stays_in_the_input_window_witness :
  let ui := set_cursorPos 100 sample_ui in
  m_inputWin ui = Some (mkWINDOW 1 78 22 1) /\
  has_value (m_resizeStatus ui) = true /\
  run_wmove ui = Some (0, 77).
Proof.
  cbv zeta. split; [reflexivity |]. split; [reflexivity |].
  destruct (proj1 (cursor_stays_in_the_input_window (set_cursorPos 100 sample_ui))
              (mkWINDOW 1 78 22 1) eq_refl eq_refl)
    as (col & E & _ & _ & Hlast & _).
  - cbn. lia.
  - cbn. lia.
  - rewrite E, Hlast; [reflexivity | cbn; lia].
Defined.

Lemma terminal_restored_at_most_once_witness :
  1%nat <> 2%nat /\
  fst (lifecycle [MoveConstruct 2 1; Destroy 1; MoveConstruct 3 2; Destroy 2; Destroy 3]
         (Some 1%nat, false)) =
    [call_isendwin; call_curs_set 1; call_noraw; call_echo;
     call_keypad false; call_nodelay false; call_endwin] /\
  (List.length
     (filter is_endwin
        (fst (lifecycle [MoveConstruct 2 1; Destroy 1; MoveConstruct 3 2; Destroy 2; Destroy 3]
                (Some 1%nat, false)))) <= 1)%nat.
Proof.
  assert (H : 1%nat <> 2%nat) by discriminate.
  split; [exact H |]. split; [reflexivity |].
  exact (proj1 (terminal_restored_at_most_once
                  [MoveConstruct 2 1; Destroy 1; MoveConstruct 3 2; Destroy 2; Destroy 3]
                  (Some 1%nat) false 1 2 H)).
Defined.

Lemma ready_layout_geometry_witness :
  m_inputHeight (ConsoleUI_ctor 24 80) = 3 /\ 10 <= 24 /\ 40 <= 80 /\
  m_outputWin (fst (setupWindows newwin_ok 24 80 (ConsoleUI_ctor 24 80))) =
    Some (mkWINDOW 19 78 1 1).
Proof.
  split; [reflexivity |]. split; [lia |]. split; [lia |].
  destruct (ready_layout_geometry 24 80 (ConsoleUI_ctor 24 80) eq_refl)
    as (_ & _ & _ & H & _); [lia | lia |].
  exact H.
Defined.

Lemma browsing_replaces_the_draft_witness :
  let ui := set_inputBuffer "draft"
              (set_commandHistory ["a"; "b"; "c"]%string sample_ui) in
  keycodes_ok pdcurses /\
  has_value (m_resizeStatus ui) = true /\
  m_commandHistory ui <> [] /\
  m_historyIndex ui = -1 /\
  exists ui',
    handleInputs pdcurses [sample_key 0x103; sample_key 0x102] ui = Some ui' /\
    m_inputBuffer ui' = EmptyString.
Proof.
  cbv zeta. split; [exact pdcurses_ok |]. split; [reflexivity |].
  split; [discriminate |]. split; [reflexivity |].
  destruct (proj1 (browsing_replaces_the_draft pdcurses (24, 80) newwin_ok 10
                     (set_inputBuffer "draft"
                        (set_commandHistory ["a"; "b"; "c"]%string sample_ui))
                     pdcurses_ok eq_refl ltac:(discriminate)) eq_refl)
    as (ui' & E & Htext & _).
  exists ui'. split; [exact E | exact Htext].
Defined.
